(** * kcp-users-controller: the reconciliation engine and its directory clients

    A shallow embedding of
      - [api/v1alpha1/user_types.go]                 (module [kcpv1alpha1]),
      - package [userpool]                           (module [userpool]),
      - [pkg/cognito/aws.go] and the [CognitoAPI] interface
                                                     (modules [cognito], [types],
                                                      [cognitoidentityprovider]),
      - [pkg/cognito/mock.go]                        (module [mock]),
      - the controller of package [controller]       (module [controller]),
    followed by the properties of the reconciliation pass.

    Conventions.
      - A Go [string] is a [string]; [==] on strings is [String.eqb].
      - A Go slice of strings is [option (list string)]: [None] is the nil
        slice, [Some l] a non-nil slice with elements [l].
      - A Go [error] value is [option error]: [None] is the nil error.
      - A Go function returning a pointer to [T] and an [error] returns
        [T + error]: the callers in this repository read the pointer only
        when the error is nil, and no implementation in it returns a nil
        pointer with a nil error.
      - A pointer argument that the callee tests against nil is an [option].
      - A callee that is handed a pointer to a resource and may write to it
        returns the resource as it left it.
      - External collaborators (object store, clock, Cognito API) act on an
        abstract world [W]: a call is a function [W -> A * W].
      - Logging ([log.Info], [log.Error]) has no effect on any value the
        program computes and is left out. *)

From Stdlib Require Import ZArith String List Bool Lia.
From stdpp Require Import base option list gmap strings.
Import ListNotations.

Local Open Scope string_scope.
Local Open Scope list_scope.

(** ** State passing *)

Definition State (S A : Type) : Type := S -> A * S.

#[global] Instance state_ret {S : Type} : MRet (State S) :=
  fun A (a : A) (s : S) => (a, s).

#[global] Instance state_bind {S : Type} : MBind (State S) :=
  fun A B (k : A -> State S B) (m : State S A) (s : S) =>
    let (a, s') := m s in k a s'.

(** ** Go errors: [errors.New], [fmt.Errorf] with [%w], the typed errors the
    code inspects *)

Module errors.

Inductive error : Type :=
| errorString (s : string)                 (* errors.New, fmt.Errorf without %w *)
| wrapError (msg : string) (err : error)   (* fmt.Errorf("...%w", err) *)
| UsernameExistsException (msg : string)   (* cognito types *)
| UserNotFoundException (msg : string)     (* cognito types *)
| StatusError (reason : string) (code : Z) (msg : string).
    (* k8s.io/apimachinery api errors: the reason, HTTP code and message of
       the status *)

(** [err.Error()] *)
Definition Error (e : error) : string :=
  match e with
  | errorString s => s
  | wrapError msg _ => msg
  | UsernameExistsException msg => "UsernameExistsException: " ++ msg
  | UserNotFoundException msg => "UserNotFoundException: " ++ msg
  | StatusError _ _ msg => msg
  end.

(** [fmt.Errorf(prefix + "%w", err)], [prefix] being the formatted text
    before the verb. *)
Definition Errorf (prefix : string) (err : error) : error :=
  wrapError (prefix ++ Error err) err.

(** [errors.Unwrap] *)
Definition Unwrap (e : error) : option error :=
  match e with
  | wrapError _ err => Some err
  | _ => None
  end.

(** [errors.As(err, &target)] for [target : *types.UsernameExistsException]:
    the chain of wrapped errors is searched. *)
Fixpoint AsUsernameExists (e : error) : bool :=
  match e with
  | UsernameExistsException _ => true
  | wrapError _ err => AsUsernameExists err
  | _ => false
  end.

(** [errors.As(err, &target)] for [target : *types.UserNotFoundException]. *)
Fixpoint AsUserNotFound (e : error) : bool :=
  match e with
  | UserNotFoundException _ => true
  | wrapError _ err => AsUserNotFound err
  | _ => false
  end.

(** [reasonAndCodeForError] of apimachinery: the reason and the HTTP code of
    the first API status in the chain of wrapped errors, and the unknown
    reason (the empty string) with code 0 when the chain holds none. *)
Fixpoint reasonAndCodeForError (e : error) : string * Z :=
  match e with
  | StatusError reason code _ => (reason, code)
  | wrapError _ err => reasonAndCodeForError err
  | _ => ("", 0%Z)
  end.

(** [knownReasons] of apimachinery: the reasons the library itself issues;
    the unknown reason is not among them. *)
Definition knownReasons : list string :=
  ["Unauthorized"; "Forbidden"; "NotFound"; "AlreadyExists"; "Conflict";
   "Gone"; "Invalid"; "ServerTimeout"; "Timeout"; "TooManyRequests";
   "BadRequest"; "MethodNotAllowed"; "NotAcceptable"; "RequestEntityTooLarge";
   "UnsupportedMediaType"; "InternalError"; "Expired"; "ServiceUnavailable"].

(** [errors.IsNotFound] of apimachinery: the reason is [NotFound], or the
    reason is not a known one and the HTTP code is 404. *)
Definition IsNotFound (e : error) : bool :=
  let (reason, code) := reasonAndCodeForError e in
  if String.eqb reason "NotFound" then true
  else if negb (existsb (String.eqb reason) knownReasons) && (code =? 404)%Z then true
  else false.

End errors.

Import errors.

(** ** [metav1] *)

Module metav1.

(** An instant; only ever produced by the clock and stored. *)
Definition Time : Type := Z.

Record Condition : Type := {
  Type_ : string;
  Status : string;
  ObservedGeneration : Z;
  LastTransitionTime : Time;
  Reason : string;
  Message : string
}.

Record ObjectMeta : Type := {
  Name : string;
  Namespace : string;
  DeletionTimestamp : option Time;
  Finalizers : option (list string);
  Annotations : option (gmap string string)
}.

End metav1.

(** ** [api/v1alpha1/user_types.go] *)

Module kcpv1alpha1.

Record UserSpec : Type := {
  Email : string;
  Enabled : bool
}.

Record UserStatus : Type := {
  Sub : string;
  UserPoolStatus : string;
  LastSyncTime : option metav1.Time;
  ObservedGeneration : Z;
  Conditions : option (list metav1.Condition)
}.

Record User : Type := {
  ObjectMeta : metav1.ObjectMeta;
  Spec : UserSpec;
  Status : UserStatus
}.

(** Promoted fields of the embedded [ObjectMeta]. *)
Definition Name (u : User) : string := metav1.Name (ObjectMeta u).
Definition DeletionTimestamp (u : User) : option metav1.Time :=
  metav1.DeletionTimestamp (ObjectMeta u).
Definition Finalizers (u : User) : option (list string) :=
  metav1.Finalizers (ObjectMeta u).
Definition Annotations (u : User) : option (gmap string string) :=
  metav1.Annotations (ObjectMeta u).

(** Assignments to single fields. *)
Definition set_Finalizers (u : User) (fs : option (list string)) : User :=
  {| ObjectMeta :=
       {| metav1.Name := metav1.Name (ObjectMeta u);
          metav1.Namespace := metav1.Namespace (ObjectMeta u);
          metav1.DeletionTimestamp := metav1.DeletionTimestamp (ObjectMeta u);
          metav1.Finalizers := fs;
          metav1.Annotations := metav1.Annotations (ObjectMeta u) |};
     Spec := Spec u;
     Status := Status u |}.

Definition set_Annotations (u : User) (a : option (gmap string string)) : User :=
  {| ObjectMeta :=
       {| metav1.Name := metav1.Name (ObjectMeta u);
          metav1.Namespace := metav1.Namespace (ObjectMeta u);
          metav1.DeletionTimestamp := metav1.DeletionTimestamp (ObjectMeta u);
          metav1.Finalizers := metav1.Finalizers (ObjectMeta u);
          metav1.Annotations := a |};
     Spec := Spec u;
     Status := Status u |}.

Definition set_Status (u : User) (st : UserStatus) : User :=
  {| ObjectMeta := ObjectMeta u; Spec := Spec u; Status := st |}.

Definition set_Sub (st : UserStatus) (sub : string) : UserStatus :=
  {| Sub := sub;
     UserPoolStatus := UserPoolStatus st;
     LastSyncTime := LastSyncTime st;
     ObservedGeneration := ObservedGeneration st;
     Conditions := Conditions st |}.

Definition set_UserPoolStatus (st : UserStatus) (s : string) : UserStatus :=
  {| Sub := Sub st;
     UserPoolStatus := s;
     LastSyncTime := LastSyncTime st;
     ObservedGeneration := ObservedGeneration st;
     Conditions := Conditions st |}.

Definition set_LastSyncTime (st : UserStatus) (t : option metav1.Time) : UserStatus :=
  {| Sub := Sub st;
     UserPoolStatus := UserPoolStatus st;
     LastSyncTime := t;
     ObservedGeneration := ObservedGeneration st;
     Conditions := Conditions st |}.

End kcpv1alpha1.

(** ** Package [userpool]: the account and the client interface *)

Module userpool.

(** Modelled from the spec: the declaration of [User] with its [Sub] field is
    missing from the sources (the declaration at hand predates the field). The spec's
    directory account has a username, an email, an enabled flag and a subject
    id; [aws.go] and [mock.go] build [userpool.User] values with exactly the
    fields [Username], [Email], [Enabled] and [Sub]. *)
Record User : Type := {
  Username : string;
  Email : string;
  Enabled : bool;
  Sub : string
}.

(** The [Client] interface: the four operations the controller calls, with
    the signatures of their implementations in [aws.go] and [mock.go]
    ([CreateUser] returns the created account). A [*User] argument may be
    nil ([None]). [ListUsers], which the controller never calls, is left
    out. *)
Record Client (W : Type) : Type := {
  CreateUser : option User -> State W (User + error);
  GetUser : string -> State W (User + error);
  UpdateUser : option User -> State W (option error);
  DeleteUser : string -> State W (option error)
}.

Arguments CreateUser {W} _ _ _.
Arguments GetUser {W} _ _ _.
Arguments UpdateUser {W} _ _ _.
Arguments DeleteUser {W} _ _ _.

End userpool.

(** ** The Cognito SDK as the AWS client sees it (the [CognitoAPI] interface) *)

Module types.

Record AttributeType : Type := {
  Name : option string;
  Value : option string
}.

Record UserType : Type := {
  Attributes : list AttributeType;
  Username : option string;
  Enabled : bool
}.

Inductive MessageActionType : Type :=
| MessageActionTypeUnset
| MessageActionTypeResend
| MessageActionTypeSuppress.

Module UserPoolDescriptionType.
Record t : Type := {
  Id : option string;
  Name : option string
}.
End UserPoolDescriptionType.

End types.

Module cognitoidentityprovider.

Module AdminCreateUserInput.
Record t : Type := {
  UserPoolId : option string;
  Username : option string;
  UserAttributes : list types.AttributeType;
  MessageAction : types.MessageActionType
}.
End AdminCreateUserInput.

Module AdminCreateUserOutput.
Record t : Type := { User : option types.UserType }.
End AdminCreateUserOutput.

Module AdminGetUserInput.
Record t : Type := { UserPoolId : option string; Username : option string }.
End AdminGetUserInput.

Module AdminGetUserOutput.
Record t : Type := {
  Enabled : bool;
  UserAttributes : list types.AttributeType;
  Username : option string
}.
End AdminGetUserOutput.

Module AdminUpdateUserAttributesInput.
Record t : Type := {
  UserPoolId : option string;
  Username : option string;
  UserAttributes : list types.AttributeType
}.
End AdminUpdateUserAttributesInput.

Module AdminEnableUserInput.
Record t : Type := { UserPoolId : option string; Username : option string }.
End AdminEnableUserInput.

Module AdminDisableUserInput.
Record t : Type := { UserPoolId : option string; Username : option string }.
End AdminDisableUserInput.

Module AdminDeleteUserInput.
Record t : Type := { UserPoolId : option string; Username : option string }.
End AdminDeleteUserInput.

Module ListUsersInput.
Record t : Type := { UserPoolId : option string; PaginationToken : option string }.
End ListUsersInput.

Module ListUsersOutput.
Record t : Type := {
  Users : list types.UserType;
  PaginationToken : option string
}.
End ListUsersOutput.

Module ListUserPoolsInput.
Record t : Type := { MaxResults : option Z; NextToken : option string }.
End ListUserPoolsInput.

Module ListUserPoolsOutput.
Record t : Type := {
  UserPools : list types.UserPoolDescriptionType.t;
  NextToken : option string
}.
End ListUserPoolsOutput.

(** The two listing operations of the [CognitoAPI] interface. They are kept
    in a record of their own, beside the six operations of
    [cognito.CognitoAPI]; a Go value of the interface provides both. *)
Record ListingAPI (W : Type) : Type := {
  ListUsers : ListUsersInput.t -> State W (ListUsersOutput.t + error);
  ListUserPools : ListUserPoolsInput.t -> State W (ListUserPoolsOutput.t + error)
}.

Arguments ListUsers {W} _ _ _.
Arguments ListUserPools {W} _ _ _.

End cognitoidentityprovider.

Module cognito.

Import cognitoidentityprovider.

(** The part of [CognitoAPI] behind the four client operations. The
    outputs of update, enable, disable and delete carry nothing the client
    reads: only the error is returned. *)
Record CognitoAPI (W : Type) : Type := {
  AdminCreateUser : AdminCreateUserInput.t -> State W (AdminCreateUserOutput.t + error);
  AdminGetUser : AdminGetUserInput.t -> State W (AdminGetUserOutput.t + error);
  AdminUpdateUserAttributes : AdminUpdateUserAttributesInput.t -> State W (option error);
  AdminEnableUser : AdminEnableUserInput.t -> State W (option error);
  AdminDisableUser : AdminDisableUserInput.t -> State W (option error);
  AdminDeleteUser : AdminDeleteUserInput.t -> State W (option error)
}.

Arguments AdminCreateUser {W} _ _ _.
Arguments AdminGetUser {W} _ _ _.
Arguments AdminUpdateUserAttributes {W} _ _ _.
Arguments AdminEnableUser {W} _ _ _.
Arguments AdminDisableUser {W} _ _ _.
Arguments AdminDeleteUser {W} _ _ _.

(** The loop
    [for _, attr := range attrs { if attr.Name != nil && *attr.Name == name
     && attr.Value != nil { x = *attr.Value; break } }]:
    the value of the first attribute that passes the test, if any. *)
Fixpoint firstAttribute (name : string) (attrs : list types.AttributeType)
  : option string :=
  match attrs with
  | [] => None
  | attr :: rest =>
      match types.Name attr, types.Value attr with
      | Some n, Some v =>
          if String.eqb n name then Some v else firstAttribute name rest
      | _, _ => firstAttribute name rest
      end
  end.

Section AWS.

Context {W : Type}.

Record AWSClient : Type := {
  cognito : CognitoAPI W;
  userPoolID : string
}.

(** [GetUser] retrieves a user from the Cognito user pool by username. *)
Definition GetUser (c : AWSClient) (username : string)
  : State W (userpool.User + error) :=
  if String.eqb username "" then
    mret (inr (errorString "username cannot be empty"))
  else
    let input := {| AdminGetUserInput.UserPoolId := Some (userPoolID c);
                    AdminGetUserInput.Username := Some username |} in
    res ← AdminGetUser (cognito c) input;
    match res with
    | inr err =>
        mret (inr (Errorf ("failed to get user " ++ username ++ ": ") err))
    | inl output =>
        let user := {| userpool.Username := username;
                       userpool.Email := "";
                       userpool.Enabled := AdminGetUserOutput.Enabled output;
                       userpool.Sub := username |} in
        match firstAttribute "email" (AdminGetUserOutput.UserAttributes output) with
        | Some v =>
            mret (inl {| userpool.Username := userpool.Username user;
                         userpool.Email := v;
                         userpool.Enabled := userpool.Enabled user;
                         userpool.Sub := userpool.Sub user |})
        | None => mret (inl user)
        end
    end.

(** [CreateUser] creates a new user in the Cognito user pool. *)
Definition CreateUser (c : AWSClient) (user : option userpool.User)
  : State W (userpool.User + error) :=
  match user with
  | None => mret (inr (errorString "user cannot be nil"))
  | Some user =>
      if String.eqb (userpool.Email user) "" then
        mret (inr (errorString "email cannot be empty"))
      else
        let attributes :=
          [ {| types.Name := Some "email";
               types.Value := Some (userpool.Email user) |};
            {| types.Name := Some "email_verified";
               types.Value := Some "true" |} ] in
        let input :=
          {| AdminCreateUserInput.UserPoolId := Some (userPoolID c);
             AdminCreateUserInput.Username := Some (userpool.Email user);
             AdminCreateUserInput.UserAttributes := attributes;
             AdminCreateUserInput.MessageAction := types.MessageActionTypeSuppress |} in
        res ← AdminCreateUser (cognito c) input;
        match res with
        | inr err =>
            if AsUsernameExists err then
              GetUser c (userpool.Email user)
            else
              mret (inr (Errorf ("failed to create user "
                                   ++ userpool.Email user ++ ": ") err))
        | inl resp =>
            let createdUser :=
              {| userpool.Username := userpool.Username user;
                 userpool.Email := userpool.Email user;
                 userpool.Enabled := userpool.Enabled user;
                 userpool.Sub := userpool.Email user |} in
            match AdminCreateUserOutput.User resp with
            | Some u =>
                if (0 <? Z.of_nat (length (types.Attributes u)))%Z then
                  match firstAttribute "sub" (types.Attributes u) with
                  | Some v =>
                      mret (inl {| userpool.Username := userpool.Username createdUser;
                                   userpool.Email := userpool.Email createdUser;
                                   userpool.Enabled := userpool.Enabled createdUser;
                                   userpool.Sub := v |})
                  | None => mret (inl createdUser)
                  end
                else mret (inl createdUser)
            | None => mret (inl createdUser)
            end
        end
  end.

(** [UpdateUser] updates an existing user in the Cognito user pool. *)
Definition UpdateUser (c : AWSClient) (user : option userpool.User)
  : State W (option error) :=
  match user with
  | None => mret (Some (errorString "user cannot be nil"))
  | Some user =>
      if String.eqb (userpool.Username user) "" then
        mret (Some (errorString "username cannot be empty"))
      else
        let attributes :=
          [ {| types.Name := Some "email";
               types.Value := Some (userpool.Email user) |} ] in
        let updateInput :=
          {| AdminUpdateUserAttributesInput.UserPoolId := Some (userPoolID c);
             AdminUpdateUserAttributesInput.Username := Some (userpool.Username user);
             AdminUpdateUserAttributesInput.UserAttributes := attributes |} in
        err ← AdminUpdateUserAttributes (cognito c) updateInput;
        match err with
        | Some err =>
            mret (Some (Errorf ("failed to update user attributes for "
                                  ++ userpool.Username user ++ ": ") err))
        | None =>
            if userpool.Enabled user then
              let enableInput :=
                {| AdminEnableUserInput.UserPoolId := Some (userPoolID c);
                   AdminEnableUserInput.Username := Some (userpool.Username user) |} in
              err ← AdminEnableUser (cognito c) enableInput;
              match err with
              | Some err =>
                  mret (Some (Errorf ("failed to enable user "
                                        ++ userpool.Username user ++ ": ") err))
              | None => mret None
              end
            else
              let disableInput :=
                {| AdminDisableUserInput.UserPoolId := Some (userPoolID c);
                   AdminDisableUserInput.Username := Some (userpool.Username user) |} in
              err ← AdminDisableUser (cognito c) disableInput;
              match err with
              | Some err =>
                  mret (Some (Errorf ("failed to disable user "
                                        ++ userpool.Username user ++ ": ") err))
              | None => mret None
              end
        end
  end.

(** [DeleteUser] removes a user from the Cognito user pool. *)
Definition DeleteUser (c : AWSClient) (username : string)
  : State W (option error) :=
  if String.eqb username "" then
    mret (Some (errorString "username cannot be empty"))
  else
    let input := {| AdminDeleteUserInput.UserPoolId := Some (userPoolID c);
                    AdminDeleteUserInput.Username := Some username |} in
    err ← AdminDeleteUser (cognito c) input;
    match err with
    | Some err =>
        if AsUserNotFound err then
          (* User doesn't exist, this is not an error for deletion *)
          mret None
        else
          mret (Some (Errorf ("failed to delete user " ++ username ++ ": ") err))
    | None => mret None
    end.

(** [*AWSClient] implements [userpool.Client]. *)
Definition AWSClient_Client (c : AWSClient) : userpool.Client W :=
  {| userpool.CreateUser := CreateUser c;
     userpool.GetUser := GetUser c;
     userpool.UpdateUser := UpdateUser c;
     userpool.DeleteUser := DeleteUser c |}.

End AWS.

Arguments AWSClient W : clear implicits.

Section Listing.

Context {W : Type}.

(** The body of [for _, cognitoUser := range output.Users] in [ListUsers]:
    a user without username is skipped, the others are appended with the
    value of their first email attribute. [users] may be the nil slice. *)
Fixpoint appendUsers (users : option (list userpool.User))
    (page : list types.UserType) : option (list userpool.User) :=
  match page with
  | [] => users
  | cognitoUser :: rest =>
      match types.Username cognitoUser with
      | None => appendUsers users rest
      | Some username =>
          let user := {| userpool.Username := username;
                         userpool.Email := "";
                         userpool.Enabled := types.Enabled cognitoUser;
                         userpool.Sub := "" |} in
          let user :=
            match firstAttribute "email" (types.Attributes cognitoUser) with
            | Some v => {| userpool.Username := userpool.Username user;
                           userpool.Email := v;
                           userpool.Enabled := userpool.Enabled user;
                           userpool.Sub := userpool.Sub user |}
            | None => user
            end in
          appendUsers
            (Some (match users with None => [] | Some l => l end ++ [user])) rest
      end
  end.

(** The [for] loop of [ListUsers]; [fuel] bounds the number of pages, and
    [None] means that the bound was reached before the last page. *)
Fixpoint ListUsers_loop (fuel : nat) (api : ListingAPI W) (c : AWSClient W)
    (users : option (list userpool.User)) (nextToken : option string)
  : State W (option (option (list userpool.User) + error)) :=
  match fuel with
  | O => mret None
  | S fuel' =>
      let input := {| ListUsersInput.UserPoolId := Some (userPoolID c);
                      ListUsersInput.PaginationToken := nextToken |} in
      res ← cognitoidentityprovider.ListUsers api input;
      match res with
      | inr err => mret (Some (inr (Errorf "failed to list users: " err)))
      | inl output =>
          let users := appendUsers users (ListUsersOutput.Users output) in
          match ListUsersOutput.PaginationToken output with
          | None => mret (Some (inl users))
          | Some t => ListUsers_loop fuel' api c users (Some t)
          end
      end
  end.

(** [ListUsers] lists all users in the Cognito user pool. *)
Definition ListUsers (fuel : nat) (api : ListingAPI W) (c : AWSClient W)
  : State W (option (option (list userpool.User) + error)) :=
  ListUsers_loop fuel api c None None.

(** [strings.EqualFold] (standard library), taken as given. *)
Variable EqualFold : string -> string -> bool.

(** The body of [for _, userPool := range output.UserPools] in
    [findUserPoolIDByName]: the id of the first pool whose name is not nil and
    folds equal to [userPoolName] and whose id is not nil. *)
Fixpoint matchingPool (pools : list types.UserPoolDescriptionType.t)
    (userPoolName : string) : option string :=
  match pools with
  | [] => None
  | userPool :: rest =>
      match types.UserPoolDescriptionType.Name userPool with
      | Some name =>
          if EqualFold name userPoolName then
            match types.UserPoolDescriptionType.Id userPool with
            | Some id => Some id
            | None => matchingPool rest userPoolName
            end
          else matchingPool rest userPoolName
      | None => matchingPool rest userPoolName
      end
  end.

(** The [for] loop of [findUserPoolIDByName], bounded by [fuel] pages. *)
Fixpoint findUserPoolIDByName_loop (fuel : nat) (cognito : ListingAPI W)
    (userPoolName : string) (nextToken : option string)
  : State W (option (string + error)) :=
  match fuel with
  | O => mret None
  | S fuel' =>
      let input := {| ListUserPoolsInput.MaxResults := Some 60%Z;
                      ListUserPoolsInput.NextToken := nextToken |} in
      res ← cognitoidentityprovider.ListUserPools cognito input;
      match res with
      | inr err => mret (Some (inr (Errorf "failed to list user pools: " err)))
      | inl output =>
          match matchingPool (ListUserPoolsOutput.UserPools output) userPoolName with
          | Some id => mret (Some (inl id))
          | None =>
              match ListUserPoolsOutput.NextToken output with
              | None =>
                  mret (Some (inr (errorString
                                     ("user pool with name " ++ userPoolName
                                        ++ " not found"))))
              | Some t => findUserPoolIDByName_loop fuel' cognito userPoolName (Some t)
              end
          end
      end
  end.

(** [findUserPoolIDByName] finds a user pool ID by its name. *)
Definition findUserPoolIDByName (fuel : nat) (cognito : ListingAPI W)
    (userPoolName : string) : State W (option (string + error)) :=
  findUserPoolIDByName_loop fuel cognito userPoolName None.

(** The AWS SDK behind the constructors: [config.LoadDefaultConfig] and
    [cognitoidentityprovider.NewFromConfig], the latter seen through the two
    records of operations. *)
Record SDK (Config : Type) : Type := {
  LoadDefaultConfig : State W (Config + error);
  NewFromConfig : Config -> CognitoAPI W;
  NewFromConfig_listing : Config -> ListingAPI W
}.

Arguments LoadDefaultConfig {Config} _ _.
Arguments NewFromConfig {Config} _ _.
Arguments NewFromConfig_listing {Config} _ _.

(** [NewAWSClient] creates a new AWS Cognito client. *)
Definition NewAWSClient {Config : Type} (sdk : SDK Config) (userPoolID : string)
  : State W (AWSClient W + error) :=
  if String.eqb userPoolID "" then
    mret (inr (errorString "userPoolID cannot be empty"))
  else
    cfg ← LoadDefaultConfig sdk;
    match cfg with
    | inr err => mret (inr (Errorf "failed to load AWS config: " err))
    | inl cfg =>
        mret (inl {| cognito := NewFromConfig sdk cfg; userPoolID := userPoolID |})
    end.

(** [NewAWSClientByName] creates a new AWS Cognito client by finding the user
    pool ID from its name. *)
Definition NewAWSClientByName {Config : Type} (fuel : nat) (sdk : SDK Config)
    (userPoolName : string) : State W (option (AWSClient W + error)) :=
  if String.eqb userPoolName "" then
    mret (Some (inr (errorString "userPoolName cannot be empty")))
  else
    cfg ← LoadDefaultConfig sdk;
    match cfg with
    | inr err => mret (Some (inr (Errorf "failed to load AWS config: " err)))
    | inl cfg =>
        found ← findUserPoolIDByName fuel (NewFromConfig_listing sdk cfg) userPoolName;
        match found with
        | None => mret None
        | Some (inr err) =>
            mret (Some (inr (Errorf ("failed to find user pool by name "
                                       ++ userPoolName ++ ": ") err)))
        | Some (inl userPoolID) =>
            mret (Some (inl {| cognito := NewFromConfig sdk cfg;
                               userPoolID := userPoolID |}))
        end
    end.

End Listing.

Arguments SDK W Config : clear implicits.
Arguments LoadDefaultConfig {W Config} _ _.
Arguments NewFromConfig {W Config} _ _.
Arguments NewFromConfig_listing {W Config} _ _.

End cognito.

(** ** The in-memory client of [pkg/cognito/mock.go] *)

Module mock.

(** [MockClient]: the [users] map. The map holds pointers; the controller
    reads the accounts it is handed and never writes through them, so the
    accounts are kept by value. *)
Record MockClient : Type := {
  users : gmap string userpool.User
}.

Definition NewMockClient : MockClient := {| users := ∅ |}.

Definition CreateUser (user : option userpool.User)
  : State MockClient (userpool.User + error) :=
  fun m =>
    match user with
    | None => (inr (errorString "user cannot be nil"), m)
    | Some user =>
        if String.eqb (userpool.Username user) "" then
          (inr (errorString "username cannot be empty"), m)
        else
          match users m !! userpool.Username user with
          | Some existingUser => (inl existingUser, m)
          | None =>
              let createdUser :=
                {| userpool.Username := userpool.Username user;
                   userpool.Email := userpool.Email user;
                   userpool.Enabled := userpool.Enabled user;
                   userpool.Sub := userpool.Username user |} in
              (inl createdUser,
               {| users := <[userpool.Username user := createdUser]> (users m) |})
          end
    end.

Definition GetUser (username : string)
  : State MockClient (userpool.User + error) :=
  fun m =>
    if String.eqb username "" then
      (inr (errorString "username cannot be empty"), m)
    else
      match users m !! username with
      | None => (inr (errorString ("user " ++ username ++ " not found")), m)
      | Some user =>
          (inl {| userpool.Username := userpool.Username user;
                  userpool.Email := userpool.Email user;
                  userpool.Enabled := userpool.Enabled user;
                  userpool.Sub := userpool.Sub user |}, m)
      end.

Definition UpdateUser (user : option userpool.User)
  : State MockClient (option error) :=
  fun m =>
    match user with
    | None => (Some (errorString "user cannot be nil"), m)
    | Some user =>
        if String.eqb (userpool.Username user) "" then
          (Some (errorString "username cannot be empty"), m)
        else
          match users m !! userpool.Username user with
          | None =>
              (Some (errorString ("user " ++ userpool.Username user ++ " not found")), m)
          | Some _ =>
              (None,
               {| users :=
                    <[userpool.Username user :=
                        {| userpool.Username := userpool.Username user;
                           userpool.Email := userpool.Email user;
                           userpool.Enabled := userpool.Enabled user;
                           userpool.Sub := "" |}]> (users m) |})
          end
    end.

Definition DeleteUser (username : string) : State MockClient (option error) :=
  fun m =>
    if String.eqb username "" then
      (Some (errorString "username cannot be empty"), m)
    else
      match users m !! username with
      | None => (Some (errorString ("user " ++ username ++ " not found")), m)
      | Some _ => (None, {| users := delete username (users m) |})
      end.

(** [*MockClient] implements [userpool.Client]. *)
Definition MockClient_Client : userpool.Client MockClient :=
  {| userpool.CreateUser := CreateUser;
     userpool.GetUser := GetUser;
     userpool.UpdateUser := UpdateUser;
     userpool.DeleteUser := DeleteUser |}.

(** [ListUsers] lists all users in the mock store: a copy of every stored
    account without its [Sub], in the order in which [range] visits the map,
    which Go leaves unspecified. The results are therefore given as a
    relation: any arrangement of the copies; the error is always nil. *)
Definition ListUsers (m : MockClient) (result : list userpool.User) : Prop :=
  result ≡ₚ
    (fun entry : string * userpool.User =>
       {| userpool.Username := userpool.Username (snd entry);
          userpool.Email := userpool.Email (snd entry);
          userpool.Enabled := userpool.Enabled (snd entry);
          userpool.Sub := "" |}) <$> map_to_list (users m).

End mock.

(** ** Collaborators of the controller: clock, object store, manager *)

Module time.

(** [time.Duration]: nanoseconds. *)
Definition Duration : Type := Z.
Definition Minute : Duration := (60 * 1000000000)%Z.

(** The clock behind [time.Now] and [metav1.Now], and
    [Time.Format(time.RFC3339)] (standard library, taken as given). *)
Record Clock (W : Type) : Type := {
  Now : State W metav1.Time;
  FormatRFC3339 : metav1.Time -> string
}.

Arguments Now {W} _ _.
Arguments FormatRFC3339 {W} _ _.

End time.

Module ctrl.

Record Result : Type := {
  Requeue : bool;
  RequeueAfter : time.Duration
}.

(** [ctrl.Result{}] *)
Definition Result_zero : Result := {| Requeue := false; RequeueAfter := 0%Z |}.

End ctrl.

Module mcreconcile.

Record NamespacedName : Type := {
  Namespace : string;
  Name : string
}.

Record Request : Type := {
  ClusterName : string;
  NamespacedName_ : NamespacedName
}.

End mcreconcile.

Module client.

(** The object store. [Get], [Update] and [Status().Update] are handed a
    pointer to the object and may write to it: each returns the object as
    the call left it. *)
Record Client (W : Type) : Type := {
  Get : mcreconcile.NamespacedName -> State W (kcpv1alpha1.User + error);
  Update : kcpv1alpha1.User -> State W (kcpv1alpha1.User * option error);
  StatusUpdate : kcpv1alpha1.User -> State W (kcpv1alpha1.User * option error)
}.

Arguments Get {W} _ _ _.
Arguments Update {W} _ _ _.
Arguments StatusUpdate {W} _ _ _.

End client.

Module mcmanager.

Record Cluster (W : Type) : Type := {
  GetClient : client.Client W
}.

Record Manager (W : Type) : Type := {
  GetCluster : string -> State W (Cluster W + error)
}.

Arguments GetClient {W} _.
Arguments GetCluster {W} _ _ _.

End mcmanager.

(** ** The controller (package [controller]) *)

Module controller.

(** *** The finalizer helpers *)

(** The elements a [range] loop visits: none for the nil slice. *)
Definition elements (s : option (list string)) : list string :=
  match s with
  | None => []
  | Some l => l
  end.

(** [append(s, x)]: never nil. *)
Definition append (s : option (list string)) (x : string) : option (list string) :=
  Some (elements s ++ [x]).

Fixpoint containsFinalizer_loop (finalizers : list string) (finalizer : string) : bool :=
  match finalizers with
  | [] => false
  | f :: rest =>
      if String.eqb f finalizer then true
      else containsFinalizer_loop rest finalizer
  end.

(** [containsFinalizer] checks if a finalizer is present in the list. *)
Definition containsFinalizer (finalizers : option (list string)) (finalizer : string)
  : bool :=
  containsFinalizer_loop (elements finalizers) finalizer.

(** [removeFinalizer] removes a finalizer from the list: [result] starts as
    the empty, non-nil slice and receives every element that differs from
    [finalizer]. *)
Definition removeFinalizer (finalizers : option (list string)) (finalizer : string)
  : option (list string) :=
  fold_left
    (fun result f =>
       if negb (String.eqb f finalizer) then append result f else result)
    (elements finalizers)
    (Some []).

Definition finalizerName : string := "kcp.cogniteo.io/user-pool-cleanup".

(** *** Calls to collaborators, in the order a pass issues them *)

Inductive Call : Type :=
| CallGetCluster (name : string) (err : option error)
| CallGet (key : mcreconcile.NamespacedName) (res : kcpv1alpha1.User + error)
| CallUpdate (obj : kcpv1alpha1.User) (res : kcpv1alpha1.User * option error)
| CallStatusUpdate (obj : kcpv1alpha1.User) (res : kcpv1alpha1.User * option error)
| CallNow (t : metav1.Time)
| CallGetUser (identifier : string) (res : userpool.User + error)
| CallCreateUser (user : option userpool.User) (res : userpool.User + error)
| CallUpdateUser (user : option userpool.User) (err : option error)
| CallDeleteUser (identifier : string) (err : option error).

(** A pass runs on the world together with the calls issued so far. *)
Definition invoke {W A : Type} (record : A -> Call) (op : State W A)
  : State (W * list Call) A :=
  fun s =>
    let (a, w') := op (fst s) in
    (a, (w', snd s ++ [record a])).

Section Reconciler.

Context {W : Type}.

(** [UserReconciler]: the fields [Reconcile] reads (the embedded client and
    the scheme are not among them). A nil [UserPoolClient] is [None]. *)
Record UserReconciler : Type := {
  Manager : mcmanager.Manager W;
  UserPoolClient : option (userpool.Client W)
}.

Variable clock : time.Clock W.

Definition now : State (W * list Call) metav1.Time :=
  invoke CallNow (time.Now clock).

(** [syncUserWithUserPool] synchronizes a Kubernetes User with User Pool.
    It is handed a pointer to the user: the user as the call left it is
    returned with the error. *)
Definition syncUserWithUserPool (c : userpool.Client W) (user : kcpv1alpha1.User)
  : State (W * list Call) (kcpv1alpha1.User * option error) :=
  let poolUser :=
    {| userpool.Username := kcpv1alpha1.Name user;
       userpool.Email := kcpv1alpha1.Email (kcpv1alpha1.Spec user);
       userpool.Enabled := kcpv1alpha1.Enabled (kcpv1alpha1.Spec user);
       userpool.Sub := "" |} in
  got ←
    (if negb (String.eqb (kcpv1alpha1.Sub (kcpv1alpha1.Status user)) "") then
       (* Use stored sub to check if user exists *)
       invoke (CallGetUser (kcpv1alpha1.Sub (kcpv1alpha1.Status user)))
         (userpool.GetUser c (kcpv1alpha1.Sub (kcpv1alpha1.Status user)))
     else
       (* Fallback to using email as identifier *)
       invoke (CallGetUser (kcpv1alpha1.Email (kcpv1alpha1.Spec user)))
         (userpool.GetUser c (kcpv1alpha1.Email (kcpv1alpha1.Spec user))));
  match got with
  | inr _ =>
      (* User doesn't exist, create it *)
      created ← invoke (CallCreateUser (Some poolUser))
                  (userpool.CreateUser c (Some poolUser));
      match created with
      | inr err =>
          mret (user, Some (Errorf "failed to create user in user pool: " err))
      | inl createdUser =>
          let st := kcpv1alpha1.set_Sub (kcpv1alpha1.Status user)
                      (userpool.Sub createdUser) in
          let st := kcpv1alpha1.set_UserPoolStatus st "CONFIRMED" in
          t ← now;
          let st := kcpv1alpha1.set_LastSyncTime st (Some t) in
          mret (kcpv1alpha1.set_Status user st, None)
      end
  | inl existingUser =>
      (* User exists, check if update is needed *)
      failed ←
        (if negb (String.eqb (userpool.Email existingUser) (userpool.Email poolUser))
            || negb (Bool.eqb (userpool.Enabled existingUser) (userpool.Enabled poolUser))
         then
           invoke (CallUpdateUser (Some poolUser))
             (userpool.UpdateUser c (Some poolUser))
         else mret None);
      match failed with
      | Some err =>
          mret (user, Some (Errorf "failed to update user in user pool: " err))
      | None =>
          (* Update the status with sync time *)
          t ← now;
          let st := kcpv1alpha1.set_LastSyncTime (kcpv1alpha1.Status user) (Some t) in
          let st :=
            if String.eqb (kcpv1alpha1.Sub st) "" then
              kcpv1alpha1.set_Sub st (userpool.Sub existingUser)
            else st in
          mret (kcpv1alpha1.set_Status user st, None)
      end
  end.

(** [deleteUserFromUserPool] safely deletes a user from the user pool;
    it returns nothing. *)
Definition deleteUserFromUserPool (c : userpool.Client W)
    (username : string) (sub : string)
  : State (W * list Call) unit :=
  let identifier := sub in
  let identifier :=
    if String.eqb identifier "" then username else identifier in
  got ← invoke (CallGetUser identifier) (userpool.GetUser c identifier);
  match got with
  | inr _ =>
      (* User doesn't exist in user pool *)
      mret tt
  | inl _ =>
      _ ← invoke (CallDeleteUser identifier) (userpool.DeleteUser c identifier);
      (* Continue with reconciliation even if user pool deletion fails *)
      mret tt
  end.

(** [Reconcile]: one reconciliation pass for the resource [req] names. *)
Definition Reconcile (r : UserReconciler) (req : mcreconcile.Request)
  : State (W * list Call) (ctrl.Result * option error) :=
  let key := mcreconcile.NamespacedName_ req in
  cl ← invoke
         (fun res => CallGetCluster (mcreconcile.ClusterName req)
                       (match res with inl _ => None | inr err => Some err end))
         (mcmanager.GetCluster (Manager r) (mcreconcile.ClusterName req));
  match cl with
  | inr err =>
      mret (ctrl.Result_zero, Some (Errorf "failed to get cluster: " err))
  | inl cl =>
      let clusterClient := mcmanager.GetClient cl in
      got ← invoke (CallGet key) (client.Get clusterClient key);
      match got with
      | inr err =>
          if IsNotFound err then
            (* User was deleted, no action needed *)
            mret (ctrl.Result_zero, None)
          else mret (ctrl.Result_zero, Some err)
      | inl user =>
          match kcpv1alpha1.DeletionTimestamp user with
          | Some _ =>
              (* User is being deleted, run cleanup *)
              _ ← match UserPoolClient r with
                  | Some c =>
                      deleteUserFromUserPool c (kcpv1alpha1.Name user)
                        (kcpv1alpha1.Sub (kcpv1alpha1.Status user))
                  | None => mret tt
                  end;
              (* Remove finalizer *)
              let user :=
                kcpv1alpha1.set_Finalizers user
                  (removeFinalizer (kcpv1alpha1.Finalizers user) finalizerName) in
              updated ← invoke (CallUpdate user) (client.Update clusterClient user);
              match snd updated with
              | Some err => mret (ctrl.Result_zero, Some err)
              | None => mret (ctrl.Result_zero, None)
              end
          | None =>
              (* Add finalizer if not present *)
              added ←
                (if negb (containsFinalizer (kcpv1alpha1.Finalizers user) finalizerName)
                 then
                   let user :=
                     kcpv1alpha1.set_Finalizers user
                       (append (kcpv1alpha1.Finalizers user) finalizerName) in
                   invoke (CallUpdate user) (client.Update clusterClient user)
                 else mret (user, None));
              match snd added with
              | Some err => mret (ctrl.Result_zero, Some err)
              | None =>
                  let user := fst added in
                  (* Sync user with user pool *)
                  synced ← match UserPoolClient r with
                           | Some c => syncUserWithUserPool c user
                           | None => mret (user, None)
                           end;
                  match snd synced with
                  | Some err =>
                      mret ({| ctrl.Requeue := false;
                               ctrl.RequeueAfter := (time.Minute * 5)%Z |}, Some err)
                  | None =>
                      let user := fst synced in
                      (* Add or update annotation *)
                      let annotations :=
                        match kcpv1alpha1.Annotations user with
                        | None => ∅
                        | Some a => a
                        end in
                      t ← now;
                      let user :=
                        kcpv1alpha1.set_Annotations user
                          (Some (<["kcp.cogniteo.io/lastReconciledAt" :=
                                     time.FormatRFC3339 clock t]> annotations)) in
                      (* Update the resource *)
                      updated ← invoke (CallUpdate user)
                                  (client.Update clusterClient user);
                      match snd updated with
                      | Some err => mret (ctrl.Result_zero, Some err)
                      | None =>
                          let user := fst updated in
                          (* Update the status subresource *)
                          updated ← invoke (CallStatusUpdate user)
                                      (client.StatusUpdate clusterClient user);
                          match snd updated with
                          | Some err => mret (ctrl.Result_zero, Some err)
                          | None => mret (ctrl.Result_zero, None)
                          end
                      end
                  end
              end
          end
      end
  end.

End Reconciler.

End controller.

(** ** Scripted collaborators

    The unit tests of the controller script the user pool with
    [On("GetUser", ...).Return(...)] and run against a fake object store;
    the scenarios below are built the same way. The world is the clock's
    tick. *)

Module fixtures.

Definition clock : time.Clock Z :=
  {| time.Now := fun w => (w, (w + 1)%Z);
     time.FormatRFC3339 := fun _ => "2025-01-01T00:00:00Z" |}.

(** A user pool that answers [GetUser] by [get] and the other calls by
    fixed results. *)
Definition pool (get : string -> userpool.User + error)
    (create : userpool.User + error) (update delete : option error)
  : userpool.Client Z :=
  {| userpool.CreateUser := fun _ w => (create, w);
     userpool.GetUser := fun identifier w => (get identifier, w);
     userpool.UpdateUser := fun _ w => (update, w);
     userpool.DeleteUser := fun _ w => (delete, w) |}.

(** An object store that serves [fetched] and keeps objects as handed in. *)
Definition store (fetched : kcpv1alpha1.User + error)
    (updateErr statusErr : option error)
  : client.Client Z :=
  {| client.Get := fun _ w => (fetched, w);
     client.Update := fun obj w => ((obj, updateErr), w);
     client.StatusUpdate := fun obj w => ((obj, statusErr), w) |}.


Definition manager (s : client.Client Z) : mcmanager.Manager Z :=
  {| mcmanager.GetCluster := fun _ w => (inl {| mcmanager.GetClient := s |}, w) |}.

Definition reconciler (s : client.Client Z) (p : option (userpool.Client Z))
  : controller.UserReconciler :=
  {| controller.Manager := manager s; controller.UserPoolClient := p |}.

Definition request (name : string) : mcreconcile.Request :=
  {| mcreconcile.ClusterName := "cluster1";
     mcreconcile.NamespacedName_ :=
       {| mcreconcile.Namespace := "default"; mcreconcile.Name := name |} |}.

Definition notFound : error := errorString "user not found".

Definition user (name email : string) (enabled : bool) (sub : string)
    (deletion : option metav1.Time) (finalizers : option (list string))
  : kcpv1alpha1.User :=
  {| kcpv1alpha1.ObjectMeta :=
       {| metav1.Name := name;
          metav1.Namespace := "default";
          metav1.DeletionTimestamp := deletion;
          metav1.Finalizers := finalizers;
          metav1.Annotations := None |};
     kcpv1alpha1.Spec :=
       {| kcpv1alpha1.Email := email; kcpv1alpha1.Enabled := enabled |};
     kcpv1alpha1.Status :=
       {| kcpv1alpha1.Sub := sub;
          kcpv1alpha1.UserPoolStatus := "";
          kcpv1alpha1.LastSyncTime := None;
          kcpv1alpha1.ObservedGeneration := 0%Z;
          kcpv1alpha1.Conditions := None |} |}.

Definition account (username email : string) (enabled : bool) (sub : string)
  : userpool.User :=
  {| userpool.Username := username;
     userpool.Email := email;
     userpool.Enabled := enabled;
     userpool.Sub := sub |}.

(** The resource of the spec's scenarios: no stored subject id, no
    finalizer yet. *)
Definition alice : kcpv1alpha1.User := user "alice" "a@x.com" true "" None None.



(** The directory holds no account; creating one yields ["sub-1"]. *)
Definition creatingPool : userpool.Client Z :=
  pool (fun _ => inr notFound) (inl (account "alice" "a@x.com" true "sub-1")) None None.

(** A Cognito API in which no account exists. *)
Definition emptyCognito : cognito.CognitoAPI Z :=
  {| cognito.AdminCreateUser := fun _ w =>
       (inl {| cognitoidentityprovider.AdminCreateUserOutput.User := None |}, w);
     cognito.AdminGetUser := fun _ w =>
       (inr (UserNotFoundException "User does not exist."), w);
     cognito.AdminUpdateUserAttributes := fun _ w =>
       (Some (UserNotFoundException "User does not exist."), w);
     cognito.AdminEnableUser := fun _ w =>
       (Some (UserNotFoundException "User does not exist."), w);
     cognito.AdminDisableUser := fun _ w =>
       (Some (UserNotFoundException "User does not exist."), w);
     cognito.AdminDeleteUser := fun _ w =>
       (Some (UserNotFoundException "User does not exist."), w) |}.

(** A Cognito API in which every username names an enabled account whose
    [email] attribute is [email]. *)
Definition fullCognito (email : string) : cognito.CognitoAPI Z :=
  {| cognito.AdminCreateUser := fun _ w =>
       (inr (UsernameExistsException "User account already exists"), w);
     cognito.AdminGetUser := fun input w =>
       (inl {| cognitoidentityprovider.AdminGetUserOutput.Enabled := true;
               cognitoidentityprovider.AdminGetUserOutput.UserAttributes :=
                 [ {| types.Name := Some "sub";
                      types.Value := Some "7c9e6679-7425-40de-944b-e07fc1f90ae7" |};
                   {| types.Name := Some "email"; types.Value := Some email |} ];
               cognitoidentityprovider.AdminGetUserOutput.Username :=
                 cognitoidentityprovider.AdminGetUserInput.Username input |}, w);
     cognito.AdminUpdateUserAttributes := fun _ w => (None, w);
     cognito.AdminEnableUser := fun _ w => (None, w);
     cognito.AdminDisableUser := fun _ w => (None, w);
     cognito.AdminDeleteUser := fun _ w => (None, w) |}.

Definition aws (api : cognito.CognitoAPI Z) : cognito.AWSClient Z :=
  {| cognito.cognito := api; cognito.userPoolID := "us-east-1_ABC123" |}.

(** A listing API with two pages of users and two pages of pools, reached by
    the tokens ["t1"] and ["p1"]; any other token is refused. *)
Definition cognitoUser (username : option string) (email : option string)
    (enabled : bool) : types.UserType :=
  {| types.Attributes := [ {| types.Name := Some "email"; types.Value := email |} ];
     types.Username := username;
     types.Enabled := enabled |}.

Definition poolDescription (id name : option string) : types.UserPoolDescriptionType.t :=
  {| types.UserPoolDescriptionType.Id := id;
     types.UserPoolDescriptionType.Name := name |}.

Definition pagedListing : cognitoidentityprovider.ListingAPI Z :=
  {| cognitoidentityprovider.ListUsers := fun input w =>
       (match cognitoidentityprovider.ListUsersInput.PaginationToken input with
        | None =>
            inl {| cognitoidentityprovider.ListUsersOutput.Users :=
                     [cognitoUser (Some "u1") (Some "u1@x.com") true;
                      cognitoUser None (Some "ghost@x.com") true];
                   cognitoidentityprovider.ListUsersOutput.PaginationToken := Some "t1" |}
        | Some token =>
            if String.eqb token "t1" then
              inl {| cognitoidentityprovider.ListUsersOutput.Users :=
                       [cognitoUser (Some "u2") None false];
                     cognitoidentityprovider.ListUsersOutput.PaginationToken := None |}
            else inr (errorString "invalid pagination token")
        end, (w + 1)%Z);
     cognitoidentityprovider.ListUserPools := fun input w =>
       (match cognitoidentityprovider.ListUserPoolsInput.NextToken input with
        | None =>
            inl {| cognitoidentityprovider.ListUserPoolsOutput.UserPools :=
                     [poolDescription (Some "us-east-1_AAA") (Some "staging");
                      poolDescription None (Some "Production")];
                   cognitoidentityprovider.ListUserPoolsOutput.NextToken := Some "p1" |}
        | Some token =>
            if String.eqb token "p1" then
              inl {| cognitoidentityprovider.ListUserPoolsOutput.UserPools :=
                       [poolDescription (Some "us-east-1_BBB") (Some "PRODUCTION");
                        poolDescription (Some "us-east-1_CCC") (Some "production")];
                     cognitoidentityprovider.ListUserPoolsOutput.NextToken := None |}
            else inr (errorString "invalid pagination token")
        end, (w + 1)%Z) |}.

(** A listing API whose first page is refused. *)
Definition brokenListing : cognitoidentityprovider.ListingAPI Z :=
  {| cognitoidentityprovider.ListUsers := fun _ w =>
       (inr (errorString "AWS error"), w);
     cognitoidentityprovider.ListUserPools := fun _ w =>
       (inr (errorString "AWS error"), w) |}.

(** Case folding restricted to the letters of the scenarios. *)
Definition foldedName (s : string) : string :=
  if String.eqb s "Production" || String.eqb s "PRODUCTION" then "production" else s.

Definition equalFold (a b : string) : bool := String.eqb (foldedName a) (foldedName b).

(** A clock over the in-memory client that leaves the accounts alone. *)
Definition mockClock : time.Clock mock.MockClient :=
  {| time.Now := fun m => (42%Z, m);
     time.FormatRFC3339 := fun _ => "2025-01-01T00:00:00Z" |}.

(** An SDK whose configuration loads and gives the paged listing. *)
Definition sdk : cognito.SDK Z unit :=
  {| cognito.LoadDefaultConfig := fun w => (inl tt, w);
     cognito.NewFromConfig := fun _ => emptyCognito;
     cognito.NewFromConfig_listing := fun _ => pagedListing |}.

End fixtures.

(** ** The calls a client issues to the Cognito API *)

Module apilog.

Import cognitoidentityprovider.

Inductive ApiCall : Type :=
| ApiAdminCreateUser (input : AdminCreateUserInput.t)
| ApiAdminGetUser (input : AdminGetUserInput.t)
| ApiAdminUpdateUserAttributes (input : AdminUpdateUserAttributesInput.t)
| ApiAdminEnableUser (input : AdminEnableUserInput.t)
| ApiAdminDisableUser (input : AdminDisableUserInput.t)
| ApiAdminDeleteUser (input : AdminDeleteUserInput.t).

(** [op], with [call] added to the calls issued so far. *)
Definition recorded {W A : Type} (call : ApiCall) (op : State W A)
  : State (W * list ApiCall) A :=
  fun s =>
    let (a, w') := op (fst s) in
    (a, (w', snd s ++ [call])).

(** The API [api], recording every call with its input. *)
Definition logged {W : Type} (api : cognito.CognitoAPI W)
  : cognito.CognitoAPI (W * list ApiCall) :=
  {| cognito.AdminCreateUser := fun input =>
       recorded (ApiAdminCreateUser input) (cognito.AdminCreateUser api input);
     cognito.AdminGetUser := fun input =>
       recorded (ApiAdminGetUser input) (cognito.AdminGetUser api input);
     cognito.AdminUpdateUserAttributes := fun input =>
       recorded (ApiAdminUpdateUserAttributes input)
         (cognito.AdminUpdateUserAttributes api input);
     cognito.AdminEnableUser := fun input =>
       recorded (ApiAdminEnableUser input) (cognito.AdminEnableUser api input);
     cognito.AdminDisableUser := fun input =>
       recorded (ApiAdminDisableUser input) (cognito.AdminDisableUser api input);
     cognito.AdminDeleteUser := fun input =>
       recorded (ApiAdminDeleteUser input) (cognito.AdminDeleteUser api input) |}.

(** The client [c] on the recording API. *)
Definition loggedClient {W : Type} (c : cognito.AWSClient W)
  : cognito.AWSClient (W * list ApiCall) :=
  {| cognito.cognito := logged (cognito.cognito c);
     cognito.userPoolID := cognito.userPoolID c |}.

End apilog.

(** * Vocabulary of the properties *)

Import controller.

(** ** The finalizer helpers *)

(** What the spec calls [add]: the in-memory effect of the finalizer-add step
    of [Reconcile] on the finalizer list. *)
Definition addFinalizer (finalizers : option (list string)) (finalizer : string)
  : option (list string) :=
  if negb (containsFinalizer finalizers finalizer) then append finalizers finalizer
  else finalizers.

Definition differs (finalizer f : string) : bool := negb (String.eqb f finalizer).

(** ** The sync pass *)

(** [poolUser], the account [syncUserWithUserPool] builds from the resource. *)
Definition poolUserOf (user : kcpv1alpha1.User) : userpool.User :=
  {| userpool.Username := kcpv1alpha1.Name user;
     userpool.Email := kcpv1alpha1.Email (kcpv1alpha1.Spec user);
     userpool.Enabled := kcpv1alpha1.Enabled (kcpv1alpha1.Spec user);
     userpool.Sub := "" |}.

(** The identifier [syncUserWithUserPool] hands to [GetUser]. *)
Definition lookupIdentifier (user : kcpv1alpha1.User) : string :=
  if negb (String.eqb (kcpv1alpha1.Sub (kcpv1alpha1.Status user)) "")
  then kcpv1alpha1.Sub (kcpv1alpha1.Status user)
  else kcpv1alpha1.Email (kcpv1alpha1.Spec user).

(** The identifier in the spec's words: the stored subject id, else the spec
    email, else the local name. *)
Definition spec_lookupIdentifier (user : kcpv1alpha1.User) : string :=
  if negb (String.eqb (kcpv1alpha1.Sub (kcpv1alpha1.Status user)) "")
  then kcpv1alpha1.Sub (kcpv1alpha1.Status user)
  else if negb (String.eqb (kcpv1alpha1.Email (kcpv1alpha1.Spec user)) "")
  then kcpv1alpha1.Email (kcpv1alpha1.Spec user)
  else kcpv1alpha1.Name user.

(** The test that guards [UpdateUser]: email or enabled flag differ. *)
Definition needsUpdate (existingUser : userpool.User) (user : kcpv1alpha1.User) : bool :=
  negb (String.eqb (userpool.Email existingUser) (kcpv1alpha1.Email (kcpv1alpha1.Spec user)))
  || negb (Bool.eqb (userpool.Enabled existingUser)
             (kcpv1alpha1.Enabled (kcpv1alpha1.Spec user))).

(** The status the create branch leaves. *)
Definition createdStatus (st : kcpv1alpha1.UserStatus) (sub : string) (t : metav1.Time)
  : kcpv1alpha1.UserStatus :=
  {| kcpv1alpha1.Sub := sub;
     kcpv1alpha1.UserPoolStatus := "CONFIRMED";
     kcpv1alpha1.LastSyncTime := Some t;
     kcpv1alpha1.ObservedGeneration := kcpv1alpha1.ObservedGeneration st;
     kcpv1alpha1.Conditions := kcpv1alpha1.Conditions st |}.

(** The status the found branch leaves. *)
Definition syncedStatus (st : kcpv1alpha1.UserStatus) (sub : string) (t : metav1.Time)
  : kcpv1alpha1.UserStatus :=
  {| kcpv1alpha1.Sub :=
       if String.eqb (kcpv1alpha1.Sub st) "" then sub else kcpv1alpha1.Sub st;
     kcpv1alpha1.UserPoolStatus := kcpv1alpha1.UserPoolStatus st;
     kcpv1alpha1.LastSyncTime := Some t;
     kcpv1alpha1.ObservedGeneration := kcpv1alpha1.ObservedGeneration st;
     kcpv1alpha1.Conditions := kcpv1alpha1.Conditions st |}.

(** ** Reading the calls of a pass *)

Definition getUserIdentifiers (tr : list Call) : list string :=
  flat_map (fun c => match c with CallGetUser identifier _ => [identifier] | _ => [] end) tr.

Definition is_CreateUser (c : Call) : bool :=
  match c with CallCreateUser _ _ => true | _ => false end.

Definition is_UpdateUser (c : Call) : bool :=
  match c with CallUpdateUser _ _ => true | _ => false end.

Definition is_DeleteUser (c : Call) : bool :=
  match c with CallDeleteUser _ _ => true | _ => false end.

(** A directory-mutating call: create, update or delete. *)
Definition is_mutation (c : Call) : bool :=
  is_CreateUser c || is_UpdateUser c || is_DeleteUser c.

(** Any call to the directory client. *)
Definition is_directory (c : Call) : bool :=
  match c with CallGetUser _ _ => true | _ => is_mutation c end.

Definition is_StatusUpdate (c : Call) : bool :=
  match c with CallStatusUpdate _ _ => true | _ => false end.

(** A store write that succeeded and whose object holds the cleanup
    finalizer. *)
Definition persists_finalizer (c : Call) : bool :=
  match c with
  | CallUpdate obj (_, None) =>
      containsFinalizer (kcpv1alpha1.Finalizers obj) finalizerName
  | _ => false
  end.

Definition count (p : Call -> bool) (tr : list Call) : nat :=
  length (List.filter p tr).

(** A write to the object store. *)
Definition is_write (c : Call) : bool :=
  match c with CallUpdate _ _ | CallStatusUpdate _ _ => true | _ => false end.

(** The resource the deletion branch submits. *)
Definition withoutFinalizer (user : kcpv1alpha1.User) : kcpv1alpha1.User :=
  kcpv1alpha1.set_Finalizers user
    (removeFinalizer (kcpv1alpha1.Finalizers user) finalizerName).


(** The accounts successful create calls returned. *)
Definition created (tr : list Call) : list userpool.User :=
  flat_map (fun c => match c with
                     | CallCreateUser _ (inl account) => [account]
                     | _ => []
                     end) tr.




(** The finalizer gate over the calls of a pass: no directory-mutating call
    while the finalizer is not durable; [durable] becomes true with a store
    write that persists the finalizer. *)
Fixpoint gate (durable : bool) (tr : list Call) : bool :=
  match tr with
  | [] => true
  | c :: rest =>
      (negb (is_mutation c) || durable) && gate (durable || persists_finalizer c) rest
  end.

(** ** The phases of [Reconcile] in state-passing form

    [Reconcile] is one function; its branches are named here to state what
    each does. [Reconcile_run] below proves that [Reconcile] is their
    composition. *)

Section Phases.

Context {W : Type} (clock : time.Clock W).

(** The branch taken when the deletion timestamp is set. *)
Definition deleting (r : UserReconciler) (store : client.Client W)
    (user : kcpv1alpha1.User) (s : W * list Call)
  : (ctrl.Result * option error) * (W * list Call) :=
  let cleaned :=
    match UserPoolClient r with
    | Some c =>
        deleteUserFromUserPool c (kcpv1alpha1.Name user)
          (kcpv1alpha1.Sub (kcpv1alpha1.Status user)) s
    | None => (tt, s)
    end in
  let user' := withoutFinalizer user in
  let updated := client.Update store user' (fst (snd cleaned)) in
  ((ctrl.Result_zero, snd (fst updated)),
   (snd updated, snd (snd cleaned) ++ [CallUpdate user' (fst updated)])).

(** The end of a pass: stamp the annotation, write the resource, write the
    status. *)
Definition persist (store : client.Client W) (user : kcpv1alpha1.User)
    (s : W * list Call)
  : (ctrl.Result * option error) * (W * list Call) :=
  let t := time.Now clock (fst s) in
  let user1 :=
    kcpv1alpha1.set_Annotations user
      (Some (<["kcp.cogniteo.io/lastReconciledAt" := time.FormatRFC3339 clock (fst t)]>
               (match kcpv1alpha1.Annotations user with
                | None => ∅
                | Some a => a
                end))) in
  let updated := client.Update store user1 (snd t) in
  match snd (fst updated) with
  | Some err =>
      ((ctrl.Result_zero, Some err),
       (snd updated, snd s ++ [CallNow (fst t); CallUpdate user1 (fst updated)]))
  | None =>
      let st := client.StatusUpdate store (fst (fst updated)) (snd updated) in
      ((ctrl.Result_zero, snd (fst st)),
       (snd st,
        snd s ++ [CallNow (fst t); CallUpdate user1 (fst updated);
                  CallStatusUpdate (fst (fst updated)) (fst st)]))
  end.

(** The resource the finalizer-add step submits. *)
Definition withFinalizer (user : kcpv1alpha1.User) : kcpv1alpha1.User :=
  kcpv1alpha1.set_Finalizers user
    (append (kcpv1alpha1.Finalizers user) finalizerName).

(** The branch taken when the deletion timestamp is nil. *)
Definition active (r : UserReconciler) (store : client.Client W)
    (user : kcpv1alpha1.User) (s : W * list Call)
  : (ctrl.Result * option error) * (W * list Call) :=
  let added :=
    if negb (containsFinalizer (kcpv1alpha1.Finalizers user) finalizerName) then
      let updated := client.Update store (withFinalizer user) (fst s) in
      (fst updated,
       (snd updated, snd s ++ [CallUpdate (withFinalizer user) (fst updated)]))
    else ((user, None), s) in
  match snd (fst added) with
  | Some err => ((ctrl.Result_zero, Some err), snd added)
  | None =>
      let synced :=
        match UserPoolClient r with
        | Some c => syncUserWithUserPool clock c (fst (fst added)) (snd added)
        | None => ((fst (fst added), None), snd added)
        end in
      match snd (fst synced) with
      | Some err =>
          (({| ctrl.Requeue := false; ctrl.RequeueAfter := 300000000000%Z |}, Some err),
           snd synced)
      | None => persist store (fst (fst synced)) (snd synced)
      end
  end.

End Phases.

(** ** Pages of a listing

    [served call next tok w outs tok' w']: from the token [tok] in the world
    [w], the listing call answers the pages [outs] one after the other, each
    naming the token of the next; [tok'] is the token after the last of them
    and [w'] the world then. *)
Inductive served {W Out : Type} (call : option string -> State W (Out + error))
    (next : Out -> option string)
  : option string -> W -> list Out -> option string -> W -> Prop :=
| served_nil (tok : option string) (w : W) : served call next tok w [] tok w
| served_cons (tok : option string) (w w1 : W) (out : Out) (t : string)
    (outs : list Out) (tok' : option string) (w' : W) :
    call tok w = (inl out, w1) ->
    next out = Some t ->
    served call next (Some t) w1 outs tok' w' ->
    served call next tok w (out :: outs) tok' w'.

(** The [ListUsers] call the client issues for a token. *)
Definition listUsersCall {W : Type} (api : cognitoidentityprovider.ListingAPI W)
    (c : cognito.AWSClient W) (tok : option string)
  : State W (cognitoidentityprovider.ListUsersOutput.t + error) :=
  cognitoidentityprovider.ListUsers api
    {| cognitoidentityprovider.ListUsersInput.UserPoolId := Some (cognito.userPoolID c);
       cognitoidentityprovider.ListUsersInput.PaginationToken := tok |}.

(** The [ListUserPools] call the lookup by name issues for a token. *)
Definition listPoolsCall {W : Type} (api : cognitoidentityprovider.ListingAPI W)
    (tok : option string)
  : State W (cognitoidentityprovider.ListUserPoolsOutput.t + error) :=
  cognitoidentityprovider.ListUserPools api
    {| cognitoidentityprovider.ListUserPoolsInput.MaxResults := Some 60%Z;
       cognitoidentityprovider.ListUserPoolsInput.NextToken := tok |}.

(** The account listed for a Cognito user that has a username. *)
Definition listedUser (username : string) (cognitoUser : types.UserType) : userpool.User :=
  {| userpool.Username := username;
     userpool.Email :=
       match cognito.firstAttribute "email" (types.Attributes cognitoUser) with
       | Some v => v
       | None => ""
       end;
     userpool.Enabled := types.Enabled cognitoUser;
     userpool.Sub := "" |}.

(** The accounts listed for the Cognito users of some pages, in order. *)
Definition listed (cognitoUsers : list types.UserType) : list userpool.User :=
  flat_map (fun cognitoUser =>
              match types.Username cognitoUser with
              | Some username => [listedUser username cognitoUser]
              | None => []
              end) cognitoUsers.

(** A Go slice built by appending to the nil slice. *)
Definition sliceOf {A : Type} (l : list A) : option (list A) :=
  match l with
  | [] => None
  | _ => Some l
  end.

(** ** The in-memory client *)

(** Every account is stored under its username, and its subject id is that
    username or empty. *)
Definition wellKeyed (m : mock.MockClient) : Prop :=
  forall (k : string) (u : userpool.User),
    mock.users m !! k = Some u ->
    userpool.Username u = k /\ (userpool.Sub u = k \/ userpool.Sub u = "").

(** The account a stored account is listed as. *)
Definition withoutSub (u : userpool.User) : userpool.User :=
  {| userpool.Username := userpool.Username u;
     userpool.Email := userpool.Email u;
     userpool.Enabled := userpool.Enabled u;
     userpool.Sub := "" |}.

Definition is_Now (c : Call) : bool :=
  match c with CallNow _ => true | _ => false end.

(** ** The inputs the AWS client hands to the API *)

Definition createInput {W : Type} (c : cognito.AWSClient W) (user : userpool.User)
  : cognitoidentityprovider.AdminCreateUserInput.t :=
  {| cognitoidentityprovider.AdminCreateUserInput.UserPoolId := Some (cognito.userPoolID c);
     cognitoidentityprovider.AdminCreateUserInput.Username := Some (userpool.Email user);
     cognitoidentityprovider.AdminCreateUserInput.UserAttributes :=
       [ {| types.Name := Some "email"; types.Value := Some (userpool.Email user) |};
         {| types.Name := Some "email_verified"; types.Value := Some "true" |} ];
     cognitoidentityprovider.AdminCreateUserInput.MessageAction :=
       types.MessageActionTypeSuppress |}.

Definition getInput {W : Type} (c : cognito.AWSClient W) (username : string)
  : cognitoidentityprovider.AdminGetUserInput.t :=
  {| cognitoidentityprovider.AdminGetUserInput.UserPoolId := Some (cognito.userPoolID c);
     cognitoidentityprovider.AdminGetUserInput.Username := Some username |}.

Definition updateInput {W : Type} (c : cognito.AWSClient W) (user : userpool.User)
  : cognitoidentityprovider.AdminUpdateUserAttributesInput.t :=
  {| cognitoidentityprovider.AdminUpdateUserAttributesInput.UserPoolId :=
       Some (cognito.userPoolID c);
     cognitoidentityprovider.AdminUpdateUserAttributesInput.Username :=
       Some (userpool.Username user);
     cognitoidentityprovider.AdminUpdateUserAttributesInput.UserAttributes :=
       [ {| types.Name := Some "email"; types.Value := Some (userpool.Email user) |} ] |}.

Definition enableInput {W : Type} (c : cognito.AWSClient W) (user : userpool.User)
  : cognitoidentityprovider.AdminEnableUserInput.t :=
  {| cognitoidentityprovider.AdminEnableUserInput.UserPoolId := Some (cognito.userPoolID c);
     cognitoidentityprovider.AdminEnableUserInput.Username :=
       Some (userpool.Username user) |}.

Definition disableInput {W : Type} (c : cognito.AWSClient W) (user : userpool.User)
  : cognitoidentityprovider.AdminDisableUserInput.t :=
  {| cognitoidentityprovider.AdminDisableUserInput.UserPoolId := Some (cognito.userPoolID c);
     cognitoidentityprovider.AdminDisableUserInput.Username :=
       Some (userpool.Username user) |}.

Definition deleteInput {W : Type} (c : cognito.AWSClient W) (username : string)
  : cognitoidentityprovider.AdminDeleteUserInput.t :=
  {| cognitoidentityprovider.AdminDeleteUserInput.UserPoolId := Some (cognito.userPoolID c);
     cognitoidentityprovider.AdminDeleteUserInput.Username := Some username |}.

(** * Properties *)

(** ** Running a pass *)

Lemma invoke_run {W A : Type} (record : A -> Call) (op : State W A) (s : W * list Call) :
  invoke record op s
  = (fst (op (fst s)), (snd (op (fst s)), snd s ++ [record (fst (op (fst s)))])).
Proof. unfold invoke. by destruct (op (fst s)). Qed.

Lemma bind_run {S A B : Type} (m : State S A) (k : A -> State S B) (s : S) :
  (m ≫= k) s = k (fst (m s)) (snd (m s)).
Proof. unfold mbind, state_bind. by destruct (m s). Qed.

Lemma ret_run {S A : Type} (a : A) (s : S) : (mret a : State S A) s = (a, s).
Proof. reflexivity. Qed.

Ltac exec := repeat (rewrite ?bind_run, ?invoke_run, ?ret_run; cbn [fst snd]).

(** ** The finalizer helpers *)

Lemma removeFinalizer_loop_filter (finalizer : string) (l acc : list string) :
  fold_left
    (fun result f => if negb (String.eqb f finalizer) then append result f else result)
    l (Some acc)
  = Some (acc ++ List.filter (differs finalizer) l).
Proof.
  revert acc. induction l as [|f l IH]; intros acc; simpl.
  - by rewrite app_nil_r.
  - unfold differs at 1. destruct (String.eqb f finalizer); simpl.
    + apply IH.
    + unfold append at 2. simpl. rewrite IH. by rewrite <- app_assoc.
Qed.

(** [removeFinalizer] is a filter and never returns the nil slice. *)
Lemma removeFinalizer_filter (finalizers : option (list string)) (finalizer : string) :
  removeFinalizer finalizers finalizer
  = Some (List.filter (differs finalizer) (elements finalizers)).
Proof. unfold removeFinalizer. apply removeFinalizer_loop_filter. Qed.

Lemma containsFinalizer_loop_In (l : list string) (finalizer : string) :
  containsFinalizer_loop l finalizer = true <-> In finalizer l.
Proof.
  induction l as [|f l IH]; simpl.
  - split; [discriminate | tauto].
  - destruct (String.eqb f finalizer) eqn:E.
    + apply String.eqb_eq in E. tauto.
    + apply String.eqb_neq in E. rewrite IH. split; [tauto | intros [?|?]; congruence].
Qed.

Lemma filter_absent (l : list string) (finalizer : string) :
  containsFinalizer_loop l finalizer = false ->
  List.filter (differs finalizer) l = l.
Proof.
  induction l as [|f l IH]; simpl; [done|].
  unfold differs at 1. destruct (String.eqb f finalizer); [discriminate|].
  intros H. simpl. by rewrite IH.
Qed.

Lemma containsFinalizer_append (finalizers : option (list string)) (finalizer : string) :
  containsFinalizer (append finalizers finalizer) finalizer = true.
Proof.
  unfold containsFinalizer, append. simpl.
  apply containsFinalizer_loop_In, in_or_app. right. by left.
Qed.

Lemma containsFinalizer_removeFinalizer (finalizers : option (list string))
    (finalizer : string) :
  containsFinalizer (removeFinalizer finalizers finalizer) finalizer = false.
Proof.
  rewrite removeFinalizer_filter. unfold containsFinalizer. simpl.
  destruct (containsFinalizer_loop _ _) eqn:E; [|done].
  apply containsFinalizer_loop_In, filter_In in E. destruct E as [_ E].
  unfold differs in E. by rewrite String.eqb_refl in E.
Qed.

(** C5, as stated, fails when the sequence already holds the marker: the add
    step leaves [[m]] as it is (a plain append gives [[m; m]]) and the removal
    deletes every occurrence, so the round trip ends in the empty sequence. *)
Lemma C5_roundtrip_counterexample :
  removeFinalizer (addFinalizer (Some [finalizerName]) finalizerName) finalizerName
    = Some []
  /\ removeFinalizer (append (Some [finalizerName]) finalizerName) finalizerName
    = Some []
  /\ Some ([] : list string) <> Some [finalizerName].
Proof. split; [reflexivity|]. split; [reflexivity | discriminate]. Qed.

(** C5 (amended): [removeFinalizer] deletes every occurrence of the marker,
    keeps the order of the rest and returns a non-nil slice; and for every
    sequence [S] that does not hold the marker [m], the add step appends [m]
    and removing [m] again yields the non-nil slice with exactly the elements
    of [S] ([S] itself, unless [S] was nil). *)
Theorem C5_finalizer_roundtrip (S : option (list string)) (m : string) :
  removeFinalizer S m = Some (List.filter (differs m) (elements S))
  /\ (containsFinalizer S m = false ->
        addFinalizer S m = append S m
        /\ removeFinalizer (addFinalizer S m) m = Some (elements S)
        /\ (S <> None -> removeFinalizer (addFinalizer S m) m = S)).
Proof.
  split; [apply removeFinalizer_filter|].
  intros Habs. unfold addFinalizer. rewrite Habs. simpl.
  assert (Hrt : removeFinalizer (append S m) m = Some (elements S)).
  { rewrite removeFinalizer_filter. unfold append. simpl.
    rewrite List.filter_app. simpl. unfold differs at 2.
    rewrite String.eqb_refl. simpl. rewrite app_nil_r.
    by rewrite (filter_absent _ _ Habs). }
  repeat split; [exact Hrt|].
  intros HS. rewrite Hrt. by destruct S.
Qed.

Lemma C5_finalizer_roundtrip_witness :
  containsFinalizer (Some ["a"; "b"]) finalizerName = false
  /\ removeFinalizer (addFinalizer (Some ["a"; "b"]) finalizerName) finalizerName
     = Some ["a"; "b"].
Proof.
  split; [reflexivity|].
  destruct (C5_finalizer_roundtrip (Some ["a"; "b"]) finalizerName) as [_ H].
  destruct (H eq_refl) as (_ & H2 & _). exact H2.
Defined.

(** ** The sync pass in state-passing form *)

Section SyncEquations.

Context {W : Type} (clock : time.Clock W) (c : userpool.Client W).
Implicit Types (user : kcpv1alpha1.User) (w : W) (tr : list Call).

(** [syncUserWithUserPool] path by path: the user and error it returns, the
    world it leaves and the calls it adds. *)
Lemma sync_run user w tr :
  syncUserWithUserPool clock c user (w, tr)
  = (let got := userpool.GetUser c (lookupIdentifier user) w in
     match fst got with
     | inr _ =>
         let created := userpool.CreateUser c (Some (poolUserOf user)) (snd got) in
         match fst created with
         | inr err =>
             ((user, Some (Errorf "failed to create user in user pool: " err)),
              (snd created,
               tr ++ [CallGetUser (lookupIdentifier user) (fst got);
                      CallCreateUser (Some (poolUserOf user)) (fst created)]))
         | inl createdUser =>
             let t := time.Now clock (snd created) in
             ((kcpv1alpha1.set_Status user
                 (createdStatus (kcpv1alpha1.Status user)
                    (userpool.Sub createdUser) (fst t)),
               None),
              (snd t,
               tr ++ [CallGetUser (lookupIdentifier user) (fst got);
                      CallCreateUser (Some (poolUserOf user)) (fst created);
                      CallNow (fst t)]))
         end
     | inl existingUser =>
         if needsUpdate existingUser user then
           let updated := userpool.UpdateUser c (Some (poolUserOf user)) (snd got) in
           match fst updated with
           | Some err =>
               ((user, Some (Errorf "failed to update user in user pool: " err)),
                (snd updated,
                 tr ++ [CallGetUser (lookupIdentifier user) (fst got);
                        CallUpdateUser (Some (poolUserOf user)) (fst updated)]))
           | None =>
               let t := time.Now clock (snd updated) in
               ((kcpv1alpha1.set_Status user
                   (syncedStatus (kcpv1alpha1.Status user)
                      (userpool.Sub existingUser) (fst t)),
                 None),
                (snd t,
                 tr ++ [CallGetUser (lookupIdentifier user) (fst got);
                        CallUpdateUser (Some (poolUserOf user)) (fst updated);
                        CallNow (fst t)]))
           end
         else
           let t := time.Now clock (snd got) in
           ((kcpv1alpha1.set_Status user
               (syncedStatus (kcpv1alpha1.Status user)
                  (userpool.Sub existingUser) (fst t)),
             None),
            (snd t,
             tr ++ [CallGetUser (lookupIdentifier user) (fst got); CallNow (fst t)]))
     end).
Proof.
  unfold syncUserWithUserPool, now, lookupIdentifier, needsUpdate.
  fold (poolUserOf user). cbv zeta.
  rewrite bind_run.
  destruct (negb (_ =? "")) eqn:Hsub; exec.
  all: destruct (userpool.GetUser c _ w) as [[existingUser|e] w1]; exec.
  all: try (destruct (userpool.CreateUser c _ w1) as [[createdUser|e'] w2]; exec;
            rewrite <- ?app_assoc; reflexivity).
  all: simpl userpool.Email; simpl userpool.Enabled.
  all: destruct (negb (userpool.Email existingUser =? _) || _); exec.
  all: try (destruct (userpool.UpdateUser c _ w1) as [[e'|] w2]; exec).
  all: rewrite <- ?app_assoc; simpl; try reflexivity.
  all: unfold syncedStatus, kcpv1alpha1.set_Status; simpl.
  all: destruct (kcpv1alpha1.Sub _ =? ""); reflexivity.
Qed.

End SyncEquations.

Lemma needsUpdate_fieldwise (existingUser : userpool.User) (user : kcpv1alpha1.User) :
  needsUpdate existingUser user = true
  <-> (userpool.Email existingUser <> kcpv1alpha1.Email (kcpv1alpha1.Spec user)
       \/ userpool.Enabled existingUser <> kcpv1alpha1.Enabled (kcpv1alpha1.Spec user)).
Proof.
  unfold needsUpdate. rewrite orb_true_iff, !negb_true_iff.
  rewrite String.eqb_neq.
  destruct (userpool.Enabled existingUser), (kcpv1alpha1.Enabled _); simpl;
    intuition congruence.
Qed.

(** ** C4: the lookup identifier *)

(** C4, as stated, fails for a resource with empty subject id and empty
    email: the sync pass looks the account up under the empty email, not under
    the local name ["alice"]. *)
Lemma C4_lookup_counterexample :
  getUserIdentifiers
    (snd (snd (syncUserWithUserPool fixtures.clock
                 (fixtures.pool (fun _ => inr fixtures.notFound)
                    (inr fixtures.notFound) None None)
                 (fixtures.user "alice" "" true "" None None) (0%Z, []))))
    = [""]
  /\ spec_lookupIdentifier (fixtures.user "alice" "" true "" None None) = "alice".
Proof. split; reflexivity. Qed.

(** C4 (amended): the sync pass issues exactly one directory get, and it is
    its first call; the identifier is the stored subject id if non-empty,
    otherwise the spec email, also when the email is empty. The local name is
    no fallback: the identifier agrees with the order "subject id, email,
    local name" except when subject id and email are both empty, where the
    lookup uses the empty string. *)
Theorem C4_lookup_identifier {W : Type} (clock : time.Clock W) (c : userpool.Client W)
    (user : kcpv1alpha1.User) (w : W) :
  getUserIdentifiers (snd (snd (syncUserWithUserPool clock c user (w, []))))
    = [lookupIdentifier user]
  /\ (exists res rest,
        snd (snd (syncUserWithUserPool clock c user (w, [])))
        = CallGetUser (lookupIdentifier user) res :: rest)
  /\ lookupIdentifier user
     = (if String.eqb (kcpv1alpha1.Sub (kcpv1alpha1.Status user)) ""
        then kcpv1alpha1.Email (kcpv1alpha1.Spec user)
        else kcpv1alpha1.Sub (kcpv1alpha1.Status user))
  /\ lookupIdentifier user
     = (if String.eqb (kcpv1alpha1.Sub (kcpv1alpha1.Status user)) ""
           && String.eqb (kcpv1alpha1.Email (kcpv1alpha1.Spec user)) ""
        then ""
        else spec_lookupIdentifier user).
Proof.
  rewrite sync_run. cbv zeta.
  split; [|split; [|split]].
  - destruct (userpool.GetUser c _ w) as [[existingUser|e] w1]; simpl.
    + destruct (needsUpdate _ _); simpl.
      * by destruct (userpool.UpdateUser c _ w1) as [[e'|] w2].
      * done.
    + by destruct (userpool.CreateUser c _ w1) as [[createdUser|e'] w2].
  - destruct (userpool.GetUser c _ w) as [[existingUser|e] w1]; simpl.
    + destruct (needsUpdate _ _); simpl.
      * destruct (userpool.UpdateUser c _ w1) as [[e'|] w2]; simpl; eauto.
      * eauto.
    + destruct (userpool.CreateUser c _ w1) as [[createdUser|e'] w2]; simpl; eauto.
  - unfold lookupIdentifier. by destruct (_ =? "").
  - unfold lookupIdentifier, spec_lookupIdentifier.
    destruct (kcpv1alpha1.Sub _ =? ""); simpl; [|done].
    destruct (kcpv1alpha1.Email _ =? "") eqn:E; simpl; [|done].
    by apply String.eqb_eq in E.
Qed.

(** ** C8: the create path *)

(** C8: with an empty stored subject id, a failing directory get and a create
    call that returns an account with subject id ["sub-1"], the sync pass
    succeeds and leaves exactly: subject id ["sub-1"], directory status
    ["CONFIRMED"], the last-sync time set to the clock's reading, and the
    other status fields as they were. *)
Theorem C8_create_path {W : Type} (clock : time.Clock W) (c : userpool.Client W)
    (user : kcpv1alpha1.User) (w w1 w2 : W) (e : error) (createdUser : userpool.User) :
  kcpv1alpha1.Sub (kcpv1alpha1.Status user) = "" ->
  userpool.GetUser c (kcpv1alpha1.Email (kcpv1alpha1.Spec user)) w = (inr e, w1) ->
  userpool.CreateUser c (Some (poolUserOf user)) w1 = (inl createdUser, w2) ->
  userpool.Sub createdUser = "sub-1" ->
  snd (fst (syncUserWithUserPool clock c user (w, []))) = None
  /\ kcpv1alpha1.Status (fst (fst (syncUserWithUserPool clock c user (w, []))))
     = {| kcpv1alpha1.Sub := "sub-1";
          kcpv1alpha1.UserPoolStatus := "CONFIRMED";
          kcpv1alpha1.LastSyncTime := Some (fst (time.Now clock w2));
          kcpv1alpha1.ObservedGeneration :=
            kcpv1alpha1.ObservedGeneration (kcpv1alpha1.Status user);
          kcpv1alpha1.Conditions := kcpv1alpha1.Conditions (kcpv1alpha1.Status user) |}
  /\ kcpv1alpha1.LastSyncTime
       (kcpv1alpha1.Status (fst (fst (syncUserWithUserPool clock c user (w, [])))))
     <> None.
Proof.
  intros Hsub Hget Hcreate Hcreated.
  rewrite sync_run. unfold lookupIdentifier. rewrite Hsub. simpl negb. cbv iota zeta.
  rewrite Hget. simpl. rewrite Hcreate. simpl. rewrite Hcreated.
  unfold createdStatus. by repeat split.
Qed.

Lemma C8_create_path_witness :
  kcpv1alpha1.Status
    (fst (fst (syncUserWithUserPool fixtures.clock
                 (fixtures.pool (fun _ => inr fixtures.notFound)
                    (inl (fixtures.account "alice" "a@x.com" true "sub-1")) None None)
                 (fixtures.user "alice" "a@x.com" true "" None None) (7%Z, []))))
  = {| kcpv1alpha1.Sub := "sub-1";
       kcpv1alpha1.UserPoolStatus := "CONFIRMED";
       kcpv1alpha1.LastSyncTime := Some 7%Z;
       kcpv1alpha1.ObservedGeneration := 0%Z;
       kcpv1alpha1.Conditions := None |}.
Proof.
  destruct (C8_create_path fixtures.clock
              (fixtures.pool (fun _ => inr fixtures.notFound)
                 (inl (fixtures.account "alice" "a@x.com" true "sub-1")) None None)
              (fixtures.user "alice" "a@x.com" true "" None None)
              7%Z 7%Z 7%Z fixtures.notFound
              (fixtures.account "alice" "a@x.com" true "sub-1")
              eq_refl eq_refl eq_refl eq_refl) as (_ & H & _).
  exact H.
Defined.

(** ** C7: the found path *)

(** C7: when the directory get of the sync pass succeeds, no create call is
    issued; an update call is issued exactly once, with the desired account,
    if the found email or enabled flag differs from the spec, and not at all
    otherwise; the pass succeeds exactly when the fields match or the update
    succeeds, and then the last-sync time is the clock's reading and the
    subject id is the found account's if it was empty, and unchanged if not. *)
Theorem C7_found_path {W : Type} (clock : time.Clock W) (c : userpool.Client W)
    (user : kcpv1alpha1.User) (w w1 : W) (existingUser : userpool.User) :
  userpool.GetUser c (lookupIdentifier user) w = (inl existingUser, w1) ->
  count is_CreateUser (snd (snd (syncUserWithUserPool clock c user (w, [])))) = 0
  /\ count is_UpdateUser (snd (snd (syncUserWithUserPool clock c user (w, []))))
     = (if needsUpdate existingUser user then 1 else 0)
  /\ (forall p err,
        In (CallUpdateUser p err) (snd (snd (syncUserWithUserPool clock c user (w, [])))) ->
        p = Some (poolUserOf user)
        /\ err = fst (userpool.UpdateUser c (Some (poolUserOf user)) w1))
  /\ (needsUpdate existingUser user = true
      <-> (userpool.Email existingUser <> kcpv1alpha1.Email (kcpv1alpha1.Spec user)
           \/ userpool.Enabled existingUser
              <> kcpv1alpha1.Enabled (kcpv1alpha1.Spec user)))
  /\ (snd (fst (syncUserWithUserPool clock c user (w, []))) = None
      <-> (needsUpdate existingUser user = false
           \/ fst (userpool.UpdateUser c (Some (poolUserOf user)) w1) = None))
  /\ (snd (fst (syncUserWithUserPool clock c user (w, []))) = None ->
      exists t,
        In (CallNow t) (snd (snd (syncUserWithUserPool clock c user (w, []))))
        /\ kcpv1alpha1.LastSyncTime
             (kcpv1alpha1.Status (fst (fst (syncUserWithUserPool clock c user (w, [])))))
           = Some t
        /\ kcpv1alpha1.Sub
             (kcpv1alpha1.Status (fst (fst (syncUserWithUserPool clock c user (w, [])))))
           = (if String.eqb (kcpv1alpha1.Sub (kcpv1alpha1.Status user)) ""
              then userpool.Sub existingUser
              else kcpv1alpha1.Sub (kcpv1alpha1.Status user))
        /\ kcpv1alpha1.Status (fst (fst (syncUserWithUserPool clock c user (w, []))))
           = syncedStatus (kcpv1alpha1.Status user) (userpool.Sub existingUser) t).
Proof.
  intros Hget. rewrite sync_run. cbv zeta. rewrite Hget. cbn [fst snd].
  split; [|split; [|split; [|split; [|split]]]].
  - destruct (needsUpdate _ _); [|done].
    by destruct (userpool.UpdateUser c _ w1) as [[e'|] w2].
  - destruct (needsUpdate _ _); [|done].
    by destruct (userpool.UpdateUser c _ w1) as [[e'|] w2].
  - intros p err. destruct (needsUpdate _ _).
    + destruct (userpool.UpdateUser c _ w1) as [[e'|] w2]; simpl;
        intros [H|[H|H]]; try discriminate H; try (destruct H as [H|H]; try discriminate H);
        try contradiction; by inversion H.
    + simpl. intros [H|[H|H]]; try discriminate H; contradiction.
  - apply needsUpdate_fieldwise.
  - destruct (needsUpdate _ _).
    + destruct (userpool.UpdateUser c _ w1) as [[e'|] w2]; simpl.
      * split; [discriminate | intros [H|H]; discriminate H].
      * split; [by right | done].
    + simpl. split; [by left | done].
  - destruct (needsUpdate _ _).
    + destruct (userpool.UpdateUser c _ w1) as [[e'|] w2]; simpl; [discriminate|].
      intros _. exists (fst (time.Now clock w2)). repeat split; auto.
    + simpl. intros _. exists (fst (time.Now clock w1)). repeat split; auto.
Qed.

(** The update scenario of the spec: stored subject id ["sub-1"], the
    directory holds [old@x.com], the spec asks for [new@x.com]. *)
Lemma C7_found_path_witness :
  count is_CreateUser
    (snd (snd (syncUserWithUserPool fixtures.clock
                 (fixtures.pool
                    (fun _ => inl (fixtures.account "alice" "old@x.com" true "sub-1"))
                    (inr fixtures.notFound) None None)
                 (fixtures.user "alice" "new@x.com" true "sub-1" None None) (7%Z, []))))
  = 0
  /\ count is_UpdateUser
       (snd (snd (syncUserWithUserPool fixtures.clock
                    (fixtures.pool
                       (fun _ => inl (fixtures.account "alice" "old@x.com" true "sub-1"))
                       (inr fixtures.notFound) None None)
                    (fixtures.user "alice" "new@x.com" true "sub-1" None None) (7%Z, []))))
     = 1.
Proof.
  destruct (C7_found_path fixtures.clock
              (fixtures.pool
                 (fun _ => inl (fixtures.account "alice" "old@x.com" true "sub-1"))
                 (inr fixtures.notFound) None None)
              (fixtures.user "alice" "new@x.com" true "sub-1" None None)
              7%Z 7%Z (fixtures.account "alice" "old@x.com" true "sub-1") eq_refl)
    as (H1 & H2 & _).
  split; [exact H1 | exact H2].
Defined.

(** ** [Reconcile] in state-passing form *)

Section ReconcileEquations.

Context {W : Type} (clock : time.Clock W).

Lemma delete_run (c : userpool.Client W) (username sub : string) (w : W)
    (tr : list Call) :
  deleteUserFromUserPool c username sub (w, tr)
  = (let identifier := if String.eqb sub "" then username else sub in
     let got := userpool.GetUser c identifier w in
     match fst got with
     | inr _ => (tt, (snd got, tr ++ [CallGetUser identifier (fst got)]))
     | inl _ =>
         let deleted := userpool.DeleteUser c identifier (snd got) in
         (tt, (snd deleted,
               tr ++ [CallGetUser identifier (fst got);
                      CallDeleteUser identifier (fst deleted)]))
     end).
Proof.
  unfold deleteUserFromUserPool. cbv zeta. exec.
  destruct (userpool.GetUser c _ w) as [[existingUser|e] w1]; exec; [|done].
  by rewrite <- app_assoc.
Qed.

Lemma Reconcile_run (r : UserReconciler) (req : mcreconcile.Request) (w : W)
    (tr : list Call) :
  Reconcile clock r req (w, tr)
  = (let name := mcreconcile.ClusterName req in
     let key := mcreconcile.NamespacedName_ req in
     let cl := mcmanager.GetCluster (Manager r) name w in
     match fst cl with
     | inr err =>
         ((ctrl.Result_zero, Some (Errorf "failed to get cluster: " err)),
          (snd cl, tr ++ [CallGetCluster name (Some err)]))
     | inl cluster =>
         let store := mcmanager.GetClient cluster in
         let got := client.Get store key (snd cl) in
         let tr1 := tr ++ [CallGetCluster name None; CallGet key (fst got)] in
         match fst got with
         | inr err =>
             ((ctrl.Result_zero, if IsNotFound err then None else Some err),
              (snd got, tr1))
         | inl user =>
             match kcpv1alpha1.DeletionTimestamp user with
             | Some _ => deleting r store user (snd got, tr1)
             | None => active clock r store user (snd got, tr1)
             end
         end
     end).
Proof.
  unfold Reconcile. cbv zeta. exec.
  destruct (mcmanager.GetCluster (Manager r) _ w) as [[cluster|e] w1]; exec; [|done].
  destruct (client.Get _ _ w1) as [[user|e] w2]; exec; rewrite <- ?app_assoc;
    simpl app.
  2: { by destruct (IsNotFound e). }
  destruct (kcpv1alpha1.DeletionTimestamp user) as [t|]; exec.
  - unfold deleting. cbn [fst snd].
    destruct (UserPoolClient r) as [c|]; exec.
    + destruct (deleteUserFromUserPool c _ _ _) as [[] [w3 tr3]]. cbn [fst snd].
      by destruct (client.Update _ _ w3) as [[obj [e|]] w4].
    + by destruct (client.Update _ _ w2) as [[obj [e|]] w4].
  - unfold active, withFinalizer. cbn [fst snd].
    destruct (negb (containsFinalizer _ _)); exec.
    + destruct (client.Update _ _ w2) as [[obj [e|]] w3]; cbn [fst snd]; [done|].
      destruct (UserPoolClient r) as [c|]; exec.
      * destruct (syncUserWithUserPool clock c obj _) as [[user' [e|]] [w4 tr4]];
          cbn [fst snd]; [done|].
        unfold persist, now. exec.
        destruct (client.Update _ _ _) as [[obj' [e|]] w5]; cbn [fst snd];
          rewrite <- ?app_assoc; [done|]. exec.
        destruct (client.StatusUpdate _ _ _) as [[obj'' [e|]] w6]; cbn [fst snd];
          by rewrite <- ?app_assoc.
      * unfold persist, now. exec.
        destruct (client.Update _ _ _) as [[obj' [e|]] w5]; cbn [fst snd];
          rewrite <- ?app_assoc; [done|]. exec.
        destruct (client.StatusUpdate _ _ _) as [[obj'' [e|]] w6]; cbn [fst snd];
          by rewrite <- ?app_assoc.
    + destruct (UserPoolClient r) as [c|]; exec.
      * destruct (syncUserWithUserPool clock c user _) as [[user' [e|]] [w4 tr4]];
          cbn [fst snd]; [done|].
        unfold persist, now. exec.
        destruct (client.Update _ _ _) as [[obj' [e|]] w5]; cbn [fst snd];
          rewrite <- ?app_assoc; [done|]. exec.
        destruct (client.StatusUpdate _ _ _) as [[obj'' [e|]] w6]; cbn [fst snd];
          by rewrite <- ?app_assoc.
      * unfold persist, now. exec.
        destruct (client.Update _ _ _) as [[obj' [e|]] w5]; cbn [fst snd];
          rewrite <- ?app_assoc; [done|]. exec.
        destruct (client.StatusUpdate _ _ _) as [[obj'' [e|]] w6]; cbn [fst snd];
          by rewrite <- ?app_assoc.
Qed.

End ReconcileEquations.

(** ** C3: the deletion branch *)

(** C3: for a fetched resource whose deletion timestamp is set, whatever the
    directory client does (none configured, get failing, delete failing or
    succeeding), the pass ends with one store update of the fetched resource
    with the cleanup finalizer removed and nothing else changed: its
    finalizers are those of the fetched resource that differ from the cleanup
    finalizer, in their order, so every other finalizer stays. The pass
    issues no other store write, and returns the empty result with exactly
    the error of that update. *)
Theorem C3_deletion_branch {W : Type} (clock : time.Clock W) (r : UserReconciler)
    (req : mcreconcile.Request) (w w1 w2 : W) (cl : mcmanager.Cluster W)
    (user : kcpv1alpha1.User) (t : metav1.Time) :
  mcmanager.GetCluster (Manager r) (mcreconcile.ClusterName req) w = (inl cl, w1) ->
  client.Get (mcmanager.GetClient cl) (mcreconcile.NamespacedName_ req) w1
    = (inl user, w2) ->
  kcpv1alpha1.DeletionTimestamp user = Some t ->
  withoutFinalizer user
  = kcpv1alpha1.set_Finalizers user
      (Some (List.filter (differs finalizerName)
               (elements (kcpv1alpha1.Finalizers user))))
  /\ (forall f,
        In f (elements (kcpv1alpha1.Finalizers (withoutFinalizer user)))
        <-> In f (elements (kcpv1alpha1.Finalizers user)) /\ f <> finalizerName)
  /\ containsFinalizer (kcpv1alpha1.Finalizers (withoutFinalizer user)) finalizerName = false
  /\ exists w3 pre,
       snd (snd (Reconcile clock r req (w, [])))
       = pre ++ [CallUpdate (withoutFinalizer user)
                   (fst (client.Update (mcmanager.GetClient cl) (withoutFinalizer user) w3))]
       /\ fst (Reconcile clock r req (w, []))
          = (ctrl.Result_zero,
             snd (fst (client.Update (mcmanager.GetClient cl) (withoutFinalizer user) w3)))
       /\ count is_write pre = 0
       /\ (UserPoolClient r = None -> count is_directory pre = 0).
Proof.
  intros Hcl Hget Hdel.
  assert (Hfilter : withoutFinalizer user
                    = kcpv1alpha1.set_Finalizers user
                        (Some (List.filter (differs finalizerName)
                                 (elements (kcpv1alpha1.Finalizers user))))).
  { unfold withoutFinalizer. by rewrite removeFinalizer_filter. }
  split; [exact Hfilter|]. split.
  { intros f. rewrite Hfilter. simpl. rewrite filter_In. unfold differs.
    destruct (String.eqb f finalizerName) eqn:E.
    - apply String.eqb_eq in E. split; [by intros [_ ?] | by intros [_ ?]].
    - apply String.eqb_neq in E. tauto. }
  split.
  { unfold withoutFinalizer. simpl. apply containsFinalizer_removeFinalizer. }
  rewrite Reconcile_run. cbv zeta. rewrite Hcl. cbn [fst snd]. rewrite Hget.
  cbn [fst snd]. rewrite Hdel. unfold deleting. cbv zeta.
  destruct (UserPoolClient r) as [c|].
  - rewrite delete_run. cbv zeta.
    destruct (userpool.GetUser c _ w2) as [[existingUser|e] w3]; cbn [fst snd].
    + destruct (userpool.DeleteUser c _ w3) as [derr w4]; cbn [fst snd].
      eexists w4, _. split; [reflexivity|]. split; [reflexivity|]. split; [reflexivity|].
      discriminate.
    + eexists w3, _. split; [reflexivity|]. split; [reflexivity|]. split; [reflexivity|].
      discriminate.
  - cbn [fst snd].
    eexists w2, _. split; [reflexivity|]. split; [reflexivity|]. split; reflexivity.
Qed.

(** Deletion with a directory whose get and delete would fail: the pass
    returns no error, and the resource it submits has lost the cleanup
    finalizer and kept the other one. *)
Lemma C3_deletion_branch_witness :
  fst (Reconcile fixtures.clock
         (fixtures.reconciler
            (fixtures.store
               (inl (fixtures.user "u1" "u1@x.com" true "" (Some 5%Z)
                       (Some [finalizerName; "other.io/finalizer"]))) None None)
            (Some (fixtures.pool (fun _ => inl (fixtures.account "u1" "u1@x.com" true "s"))
                     (inr fixtures.notFound) None
                     (Some (errorString "delete failed")))))
         (fixtures.request "u1") (7%Z, []))
  = (ctrl.Result_zero, None)
  /\ kcpv1alpha1.Finalizers
       (withoutFinalizer
          (fixtures.user "u1" "u1@x.com" true "" (Some 5%Z)
             (Some [finalizerName; "other.io/finalizer"])))
     = Some ["other.io/finalizer"].
Proof.
  destruct (C3_deletion_branch fixtures.clock
              (fixtures.reconciler
                 (fixtures.store
                    (inl (fixtures.user "u1" "u1@x.com" true "" (Some 5%Z)
                            (Some [finalizerName; "other.io/finalizer"]))) None None)
                 (Some (fixtures.pool
                          (fun _ => inl (fixtures.account "u1" "u1@x.com" true "s"))
                          (inr fixtures.notFound) None
                          (Some (errorString "delete failed")))))
              (fixtures.request "u1") 7%Z 7%Z 7%Z
              {| mcmanager.GetClient :=
                   fixtures.store
                     (inl (fixtures.user "u1" "u1@x.com" true "" (Some 5%Z)
                             (Some [finalizerName; "other.io/finalizer"]))) None None |}
              (fixtures.user "u1" "u1@x.com" true "" (Some 5%Z)
                 (Some [finalizerName; "other.io/finalizer"]))
              5%Z eq_refl eq_refl eq_refl) as (Hfilter & _ & _ & w3 & pre & _ & H & _).
  split; [exact H|]. rewrite Hfilter. reflexivity.
Defined.

(** ** C6: a failing create call *)

(** When the sync pass returns an error it has not written to the resource. *)
Lemma sync_error_unchanged {W : Type} (clock : time.Clock W) (c : userpool.Client W)
    (user : kcpv1alpha1.User) (s : W * list Call) (err : error) :
  snd (fst (syncUserWithUserPool clock c user s)) = Some err ->
  fst (fst (syncUserWithUserPool clock c user s)) = user.
Proof.
  destruct s as [w tr]. rewrite sync_run. cbv zeta.
  destruct (userpool.GetUser c _ w) as [[existingUser|e] w1]; cbn [fst snd].
  - destruct (needsUpdate _ _); [|discriminate].
    by destruct (userpool.UpdateUser c _ w1) as [[e'|] w2].
  - by destruct (userpool.CreateUser c _ w1) as [[createdUser|e'] w2].
Qed.

(** C6: for a fetched resource that is not being deleted, if the pass issues
    a create call and the call returns an error [e] (the create call follows a
    directory get that returned an error), [Reconcile] returns that error,
    wrapped with the text "failed to create user in user pool: ", and a requeue
    delay of 5 minutes; the pass writes no status (no status update is issued,
    the only store write it can have issued is the finalizer-add update, which
    carries the fetched status), and the sync pass handed the resource back
    as it received it. *)
Theorem C6_create_failure {W : Type} (clock : time.Clock W) (r : UserReconciler)
    (req : mcreconcile.Request) (w w1 w2 : W) (cl : mcmanager.Cluster W)
    (user : kcpv1alpha1.User) (p : option userpool.User) (e : error) :
  mcmanager.GetCluster (Manager r) (mcreconcile.ClusterName req) w = (inl cl, w1) ->
  client.Get (mcmanager.GetClient cl) (mcreconcile.NamespacedName_ req) w1
    = (inl user, w2) ->
  kcpv1alpha1.DeletionTimestamp user = None ->
  In (CallCreateUser p (inr e)) (snd (snd (Reconcile clock r req (w, [])))) ->
  fst (Reconcile clock r req (w, []))
    = ({| ctrl.Requeue := false; ctrl.RequeueAfter := (5 * 60 * 1000000000)%Z |},
       Some (Errorf "failed to create user in user pool: " e))
  /\ Unwrap (Errorf "failed to create user in user pool: " e) = Some e
  /\ (exists identifier e1,
        In (CallGetUser identifier (inr e1)) (snd (snd (Reconcile clock r req (w, [])))))
  /\ count is_StatusUpdate (snd (snd (Reconcile clock r req (w, [])))) = 0
  /\ (forall obj res,
        In (CallUpdate obj res) (snd (snd (Reconcile clock r req (w, [])))) ->
        obj = withFinalizer user
        /\ kcpv1alpha1.Status obj = kcpv1alpha1.Status user)
  /\ (forall c u s err,
        snd (fst (syncUserWithUserPool clock c u s)) = Some err ->
        fst (fst (syncUserWithUserPool clock c u s)) = u).
Proof.
  intros Hcl Hget Hdel. rewrite Reconcile_run. cbv zeta.
  rewrite Hcl. cbn [fst snd]. rewrite Hget. cbn [fst snd]. rewrite Hdel.
  unfold active, persist. cbv zeta.
  assert (Hsync : forall c u s err,
             snd (fst (syncUserWithUserPool clock c u s)) = Some err ->
             fst (fst (syncUserWithUserPool clock c u s)) = u)
    by (intros; eapply sync_error_unchanged; eauto).
  destruct (negb (containsFinalizer _ _)); cbn [fst snd].
  - destruct (client.Update _ (withFinalizer user) w2) as [[obj [uerr|]] w3];
      cbn [fst snd].
    { simpl. intros [H|[H|[H|H]]]; try discriminate H; contradiction. }
    destruct (UserPoolClient r) as [c|]; cbn [fst snd].
    + rewrite sync_run. cbv zeta.
      destruct (userpool.GetUser c _ w3) as [[existingUser|e1] w4]; cbn [fst snd].
      * destruct (needsUpdate _ _).
        -- destruct (userpool.UpdateUser c _ w4) as [[e'|] w5]; cbn [fst snd].
           ++ simpl. intros H. repeat destruct H as [H|H]; try discriminate H;
                contradiction.
           ++ destruct (client.Update _ _ _) as [[obj' [uerr|]] w6]; cbn [fst snd];
                simpl; intros H; repeat destruct H as [H|H]; try discriminate H;
                contradiction.
        -- cbn [fst snd].
           destruct (client.Update _ _ _) as [[obj' [uerr|]] w6]; cbn [fst snd];
             simpl; intros H; repeat destruct H as [H|H]; try discriminate H;
             contradiction.
      * destruct (userpool.CreateUser c _ w4) as [[createdUser|e'] w5]; cbn [fst snd].
        -- destruct (client.Update _ _ _) as [[obj' [uerr|]] w6]; cbn [fst snd];
             simpl; intros H; repeat destruct H as [H|H]; try discriminate H;
             contradiction.
        -- simpl. intros H. repeat destruct H as [H|H]; try discriminate H;
             try contradiction.
           inversion H; subst.
           split; [reflexivity|]. split; [reflexivity|].
           split; [eexists _, _; right; right; right; left; reflexivity|].
           split; [reflexivity|]. split; [|exact Hsync].
           intros obj0 res H'. repeat destruct H' as [H'|H']; try discriminate H';
             try contradiction.
           inversion H'; subst. by split.
    + destruct (client.Update _ _ _) as [[obj' [uerr|]] w6]; cbn [fst snd];
        simpl; intros H; repeat destruct H as [H|H]; try discriminate H;
        contradiction.
  - destruct (UserPoolClient r) as [c|]; cbn [fst snd].
    + rewrite sync_run. cbv zeta.
      destruct (userpool.GetUser c _ w2) as [[existingUser|e1] w4]; cbn [fst snd].
      * destruct (needsUpdate _ _).
        -- destruct (userpool.UpdateUser c _ w4) as [[e'|] w5]; cbn [fst snd].
           ++ simpl. intros H. repeat destruct H as [H|H]; try discriminate H;
                contradiction.
           ++ destruct (client.Update _ _ _) as [[obj' [uerr|]] w6]; cbn [fst snd];
                simpl; intros H; repeat destruct H as [H|H]; try discriminate H;
                contradiction.
        -- cbn [fst snd].
           destruct (client.Update _ _ _) as [[obj' [uerr|]] w6]; cbn [fst snd];
             simpl; intros H; repeat destruct H as [H|H]; try discriminate H;
             contradiction.
      * destruct (userpool.CreateUser c _ w4) as [[createdUser|e'] w5]; cbn [fst snd].
        -- destruct (client.Update _ _ _) as [[obj' [uerr|]] w6]; cbn [fst snd];
             simpl; intros H; repeat destruct H as [H|H]; try discriminate H;
             contradiction.
        -- simpl. intros H. repeat destruct H as [H|H]; try discriminate H;
             try contradiction.
           inversion H; subst.
           split; [reflexivity|]. split; [reflexivity|].
           split; [eexists _, _; right; right; left; reflexivity|].
           split; [reflexivity|]. split; [|exact Hsync].
           intros obj0 res H'. repeat destruct H' as [H'|H']; try discriminate H';
             contradiction.
    + destruct (client.Update _ _ _) as [[obj' [uerr|]] w6]; cbn [fst snd];
        simpl; intros H; repeat destruct H as [H|H]; try discriminate H;
        contradiction.
Qed.

(** The retry scenario of the spec: the directory get fails, the create call
    fails. *)
Lemma C6_create_failure_witness :
  fst (Reconcile fixtures.clock
         (fixtures.reconciler
            (fixtures.store (inl (fixtures.user "alice" "a@x.com" true "" None None))
               None None)
            (Some (fixtures.pool (fun _ => inr fixtures.notFound)
                     (inr (errorString "creation failed")) None None)))
         (fixtures.request "alice") (7%Z, []))
  = ({| ctrl.Requeue := false; ctrl.RequeueAfter := 300000000000%Z |},
     Some (wrapError "failed to create user in user pool: creation failed"
             (errorString "creation failed"))).
Proof.
  destruct (C6_create_failure fixtures.clock
              (fixtures.reconciler
                 (fixtures.store (inl (fixtures.user "alice" "a@x.com" true "" None None))
                    None None)
                 (Some (fixtures.pool (fun _ => inr fixtures.notFound)
                          (inr (errorString "creation failed")) None None)))
              (fixtures.request "alice") 7%Z 7%Z 7%Z
              {| mcmanager.GetClient :=
                   fixtures.store
                     (inl (fixtures.user "alice" "a@x.com" true "" None None))
                     None None |}
              (fixtures.user "alice" "a@x.com" true "" None None)
              (Some (poolUserOf (fixtures.user "alice" "a@x.com" true "" None None)))
              (errorString "creation failed")
              eq_refl eq_refl eq_refl) as (H & _).
  - vm_compute. tauto.
  - exact H.
Defined.

(** ** C2: the finalizer before any directory mutation *)

Lemma gate_sound (durable : bool) (tr : list Call) :
  gate durable tr = true ->
  forall pre c post,
    tr = pre ++ c :: post -> is_mutation c = true ->
    durable = true \/ exists p, In p pre /\ persists_finalizer p = true.
Proof.
  revert durable. induction tr as [|x tr IH]; intros durable Hgate pre c post Heq Hmut.
  - by destruct pre.
  - simpl in Hgate. apply andb_true_iff in Hgate. destruct Hgate as [Hx Hrest].
    destruct pre as [|y pre]; simpl in Heq; inversion Heq; subst.
    + rewrite Hmut in Hx. simpl in Hx. by left.
    + destruct (IH _ Hrest pre c post eq_refl Hmut) as [Hd | (p & Hin & Hp)].
      * apply orb_true_iff in Hd. destruct Hd as [Hd|Hd]; [by left|].
        right. exists y. split; [by left | done].
      * right. exists p. split; [by right | done].
Qed.

Lemma persists_finalizer_inv (p : Call) :
  persists_finalizer p = true ->
  exists obj obj',
    p = CallUpdate obj (obj', None)
    /\ containsFinalizer (kcpv1alpha1.Finalizers obj) finalizerName = true.
Proof.
  destruct p as [| |obj [obj' [e|]]| | | | | |]; simpl; try discriminate.
  intros H. by exists obj, obj'.
Qed.

Lemma withFinalizer_contains (user : kcpv1alpha1.User) :
  containsFinalizer (kcpv1alpha1.Finalizers (withFinalizer user)) finalizerName = true.
Proof. unfold withFinalizer. simpl. apply containsFinalizer_append. Qed.

Ltac gate_step :=
  cbn [gate is_mutation is_CreateUser is_UpdateUser is_DeleteUser persists_finalizer
       negb orb andb app fst snd];
  rewrite ?withFinalizer_contains.

(** The calls of one pass over a live resource pass the gate. *)
Lemma active_gate {W : Type} (clock : time.Clock W) (r : UserReconciler)
    (store : client.Client W) (user : kcpv1alpha1.User) (w : W) (c1 c2 : Call) :
  is_mutation c1 = false -> is_mutation c2 = false ->
  persists_finalizer c1 = false -> persists_finalizer c2 = false ->
  gate (containsFinalizer (kcpv1alpha1.Finalizers user) finalizerName)
    (snd (snd (active clock r store user (w, [c1; c2])))) = true.
Proof.
  intros Hm1 Hm2 Hp1 Hp2. unfold active, persist. cbv zeta.
  destruct (containsFinalizer _ _) eqn:Hc; cbn [negb fst snd].
  - destruct (UserPoolClient r) as [c|]; cbn [fst snd].
    + rewrite sync_run. cbv zeta.
      destruct (userpool.GetUser c _ w) as [[existingUser|e1] w4]; cbn [fst snd].
      * destruct (needsUpdate _ _).
        -- destruct (userpool.UpdateUser c _ w4) as [[e'|] w5]; cbn [fst snd].
           ++ cbn [gate app]. rewrite Hm1, Hm2. by gate_step.
           ++ destruct (client.Update _ _ _) as [[obj' [uerr|]] w6]; cbn [fst snd];
                cbn [gate app]; rewrite Hm1, Hm2; by gate_step.
        -- cbn [fst snd].
           destruct (client.Update _ _ _) as [[obj' [uerr|]] w6]; cbn [fst snd];
             cbn [gate app]; rewrite Hm1, Hm2; by gate_step.
      * destruct (userpool.CreateUser c _ w4) as [[createdUser|e'] w5]; cbn [fst snd].
        -- destruct (client.Update _ _ _) as [[obj' [uerr|]] w6]; cbn [fst snd];
             cbn [gate app]; rewrite Hm1, Hm2; by gate_step.
        -- cbn [gate app]. rewrite Hm1, Hm2. by gate_step.
    + destruct (client.Update _ _ _) as [[obj' [uerr|]] w6]; cbn [fst snd];
        cbn [gate app]; rewrite Hm1, Hm2; by gate_step.
  - destruct (client.Update _ (withFinalizer user) w) as [[obj [uerr|]] w3];
      cbn [fst snd].
    { cbn [gate app]. rewrite Hm1, Hm2, Hp1, Hp2. by gate_step. }
    destruct (UserPoolClient r) as [c|]; cbn [fst snd].
    + rewrite sync_run. cbv zeta.
      destruct (userpool.GetUser c _ w3) as [[existingUser|e1] w4]; cbn [fst snd].
      * destruct (needsUpdate _ _).
        -- destruct (userpool.UpdateUser c _ w4) as [[e'|] w5]; cbn [fst snd].
           ++ cbn [gate app]. rewrite Hm1, Hm2, Hp1, Hp2. by gate_step.
           ++ destruct (client.Update _ _ _) as [[obj' [uerr|]] w6]; cbn [fst snd];
                cbn [gate app]; rewrite Hm1, Hm2, Hp1, Hp2; by gate_step.
        -- cbn [fst snd].
           destruct (client.Update _ _ _) as [[obj' [uerr|]] w6]; cbn [fst snd];
             cbn [gate app]; rewrite Hm1, Hm2, Hp1, Hp2; by gate_step.
      * destruct (userpool.CreateUser c _ w4) as [[createdUser|e'] w5]; cbn [fst snd].
        -- destruct (client.Update _ _ _) as [[obj' [uerr|]] w6]; cbn [fst snd];
             cbn [gate app]; rewrite Hm1, Hm2, Hp1, Hp2; by gate_step.
        -- cbn [gate app]. rewrite Hm1, Hm2, Hp1, Hp2. by gate_step.
    + destruct (client.Update _ _ _) as [[obj' [uerr|]] w6]; cbn [fst snd];
        cbn [gate app]; rewrite Hm1, Hm2, Hp1, Hp2; by gate_step.
Qed.

(** C2: in a pass over a fetched resource whose deletion timestamp is nil,
    every directory-mutating call (create, update, delete) comes after the
    cleanup finalizer is durable: either the fetched resource already held it,
    or an earlier call of the pass is a successful store update of a resource
    that holds it. The resource the add step submits holds it. If the
    finalizer is absent and the store update that adds it fails, the pass
    returns that error after three calls (cluster, fetch, the failed update),
    none of them to the directory client. *)
Theorem C2_finalizer_before_mutation {W : Type} (clock : time.Clock W)
    (r : UserReconciler) (req : mcreconcile.Request) (w w1 w2 : W)
    (cl : mcmanager.Cluster W) (user : kcpv1alpha1.User) :
  mcmanager.GetCluster (Manager r) (mcreconcile.ClusterName req) w = (inl cl, w1) ->
  client.Get (mcmanager.GetClient cl) (mcreconcile.NamespacedName_ req) w1
    = (inl user, w2) ->
  kcpv1alpha1.DeletionTimestamp user = None ->
  (forall pre c post,
      snd (snd (Reconcile clock r req (w, []))) = pre ++ c :: post ->
      is_mutation c = true ->
      containsFinalizer (kcpv1alpha1.Finalizers user) finalizerName = true
      \/ exists obj obj',
           In (CallUpdate obj (obj', None)) pre
           /\ containsFinalizer (kcpv1alpha1.Finalizers obj) finalizerName = true)
  /\ containsFinalizer (kcpv1alpha1.Finalizers (withFinalizer user)) finalizerName = true
  /\ (forall err,
        containsFinalizer (kcpv1alpha1.Finalizers user) finalizerName = false ->
        snd (fst (client.Update (mcmanager.GetClient cl) (withFinalizer user) w2))
          = Some err ->
        fst (Reconcile clock r req (w, [])) = (ctrl.Result_zero, Some err)
        /\ snd (snd (Reconcile clock r req (w, [])))
           = [CallGetCluster (mcreconcile.ClusterName req) None;
              CallGet (mcreconcile.NamespacedName_ req) (inl user);
              CallUpdate (withFinalizer user)
                (fst (client.Update (mcmanager.GetClient cl) (withFinalizer user) w2))]
        /\ count is_directory (snd (snd (Reconcile clock r req (w, [])))) = 0).
Proof.
  intros Hcl Hget Hdel. rewrite Reconcile_run. cbv zeta.
  rewrite Hcl. cbn [fst snd]. rewrite Hget. cbn [fst snd]. rewrite Hdel.
  cbn [app]. split; [|split].
  - intros pre c post Heq Hmut.
    assert (Hgate := active_gate clock r (mcmanager.GetClient cl) user w2
                       (CallGetCluster (mcreconcile.ClusterName req) None)
                       (CallGet (mcreconcile.NamespacedName_ req) (inl user))
                       eq_refl eq_refl eq_refl eq_refl).
    destruct (gate_sound _ _ Hgate pre c post Heq Hmut) as [Hd | (p & Hin & Hp)];
      [by left|].
    right. destruct (persists_finalizer_inv p Hp) as (obj & obj' & -> & Hobj).
    by exists obj, obj'.
  - apply withFinalizer_contains.
  - intros err Habs Hfail. unfold active. cbv zeta. rewrite Habs. cbn [negb fst snd].
    rewrite Hfail. by cbn [fst snd app].
Qed.

(** First pass over a fresh resource: the store update that adds the
    finalizer precedes the create call. *)
Lemma C2_finalizer_before_mutation_witness :
  exists obj obj',
    In (CallUpdate obj (obj', None))
      [CallGetCluster "cluster1" None;
       CallGet (mcreconcile.NamespacedName_ (fixtures.request "alice"))
         (inl fixtures.alice);
       CallUpdate (withFinalizer fixtures.alice) (withFinalizer fixtures.alice, None);
       CallGetUser "a@x.com" (inr fixtures.notFound)]
    /\ containsFinalizer (kcpv1alpha1.Finalizers obj) finalizerName = true.
Proof.
  destruct (C2_finalizer_before_mutation fixtures.clock
              (fixtures.reconciler (fixtures.store (inl fixtures.alice) None None)
                 (Some fixtures.creatingPool))
              (fixtures.request "alice") 7%Z 7%Z 7%Z
              {| mcmanager.GetClient := fixtures.store (inl fixtures.alice) None None |}
              fixtures.alice eq_refl eq_refl eq_refl) as (H & _).
  edestruct (H [CallGetCluster "cluster1" None;
                CallGet (mcreconcile.NamespacedName_ (fixtures.request "alice"))
                  (inl fixtures.alice);
                CallUpdate (withFinalizer fixtures.alice) (withFinalizer fixtures.alice, None);
                CallGetUser "a@x.com" (inr fixtures.notFound)]
               (CallCreateUser (Some (poolUserOf (withFinalizer fixtures.alice)))
                  (inl (fixtures.account "alice" "a@x.com" true "sub-1"))))
    as [Hc | Hex]; [reflexivity | reflexivity | discriminate Hc | exact Hex].
Defined.

(** ** C9: deleting an account that does not exist *)

(** The AWS client on a non-empty username, by the answer of the Cognito
    API. *)
Lemma aws_DeleteUser_run {W : Type} (c : cognito.AWSClient W) (username : string) (w : W) :
  username <> "" ->
  cognito.DeleteUser c username w
  = (let res :=
       cognito.AdminDeleteUser (cognito.cognito c)
         {| cognitoidentityprovider.AdminDeleteUserInput.UserPoolId :=
              Some (cognito.userPoolID c);
            cognitoidentityprovider.AdminDeleteUserInput.Username := Some username |} w in
     (match fst res with
      | None => None
      | Some err =>
          if AsUserNotFound err then None
          else Some (Errorf ("failed to delete user " ++ username ++ ": ") err)
      end, snd res)).
Proof.
  intros Hne. apply String.eqb_neq in Hne.
  unfold cognito.DeleteUser. rewrite Hne. cbv zeta. rewrite bind_run.
  destruct (cognito.AdminDeleteUser _ _ w) as [[err|] w']; cbn [fst snd]; [|done].
  by destruct (AsUserNotFound err).
Qed.

(** The in-memory client refuses to delete an account it does not hold. *)
Lemma mock_DeleteUser_absent (m : mock.MockClient) (username : string) :
  username <> "" ->
  mock.users m !! username = None ->
  mock.DeleteUser username m
  = (Some (errorString ("user " ++ username ++ " not found")), m).
Proof.
  intros Hne Habs. apply String.eqb_neq in Hne.
  unfold mock.DeleteUser. by rewrite Hne, Habs.
Qed.

(** C9, as stated for every identifier and both clients, fails: no account
    is stored under the empty identifier, and both clients return an error for
    it; and the in-memory client, holding no account at all, returns an error
    for the identifier ["ghost"]. *)
Lemma C9_delete_counterexample :
  fst (cognito.DeleteUser (fixtures.aws fixtures.emptyCognito) "" 0%Z)
    = Some (errorString "username cannot be empty")
  /\ mock.users mock.NewMockClient !! "" = None
  /\ fst (mock.DeleteUser "" mock.NewMockClient)
     = Some (errorString "username cannot be empty")
  /\ mock.users mock.NewMockClient !! "ghost" = None
  /\ fst (mock.DeleteUser "ghost" mock.NewMockClient)
     = Some (errorString "user ghost not found").
Proof. repeat (split; [reflexivity|]). reflexivity. Qed.

(** C9 (amended): for every non-empty identifier, the AWS client's delete
    returns no error when the Cognito API reports that the user was not found
    (directly or through wrapped errors); for the empty identifier both
    clients return the error "username cannot be empty" and leave the pool
    untouched. *)
Theorem C9_delete_not_found {W : Type} (c : cognito.AWSClient W) (username : string)
    (w w' : W) (err : error) :
  username <> "" ->
  cognito.AdminDeleteUser (cognito.cognito c)
    {| cognitoidentityprovider.AdminDeleteUserInput.UserPoolId :=
         Some (cognito.userPoolID c);
       cognitoidentityprovider.AdminDeleteUserInput.Username := Some username |} w
    = (Some err, w') ->
  AsUserNotFound err = true ->
  cognito.DeleteUser c username w = (None, w')
  /\ userpool.DeleteUser (cognito.AWSClient_Client c) username w = (None, w')
  /\ cognito.DeleteUser c "" w = (Some (errorString "username cannot be empty"), w)
  /\ (forall m : mock.MockClient,
        userpool.DeleteUser mock.MockClient_Client "" m
        = (Some (errorString "username cannot be empty"), m)).
Proof.
  intros Hne Hapi Hnf.
  assert (H : cognito.DeleteUser c username w = (None, w')).
  { rewrite aws_DeleteUser_run by done. cbv zeta. rewrite Hapi. cbn [fst snd].
    by rewrite Hnf. }
  repeat split; done.
Qed.

Lemma C9_delete_not_found_witness :
  cognito.DeleteUser (fixtures.aws fixtures.emptyCognito) "ghost" 0%Z = (None, 0%Z).
Proof.
  destruct (C9_delete_not_found (fixtures.aws fixtures.emptyCognito) "ghost" 0%Z 0%Z
              (UserNotFoundException "User does not exist.")) as (H & _).
  - discriminate.
  - reflexivity.
  - reflexivity.
  - exact H.
Defined.

(** ** C10: the subject id the AWS client reports *)

Lemma aws_GetUser_run {W : Type} (c : cognito.AWSClient W) (username : string) (w : W) :
  username <> "" ->
  cognito.GetUser c username w
  = (let res :=
       cognito.AdminGetUser (cognito.cognito c)
         {| cognitoidentityprovider.AdminGetUserInput.UserPoolId :=
              Some (cognito.userPoolID c);
            cognitoidentityprovider.AdminGetUserInput.Username := Some username |} w in
     (match fst res with
      | inr err => inr (Errorf ("failed to get user " ++ username ++ ": ") err)
      | inl output =>
          inl {| userpool.Username := username;
                 userpool.Email :=
                   match cognito.firstAttribute "email"
                           (cognitoidentityprovider.AdminGetUserOutput.UserAttributes output)
                   with
                   | Some v => v
                   | None => ""
                   end;
                 userpool.Enabled :=
                   cognitoidentityprovider.AdminGetUserOutput.Enabled output;
                 userpool.Sub := username |}
      end, snd res)).
Proof.
  intros Hne. apply String.eqb_neq in Hne.
  unfold cognito.GetUser. rewrite Hne. cbv zeta. rewrite bind_run.
  destruct (cognito.AdminGetUser _ _ w) as [[output|err] w']; cbn [fst snd]; [|done].
  by destruct (cognito.firstAttribute _ _).
Qed.

(** C10: an account the AWS client's get returns carries the identifier of
    the lookup as its subject id (and username), whatever attributes the
    provider sent; the identifier is then non-empty. So when the sync pass
    runs on the AWS client with an empty stored subject id, looks the account
    up by the spec email and succeeds, the subject id it stores is that email. *)
Theorem C10_aws_sub_is_identifier {W : Type} (clock : time.Clock W)
    (c : cognito.AWSClient W) (identifier : string) (w w' : W) (found : userpool.User)
    (user : kcpv1alpha1.User) :
  cognito.GetUser c identifier w = (inl found, w') ->
  userpool.Sub found = identifier
  /\ identifier <> ""
  /\ (kcpv1alpha1.Sub (kcpv1alpha1.Status user) = "" ->
      kcpv1alpha1.Email (kcpv1alpha1.Spec user) = identifier ->
      snd (fst (syncUserWithUserPool clock (cognito.AWSClient_Client c) user (w, [])))
        = None ->
      kcpv1alpha1.Sub
        (kcpv1alpha1.Status
           (fst (fst (syncUserWithUserPool clock (cognito.AWSClient_Client c) user (w, [])))))
      = kcpv1alpha1.Email (kcpv1alpha1.Spec user)).
Proof.
  intros Hget.
  assert (Hne : identifier <> "").
  { intros ->. unfold cognito.GetUser in Hget. simpl in Hget. discriminate Hget. }
  assert (Hsub : userpool.Sub found = identifier).
  { rewrite aws_GetUser_run in Hget by done. cbv zeta in Hget.
    destruct (cognito.AdminGetUser _ _ w) as [[output|err] w1]; cbn [fst snd] in Hget;
      inversion Hget; by subst. }
  split; [done|]. split; [done|].
  intros Hempty Hemail.
  rewrite sync_run. cbv zeta. unfold lookupIdentifier. rewrite Hempty. simpl negb.
  cbv iota. rewrite Hemail. simpl userpool.GetUser. rewrite Hget. cbn [fst snd].
  destruct (needsUpdate _ _).
  - destruct (userpool.UpdateUser _ _ w') as [[e'|] w2]; cbn [fst snd]; [discriminate|].
    intros _. simpl. by rewrite Hempty.
  - cbn [fst snd]. intros _. simpl. by rewrite Hempty.
Qed.

(** The provider knows the account under another subject id; the stored
    subject id is the email of the lookup. *)
Lemma C10_aws_sub_is_identifier_witness :
  kcpv1alpha1.Sub
    (kcpv1alpha1.Status
       (fst (fst (syncUserWithUserPool fixtures.clock
                    (cognito.AWSClient_Client (fixtures.aws (fixtures.fullCognito "a@x.com")))
                    fixtures.alice (7%Z, [])))))
  = "a@x.com".
Proof.
  destruct (C10_aws_sub_is_identifier fixtures.clock
              (fixtures.aws (fixtures.fullCognito "a@x.com")) "a@x.com" 7%Z 7%Z
              (fixtures.account "a@x.com" "a@x.com" true "a@x.com")
              fixtures.alice eq_refl) as (_ & _ & H).
  exact (H eq_refl eq_refl eq_refl).
Defined.

(** ** C1: the stored subject id *)













(** * Further properties of the code *)

(** ** The finalizer helpers *)

Lemma containsFinalizer_loop_filter (l : list string) (m m' : string) :
  containsFinalizer_loop (List.filter (differs m) l) m'
  = containsFinalizer_loop l m' && negb (String.eqb m' m).
Proof.
  induction l as [|f l IH]; simpl; [done|].
  unfold differs at 1. destruct (String.eqb f m) eqn:Hfm; simpl.
  - apply String.eqb_eq in Hfm. subst f.
    destruct (String.eqb m m') eqn:Hmm.
    + apply String.eqb_eq in Hmm. subst m'. rewrite String.eqb_refl. simpl.
      rewrite IH. rewrite String.eqb_refl. simpl. by rewrite andb_false_r.
    + exact IH.
  - destruct (String.eqb f m') eqn:Hfm'; [|exact IH].
    apply String.eqb_eq in Hfm'. subst m'. by rewrite Hfm.
Qed.

(** X1: removing a finalizer leaves every other finalizer in place: after
    [removeFinalizer S m], a marker [m'] is contained exactly when it was
    contained in [S] and differs from [m]. *)
Theorem X1_removeFinalizer_keeps_others (S : option (list string)) (m m' : string) :
  containsFinalizer (removeFinalizer S m) m'
  = containsFinalizer S m' && negb (String.eqb m' m).
Proof.
  rewrite removeFinalizer_filter. unfold containsFinalizer. simpl.
  apply containsFinalizer_loop_filter.
Qed.

Lemma filter_differs_idem (l : list string) (m : string) :
  List.filter (differs m) (List.filter (differs m) l) = List.filter (differs m) l.
Proof.
  induction l as [|f l IH]; simpl; [done|].
  destruct (differs m f) eqn:E; simpl; [|done]. by rewrite E, IH.
Qed.

(** X2: [removeFinalizer] is idempotent, never lengthens the list, and on a
    list that does not hold the marker it returns the same elements (as a
    non-nil slice). *)
Theorem X2_removeFinalizer_idempotent (S : option (list string)) (m : string) :
  removeFinalizer (removeFinalizer S m) m = removeFinalizer S m
  /\ length (elements (removeFinalizer S m)) <= length (elements S)
  /\ (containsFinalizer S m = false -> removeFinalizer S m = Some (elements S)).
Proof.
  rewrite !removeFinalizer_filter. simpl. split; [|split].
  - by rewrite filter_differs_idem.
  - apply List.filter_length_le.
  - intros H. by rewrite (filter_absent _ _ H).
Qed.

(** ** Failures of the fetch *)

(** X3: when the cluster cannot be obtained, [Reconcile] returns the empty
    result and the error wrapped as "failed to get cluster: ...", and calls
    nothing else. *)
Theorem X3_cluster_failure {W : Type} (clock : time.Clock W) (r : UserReconciler)
    (req : mcreconcile.Request) (w w1 : W) (err : error) :
  mcmanager.GetCluster (Manager r) (mcreconcile.ClusterName req) w = (inr err, w1) ->
  Reconcile clock r req (w, [])
  = ((ctrl.Result_zero, Some (wrapError ("failed to get cluster: " ++ Error err) err)),
     (w1, [CallGetCluster (mcreconcile.ClusterName req) (Some err)])).
Proof.
  intros Hcl. rewrite Reconcile_run. cbv zeta. rewrite Hcl. reflexivity.
Qed.

Lemma X3_cluster_failure_witness :
  fst (Reconcile fixtures.clock
         {| Manager :=
              {| mcmanager.GetCluster := fun _ w =>
                   (inr (errorString "cluster not found"), w) |};
            UserPoolClient := None |}
         (fixtures.request "test-user") (7%Z, []))
  = (ctrl.Result_zero,
     Some (wrapError "failed to get cluster: cluster not found"
             (errorString "cluster not found"))).
Proof.
  rewrite (X3_cluster_failure fixtures.clock
             {| Manager :=
                  {| mcmanager.GetCluster := fun _ w =>
                       (inr (errorString "cluster not found"), w) |};
                UserPoolClient := None |}
             (fixtures.request "test-user") 7%Z 7%Z
             (errorString "cluster not found") eq_refl).
  reflexivity.
Defined.

(** X4: when the fetch of the resource fails, [Reconcile] stops after the
    fetch and returns the empty result: without error when
    [errors.IsNotFound] accepts the fetch error, with the fetch error as it
    is otherwise; neither the store nor the directory is called afterwards.
    [errors.IsNotFound] accepts an error exactly when the first API status in
    its chain of wrapped errors has the reason [NotFound], or has the HTTP
    code 404 together with a reason that is not a known one; an error whose
    chain holds no API status has the unknown reason and code 0, and is
    returned. *)
Theorem X4_fetch_failure {W : Type} (clock : time.Clock W) (r : UserReconciler)
    (req : mcreconcile.Request) (w w1 w2 : W) (cl : mcmanager.Cluster W) (err : error) :
  mcmanager.GetCluster (Manager r) (mcreconcile.ClusterName req) w = (inl cl, w1) ->
  client.Get (mcmanager.GetClient cl) (mcreconcile.NamespacedName_ req) w1
    = (inr err, w2) ->
  Reconcile clock r req (w, [])
  = ((ctrl.Result_zero, if IsNotFound err then None else Some err),
     (w2, [CallGetCluster (mcreconcile.ClusterName req) None;
           CallGet (mcreconcile.NamespacedName_ req) (inr err)]))
  /\ (IsNotFound err = true <->
      fst (reasonAndCodeForError err) = "NotFound"
      \/ (~ In (fst (reasonAndCodeForError err)) knownReasons
          /\ snd (reasonAndCodeForError err) = 404%Z)).
Proof.
  intros Hcl Hget. split.
  { rewrite Reconcile_run. cbv zeta. rewrite Hcl. cbn [fst snd].
    rewrite Hget. reflexivity. }
  unfold IsNotFound. destruct (reasonAndCodeForError err) as [reason code].
  cbn [fst snd].
  destruct (String.eqb reason "NotFound") eqn:Hreason.
  { apply String.eqb_eq in Hreason. tauto. }
  apply String.eqb_neq in Hreason.
  destruct (existsb (String.eqb reason) knownReasons) eqn:Hknown; cbn [negb andb].
  - apply existsb_exists in Hknown. destruct Hknown as (known & Hin & Heq).
    apply String.eqb_eq in Heq. subst known.
    split; [discriminate | intros [?|[? _]]; contradiction].
  - assert (Hnot : ~ In reason knownReasons).
    { intros Hin.
      assert (Htrue : existsb (String.eqb reason) knownReasons = true).
      { apply existsb_exists. exists reason. split; [exact Hin | apply String.eqb_refl]. }
      congruence. }
    destruct (Z.eqb_spec code 404) as [Hcode|Hcode].
    + split; [tauto | reflexivity].
    + split; [discriminate | intros [?|[_ ?]]; contradiction].
Qed.

(** A fetch that fails with a wrapped API status of reason [NotFound], and one
    that fails with code 404 and a reason of the server's own: both end the
    pass without error. *)
Lemma X4_fetch_failure_witness :
  fst (Reconcile fixtures.clock
         (fixtures.reconciler
            (fixtures.store
               (inr (wrapError "get user"
                       (StatusError "NotFound" 404 "users u not found")))
               None None)
            (Some fixtures.creatingPool))
         (fixtures.request "u") (7%Z, []))
  = (ctrl.Result_zero, None)
  /\ fst (Reconcile fixtures.clock
            (fixtures.reconciler
               (fixtures.store
                  (inr (StatusError "PageMissing" 404 "the server could not find it"))
                  None None)
               (Some fixtures.creatingPool))
            (fixtures.request "u") (7%Z, []))
     = (ctrl.Result_zero, None).
Proof.
  split.
  - destruct (X4_fetch_failure fixtures.clock
                (fixtures.reconciler
                   (fixtures.store
                      (inr (wrapError "get user"
                              (StatusError "NotFound" 404 "users u not found")))
                      None None)
                   (Some fixtures.creatingPool))
                (fixtures.request "u") 7%Z 7%Z 7%Z
                {| mcmanager.GetClient :=
                     fixtures.store
                       (inr (wrapError "get user"
                               (StatusError "NotFound" 404 "users u not found")))
                       None None |}
                (wrapError "get user" (StatusError "NotFound" 404 "users u not found"))
                eq_refl eq_refl) as [Hrun _].
    rewrite Hrun. reflexivity.
  - destruct (X4_fetch_failure fixtures.clock
                (fixtures.reconciler
                   (fixtures.store
                      (inr (StatusError "PageMissing" 404 "the server could not find it"))
                      None None)
                   (Some fixtures.creatingPool))
                (fixtures.request "u") 7%Z 7%Z 7%Z
                {| mcmanager.GetClient :=
                     fixtures.store
                       (inr (StatusError "PageMissing" 404 "the server could not find it"))
                       None None |}
                (StatusError "PageMissing" 404 "the server could not find it")
                eq_refl eq_refl) as [Hrun _].
    rewrite Hrun. reflexivity.
Defined.

(** ** The calls of a pass, path by path *)

Ltac step_call :=
  match goal with
  | |- context [mcmanager.GetCluster ?m ?n ?w] =>
      is_var w; destruct (mcmanager.GetCluster m n w) as [[?cl|?e] ?w]
  | |- context [client.Get ?s ?k ?w] =>
      is_var w; destruct (client.Get s k w) as [[?user|?e] ?w]
  | |- context [client.Update ?s ?u ?w] =>
      is_var w; destruct (client.Update s u w) as [[?obj [?e|]] ?w]
  | |- context [client.StatusUpdate ?s ?u ?w] =>
      is_var w; destruct (client.StatusUpdate s u w) as [[?obj [?e|]] ?w]
  | |- context [userpool.GetUser ?c ?i ?w] =>
      is_var w; destruct (userpool.GetUser c i w) as [[?found|?e] ?w]
  | |- context [userpool.CreateUser ?c ?u ?w] =>
      is_var w; destruct (userpool.CreateUser c u w) as [[?account|?e] ?w]
  | |- context [userpool.UpdateUser ?c ?u ?w] =>
      is_var w; destruct (userpool.UpdateUser c u w) as [[?e|] ?w]
  | |- context [userpool.DeleteUser ?c ?i ?w] =>
      is_var w; destruct (userpool.DeleteUser c i w) as [[?e|] ?w]
  | |- context [time.Now ?c ?w] =>
      is_var w; destruct (time.Now c w) as [?t ?w]
  | |- context [needsUpdate ?a ?b] => destruct (needsUpdate a b)
  | |- context [containsFinalizer ?a ?b] => destruct (containsFinalizer a b)
  | |- context [kcpv1alpha1.DeletionTimestamp ?u] =>
      destruct (kcpv1alpha1.DeletionTimestamp u)
  | |- context [UserPoolClient ?r] => destruct (UserPoolClient r)
  end; cbn [fst snd negb app] in *.

(** Unfold a pass into its paths. *)
Ltac paths :=
  rewrite ?Reconcile_run; unfold active, deleting, persist; cbv zeta; cbn [fst snd];
  repeat (rewrite ?sync_run, ?delete_run; cbv zeta; cbn [fst snd]; step_call).

Ltac in_cases H :=
  simpl in H; repeat (destruct H as [H|H]; [try discriminate H|]); try contradiction.

(** X5: without a directory client configured, a pass calls the directory
    never, whatever the resource and the store do, and returns no requeue
    hint. *)
Theorem X5_no_client_no_directory_call {W : Type} (clock : time.Clock W)
    (r : UserReconciler) (req : mcreconcile.Request) (w : W) :
  UserPoolClient r = None ->
  count is_directory (snd (snd (Reconcile clock r req (w, [])))) = 0
  /\ fst (fst (Reconcile clock r req (w, []))) = ctrl.Result_zero.
Proof.
  intros Hnone. rewrite Reconcile_run. unfold active, deleting, persist. cbv zeta.
  rewrite Hnone. cbn [fst snd].
  repeat step_call; split; reflexivity.
Qed.

Lemma X5_no_client_no_directory_call_witness :
  count is_directory
    (snd (snd (Reconcile fixtures.clock
                 (fixtures.reconciler (fixtures.store (inl fixtures.alice) None None) None)
                 (fixtures.request "alice") (7%Z, []))))
  = 0.
Proof.
  destruct (X5_no_client_no_directory_call fixtures.clock
              (fixtures.reconciler (fixtures.store (inl fixtures.alice) None None) None)
              (fixtures.request "alice") 7%Z eq_refl) as [H _].
  exact H.
Defined.

(** X6: [Reconcile] returns a requeue hint only with an error of the sync
    pass: its result is empty, or it is a requeue after 5 minutes, and then
    the last call of the pass is a create or update call to the directory that
    failed, and the returned error wraps that call's error. *)
Theorem X6_requeue_only_with_sync_error {W : Type} (clock : time.Clock W)
    (r : UserReconciler) (req : mcreconcile.Request) (w : W) :
  fst (fst (Reconcile clock r req (w, []))) = ctrl.Result_zero
  \/ (fst (fst (Reconcile clock r req (w, [])))
      = {| ctrl.Requeue := false; ctrl.RequeueAfter := (5 * time.Minute)%Z |}
      /\ exists pre p e,
           (snd (snd (Reconcile clock r req (w, []))) = pre ++ [CallCreateUser p (inr e)]
            /\ snd (fst (Reconcile clock r req (w, [])))
               = Some (Errorf "failed to create user in user pool: " e))
           \/ (snd (snd (Reconcile clock r req (w, []))) = pre ++ [CallUpdateUser p (Some e)]
               /\ snd (fst (Reconcile clock r req (w, [])))
                  = Some (Errorf "failed to update user in user pool: " e))).
Proof.
  paths; try (left; reflexivity); right; (split; [reflexivity|]).
  all: first
    [ eexists (_ :: _ :: _ :: _ :: nil), _, _; left; split; reflexivity
    | eexists (_ :: _ :: _ :: nil), _, _; left; split; reflexivity
    | eexists (_ :: _ :: _ :: _ :: nil), _, _; right; split; reflexivity
    | eexists (_ :: _ :: _ :: nil), _, _; right; split; reflexivity ].
Qed.

(** X7: in a pass over a live resource, a failing update call to the
    directory ends the pass: [Reconcile] returns the error wrapped as "failed
    to update user in user pool: ..." with a requeue after 5 minutes, reads
    no clock (neither the last-sync time nor the last-reconciled annotation is
    stamped) and writes no status. *)
Theorem X7_update_failure {W : Type} (clock : time.Clock W) (r : UserReconciler)
    (req : mcreconcile.Request) (w w1 w2 : W) (cl : mcmanager.Cluster W)
    (user : kcpv1alpha1.User) (p : option userpool.User) (e : error) :
  mcmanager.GetCluster (Manager r) (mcreconcile.ClusterName req) w = (inl cl, w1) ->
  client.Get (mcmanager.GetClient cl) (mcreconcile.NamespacedName_ req) w1
    = (inl user, w2) ->
  kcpv1alpha1.DeletionTimestamp user = None ->
  In (CallUpdateUser p (Some e)) (snd (snd (Reconcile clock r req (w, [])))) ->
  fst (Reconcile clock r req (w, []))
    = ({| ctrl.Requeue := false; ctrl.RequeueAfter := 300000000000%Z |},
       Some (wrapError ("failed to update user in user pool: " ++ Error e) e))
  /\ count is_Now (snd (snd (Reconcile clock r req (w, [])))) = 0
  /\ count is_StatusUpdate (snd (snd (Reconcile clock r req (w, [])))) = 0
  /\ count is_CreateUser (snd (snd (Reconcile clock r req (w, [])))) = 0.
Proof.
  intros Hcl Hget Hdel. rewrite Reconcile_run. cbv zeta.
  rewrite Hcl. cbn [fst snd]. rewrite Hget. cbn [fst snd]. rewrite Hdel.
  paths; intros H; in_cases H; inversion H; subst; repeat split; reflexivity.
Qed.

Lemma X7_update_failure_witness :
  fst (Reconcile fixtures.clock
         (fixtures.reconciler
            (fixtures.store
               (inl (fixtures.user "alice" "new@x.com" true "sub-1" None None)) None None)
            (Some (fixtures.pool
                     (fun _ => inl (fixtures.account "alice" "old@x.com" true "sub-1"))
                     (inr fixtures.notFound) (Some (errorString "update failed")) None)))
         (fixtures.request "alice") (7%Z, []))
  = ({| ctrl.Requeue := false; ctrl.RequeueAfter := 300000000000%Z |},
     Some (wrapError "failed to update user in user pool: update failed"
             (errorString "update failed"))).
Proof.
  destruct (X7_update_failure fixtures.clock
              (fixtures.reconciler
                 (fixtures.store
                    (inl (fixtures.user "alice" "new@x.com" true "sub-1" None None))
                    None None)
                 (Some (fixtures.pool
                          (fun _ => inl (fixtures.account "alice" "old@x.com" true "sub-1"))
                          (inr fixtures.notFound) (Some (errorString "update failed")) None)))
              (fixtures.request "alice") 7%Z 7%Z 7%Z
              {| mcmanager.GetClient :=
                   fixtures.store
                     (inl (fixtures.user "alice" "new@x.com" true "sub-1" None None))
                     None None |}
              (fixtures.user "alice" "new@x.com" true "sub-1" None None)
              (Some (poolUserOf
                       (withFinalizer
                          (fixtures.user "alice" "new@x.com" true "sub-1" None None))))
              (errorString "update failed")
              eq_refl eq_refl eq_refl) as (H & _).
  - vm_compute. tauto.
  - exact H.
Defined.

(** ** The end of a pass *)

(** X8: in a pass over a live resource, the status write is the last call
    and comes directly after a clock read and a successful write of the
    resource: the written resource carries the annotation
    [kcp.cogniteo.io/lastReconciledAt] with the formatted clock reading, the
    status write submits the resource that write handed back, and
    [Reconcile] returns the empty result with the status write's error. A
    pass that returns no error has issued the status write. *)
Theorem X8_status_write_last {W : Type} (clock : time.Clock W) (r : UserReconciler)
    (req : mcreconcile.Request) (w w1 w2 : W) (cl : mcmanager.Cluster W)
    (user : kcpv1alpha1.User) :
  mcmanager.GetCluster (Manager r) (mcreconcile.ClusterName req) w = (inl cl, w1) ->
  client.Get (mcmanager.GetClient cl) (mcreconcile.NamespacedName_ req) w1
    = (inl user, w2) ->
  kcpv1alpha1.DeletionTimestamp user = None ->
  (forall obj res,
      In (CallStatusUpdate obj res) (snd (snd (Reconcile clock r req (w, [])))) ->
      exists pre t obj' annotations,
        snd (snd (Reconcile clock r req (w, [])))
        = pre ++ [CallNow t; CallUpdate obj' (obj, None); CallStatusUpdate obj res]
        /\ kcpv1alpha1.Annotations obj' = Some annotations
        /\ annotations !! "kcp.cogniteo.io/lastReconciledAt"
           = Some (time.FormatRFC3339 clock t)
        /\ fst (Reconcile clock r req (w, [])) = (ctrl.Result_zero, snd res))
  /\ (snd (fst (Reconcile clock r req (w, []))) = None ->
      exists obj obj',
        In (CallStatusUpdate obj (obj', None))
          (snd (snd (Reconcile clock r req (w, []))))).
Proof.
  intros Hcl Hget Hdel. rewrite Reconcile_run. cbv zeta.
  rewrite Hcl. cbn [fst snd]. rewrite Hget. cbn [fst snd]. rewrite Hdel.
  split.
  - intros obj res. paths; intros H; in_cases H; inversion H; subst.
    all: first
      [ eexists [_; _], _, _, _; split; [reflexivity|]
      | eexists [_; _; _], _, _, _; split; [reflexivity|]
      | eexists [_; _; _; _], _, _, _; split; [reflexivity|]
      | eexists [_; _; _; _; _], _, _, _; split; [reflexivity|]
      | eexists [_; _; _; _; _; _], _, _, _; split; [reflexivity|]
      | eexists [_; _; _; _; _; _; _], _, _, _; split; [reflexivity|] ];
      (split; [reflexivity|]);
      (split; [apply lookup_insert_eq | reflexivity]).
  - paths; try discriminate; intros _; eexists _, _; simpl; eauto 12.
Qed.

Lemma X8_status_write_last_witness :
  exists obj obj',
    In (CallStatusUpdate obj (obj', None))
      (snd (snd (Reconcile fixtures.clock
                   (fixtures.reconciler (fixtures.store (inl fixtures.alice) None None)
                      (Some fixtures.creatingPool))
                   (fixtures.request "alice") (7%Z, [])))).
Proof.
  destruct (X8_status_write_last fixtures.clock
              (fixtures.reconciler (fixtures.store (inl fixtures.alice) None None)
                 (Some fixtures.creatingPool))
              (fixtures.request "alice") 7%Z 7%Z 7%Z
              {| mcmanager.GetClient := fixtures.store (inl fixtures.alice) None None |}
              fixtures.alice eq_refl eq_refl eq_refl) as (_ & H).
  exact (H eq_refl).
Defined.

(** ** The cleanup of the deletion branch *)

(** X9: in a pass over a resource that is being deleted, with a directory
    client configured, the directory is called with one identifier, the
    stored subject id if non-empty and the local name otherwise: one get, and
    one delete exactly when the get succeeded. Nothing is created or updated,
    no clock is read and no status is written. *)
Theorem X9_deletion_cleanup_calls {W : Type} (clock : time.Clock W)
    (r : UserReconciler) (req : mcreconcile.Request) (w w1 w2 : W)
    (cl : mcmanager.Cluster W) (user : kcpv1alpha1.User) (t : metav1.Time)
    (c : userpool.Client W) :
  mcmanager.GetCluster (Manager r) (mcreconcile.ClusterName req) w = (inl cl, w1) ->
  client.Get (mcmanager.GetClient cl) (mcreconcile.NamespacedName_ req) w1
    = (inl user, w2) ->
  kcpv1alpha1.DeletionTimestamp user = Some t ->
  UserPoolClient r = Some c ->
  List.filter is_directory (snd (snd (Reconcile clock r req (w, []))))
  = (let identifier :=
       if String.eqb (kcpv1alpha1.Sub (kcpv1alpha1.Status user)) ""
       then kcpv1alpha1.Name user
       else kcpv1alpha1.Sub (kcpv1alpha1.Status user) in
     let got := userpool.GetUser c identifier w2 in
     match fst got with
     | inr _ => [CallGetUser identifier (fst got)]
     | inl _ =>
         [CallGetUser identifier (fst got);
          CallDeleteUser identifier (fst (userpool.DeleteUser c identifier (snd got)))]
     end)
  /\ count is_Now (snd (snd (Reconcile clock r req (w, [])))) = 0
  /\ count is_StatusUpdate (snd (snd (Reconcile clock r req (w, [])))) = 0.
Proof.
  intros Hcl Hget Hdel Hc. rewrite Reconcile_run. cbv zeta.
  rewrite Hcl. cbn [fst snd]. rewrite Hget. cbn [fst snd]. rewrite Hdel.
  unfold deleting. cbv zeta. rewrite Hc. rewrite delete_run. cbv zeta.
  destruct (userpool.GetUser c _ w2) as [[found|e] w3]; cbn [fst snd].
  - by destruct (userpool.DeleteUser c _ w3) as [derr w4].
  - done.
Qed.

Lemma X9_deletion_cleanup_calls_witness :
  List.filter is_directory
    (snd (snd (Reconcile fixtures.clock
                 (fixtures.reconciler
                    (fixtures.store
                       (inl (fixtures.user "u1" "u1@x.com" true "" (Some 5%Z)
                               (Some [finalizerName]))) None None)
                    (Some (fixtures.pool
                             (fun _ => inl (fixtures.account "u1" "u1@x.com" true "s"))
                             (inr fixtures.notFound) None None)))
                 (fixtures.request "u1") (7%Z, []))))
  = [CallGetUser "u1" (inl (fixtures.account "u1" "u1@x.com" true "s"));
     CallDeleteUser "u1" None].
Proof.
  destruct (X9_deletion_cleanup_calls fixtures.clock
              (fixtures.reconciler
                 (fixtures.store
                    (inl (fixtures.user "u1" "u1@x.com" true "" (Some 5%Z)
                            (Some [finalizerName]))) None None)
                 (Some (fixtures.pool
                          (fun _ => inl (fixtures.account "u1" "u1@x.com" true "s"))
                          (inr fixtures.notFound) None None)))
              (fixtures.request "u1") 7%Z 7%Z 7%Z
              {| mcmanager.GetClient :=
                   fixtures.store
                     (inl (fixtures.user "u1" "u1@x.com" true "" (Some 5%Z)
                             (Some [finalizerName]))) None None |}
              (fixtures.user "u1" "u1@x.com" true "" (Some 5%Z) (Some [finalizerName]))
              5%Z
              (fixtures.pool (fun _ => inl (fixtures.account "u1" "u1@x.com" true "s"))
                 (inr fixtures.notFound) None None)
              eq_refl eq_refl eq_refl eq_refl) as (H & _).
  exact H.
Defined.

(** ** What the sync pass touches *)

(** X10: the sync pass writes to the status only: on every path the metadata
    and the spec of the resource, the observed generation and the conditions
    are as before; the directory status label changes only when an account
    was created; and when the pass returns an error the whole resource,
    last-sync time included, is as before. *)
Theorem X10_sync_writes_status_only {W : Type} (clock : time.Clock W)
    (c : userpool.Client W) (user : kcpv1alpha1.User) (w : W) :
  kcpv1alpha1.ObjectMeta (fst (fst (syncUserWithUserPool clock c user (w, []))))
    = kcpv1alpha1.ObjectMeta user
  /\ kcpv1alpha1.Spec (fst (fst (syncUserWithUserPool clock c user (w, []))))
     = kcpv1alpha1.Spec user
  /\ kcpv1alpha1.ObservedGeneration
       (kcpv1alpha1.Status (fst (fst (syncUserWithUserPool clock c user (w, [])))))
     = kcpv1alpha1.ObservedGeneration (kcpv1alpha1.Status user)
  /\ kcpv1alpha1.Conditions
       (kcpv1alpha1.Status (fst (fst (syncUserWithUserPool clock c user (w, [])))))
     = kcpv1alpha1.Conditions (kcpv1alpha1.Status user)
  /\ (count is_CreateUser (snd (snd (syncUserWithUserPool clock c user (w, [])))) = 0 ->
      kcpv1alpha1.UserPoolStatus
        (kcpv1alpha1.Status (fst (fst (syncUserWithUserPool clock c user (w, [])))))
      = kcpv1alpha1.UserPoolStatus (kcpv1alpha1.Status user))
  /\ (snd (fst (syncUserWithUserPool clock c user (w, []))) <> None ->
      fst (fst (syncUserWithUserPool clock c user (w, []))) = user).
Proof.
  rewrite sync_run. cbv zeta.
  repeat step_call; repeat split; try reflexivity; try discriminate;
    try (intros H; by destruct H).
Qed.

(** X11: the sync pass issues one directory get, first, and after it at most
    one mutating call: never a delete, never both a create and an update; a
    create call carries the account built from the resource (local name,
    spec email, spec enabled flag, no subject id); and the clock is read
    exactly when the pass succeeds. *)
Theorem X11_sync_call_discipline {W : Type} (clock : time.Clock W)
    (c : userpool.Client W) (user : kcpv1alpha1.User) (w : W) :
  count is_DeleteUser (snd (snd (syncUserWithUserPool clock c user (w, [])))) = 0
  /\ count is_mutation (snd (snd (syncUserWithUserPool clock c user (w, [])))) <= 1
  /\ (forall p res,
        In (CallCreateUser p res) (snd (snd (syncUserWithUserPool clock c user (w, [])))) ->
        p = Some {| userpool.Username := kcpv1alpha1.Name user;
                    userpool.Email := kcpv1alpha1.Email (kcpv1alpha1.Spec user);
                    userpool.Enabled := kcpv1alpha1.Enabled (kcpv1alpha1.Spec user);
                    userpool.Sub := "" |})
  /\ count is_Now (snd (snd (syncUserWithUserPool clock c user (w, []))))
     = (match snd (fst (syncUserWithUserPool clock c user (w, []))) with
        | None => 1
        | Some _ => 0
        end).
Proof.
  rewrite sync_run. cbv zeta.
  repeat step_call; (split; [reflexivity|]); (split; [unfold count; simpl; lia|]);
    (split; [|reflexivity]); intros p res H; in_cases H; by inversion H.
Qed.

(** ** The AWS client and the calls it issues *)

Lemma recorded_run {W A : Type} (call : apilog.ApiCall) (op : State W A)
    (s : W * list apilog.ApiCall) :
  apilog.recorded call op s
  = (fst (op (fst s)), (snd (op (fst s)), snd s ++ [call])).
Proof. unfold apilog.recorded. by destruct (op (fst s)). Qed.

Ltac aws_exec :=
  repeat progress
    (rewrite ?bind_run, ?ret_run;
     try unfold apilog.loggedClient; try unfold apilog.logged;
     cbn [cognito.cognito cognito.userPoolID
          cognito.AdminCreateUser cognito.AdminGetUser
          cognito.AdminUpdateUserAttributes cognito.AdminEnableUser
          cognito.AdminDisableUser cognito.AdminDeleteUser fst snd app];
     rewrite ?recorded_run).

(** X12: the AWS client checks its argument before it calls the API: a nil
    user, an empty email (create) or an empty username (get, update, delete)
    is answered with an error; no API call is issued and the world is left as
    it was. *)
Theorem X12_aws_validation_first {W : Type} (c : cognito.AWSClient W)
    (user : userpool.User) (s : W * list apilog.ApiCall) :
  cognito.CreateUser (apilog.loggedClient c) None s
    = (inr (errorString "user cannot be nil"), s)
  /\ cognito.UpdateUser (apilog.loggedClient c) None s
     = (Some (errorString "user cannot be nil"), s)
  /\ cognito.GetUser (apilog.loggedClient c) "" s
     = (inr (errorString "username cannot be empty"), s)
  /\ cognito.DeleteUser (apilog.loggedClient c) "" s
     = (Some (errorString "username cannot be empty"), s)
  /\ (userpool.Email user = "" ->
      cognito.CreateUser (apilog.loggedClient c) (Some user) s
      = (inr (errorString "email cannot be empty"), s))
  /\ (userpool.Username user = "" ->
      cognito.UpdateUser (apilog.loggedClient c) (Some user) s
      = (Some (errorString "username cannot be empty"), s)).
Proof.
  repeat split; try reflexivity.
  - intros H. unfold cognito.CreateUser. by rewrite H.
  - intros H. unfold cognito.UpdateUser. by rewrite H.
Qed.

(** X13: a create call that the API accepts issues that one API call, under
    the Cognito username [user.Email], with the attributes [email] and
    [email_verified = true] and the welcome message suppressed. The account
    returned keeps the username, email and enabled flag handed in; its
    subject id is the value of the first [sub] attribute of the response, and
    the email when the response names no user or no such attribute. *)
Theorem X13_aws_create_accepted {W : Type} (c : cognito.AWSClient W)
    (user : userpool.User) (w w1 : W)
    (resp : cognitoidentityprovider.AdminCreateUserOutput.t) :
  userpool.Email user <> "" ->
  cognito.AdminCreateUser (cognito.cognito c) (createInput c user) w = (inl resp, w1) ->
  cognito.CreateUser (apilog.loggedClient c) (Some user) (w, [])
  = (inl {| userpool.Username := userpool.Username user;
            userpool.Email := userpool.Email user;
            userpool.Enabled := userpool.Enabled user;
            userpool.Sub :=
              match cognitoidentityprovider.AdminCreateUserOutput.User resp with
              | Some u =>
                  match cognito.firstAttribute "sub" (types.Attributes u) with
                  | Some v => v
                  | None => userpool.Email user
                  end
              | None => userpool.Email user
              end |},
     (w1, [apilog.ApiAdminCreateUser (createInput c user)])).
Proof.
  intros Hne Hapi. apply String.eqb_neq in Hne.
  unfold cognito.CreateUser. rewrite Hne. cbv zeta.
  change (cognito.userPoolID (apilog.loggedClient c)) with (cognito.userPoolID c).
  fold (createInput c user). aws_exec. rewrite Hapi. cbn [fst snd].
  destruct (cognitoidentityprovider.AdminCreateUserOutput.User resp) as [u|]; [|done].
  destruct (types.Attributes u) as [|a attrs] eqn:Hattrs; [done|].
  rewrite <- Hattrs. replace (0 <? Z.of_nat (length (types.Attributes u)))%Z with true.
  2: { rewrite Hattrs. simpl length. symmetry. apply Z.ltb_lt. lia. }
  by destruct (cognito.firstAttribute "sub" (types.Attributes u)).
Qed.

Lemma X13_aws_create_accepted_witness :
  fst (cognito.CreateUser (apilog.loggedClient (fixtures.aws fixtures.emptyCognito))
         (Some (fixtures.account "alice" "a@x.com" true "")) (0%Z, []))
  = inl (fixtures.account "alice" "a@x.com" true "a@x.com").
Proof.
  rewrite (X13_aws_create_accepted (fixtures.aws fixtures.emptyCognito)
             (fixtures.account "alice" "a@x.com" true "") 0%Z 0%Z
             {| cognitoidentityprovider.AdminCreateUserOutput.User := None |}).
  - reflexivity.
  - discriminate.
  - reflexivity.
Defined.

(** X14: when the API refuses a create call because the username exists, the
    client fetches the account: the calls are the create call and one get call
    under the username [user.Email], and the result is that of the get. On
    success the account returned has the email as username and as subject id
    (not the username handed in), the email and enabled flag the provider
    reports; a failing get is returned as "failed to get user ...". Any other
    create error is returned as "failed to create user ..." after the one
    call. *)
Theorem X14_aws_create_conflict {W : Type} (c : cognito.AWSClient W)
    (user : userpool.User) (w w1 : W) (err : error) :
  userpool.Email user <> "" ->
  cognito.AdminCreateUser (cognito.cognito c) (createInput c user) w = (inr err, w1) ->
  cognito.CreateUser (apilog.loggedClient c) (Some user) (w, [])
  = (if AsUsernameExists err then
       let got := cognito.AdminGetUser (cognito.cognito c)
                    (getInput c (userpool.Email user)) w1 in
       (match fst got with
        | inl output =>
            inl {| userpool.Username := userpool.Email user;
                   userpool.Email :=
                     match cognito.firstAttribute "email"
                             (cognitoidentityprovider.AdminGetUserOutput.UserAttributes
                                output)
                     with
                     | Some v => v
                     | None => ""
                     end;
                   userpool.Enabled :=
                     cognitoidentityprovider.AdminGetUserOutput.Enabled output;
                   userpool.Sub := userpool.Email user |}
        | inr gerr =>
            inr (Errorf ("failed to get user " ++ userpool.Email user ++ ": ") gerr)
        end,
        (snd got,
         [apilog.ApiAdminCreateUser (createInput c user);
          apilog.ApiAdminGetUser (getInput c (userpool.Email user))]))
     else
       (inr (Errorf ("failed to create user " ++ userpool.Email user ++ ": ") err),
        (w1, [apilog.ApiAdminCreateUser (createInput c user)]))).
Proof.
  intros Hne Hapi. pose proof Hne as Hne'. apply String.eqb_neq in Hne.
  unfold cognito.CreateUser. rewrite Hne. cbv zeta.
  change (cognito.userPoolID (apilog.loggedClient c)) with (cognito.userPoolID c).
  fold (createInput c user). aws_exec. rewrite Hapi. cbn [fst snd].
  destruct (AsUsernameExists err); [|done].
  unfold cognito.GetUser. rewrite Hne. cbv zeta.
  change (cognito.userPoolID (apilog.loggedClient c)) with (cognito.userPoolID c).
  fold (getInput c (userpool.Email user)). aws_exec.
  destruct (cognito.AdminGetUser _ _ w1) as [[output|gerr] w2]; cbn [fst snd]; [|done].
  by destruct (cognito.firstAttribute "email" _).
Qed.

Lemma X14_aws_create_conflict_witness :
  fst (cognito.CreateUser
         (apilog.loggedClient (fixtures.aws (fixtures.fullCognito "stored@x.com")))
         (Some (fixtures.account "alice" "a@x.com" false "")) (0%Z, []))
  = inl (fixtures.account "a@x.com" "stored@x.com" true "a@x.com").
Proof.
  rewrite (X14_aws_create_conflict (fixtures.aws (fixtures.fullCognito "stored@x.com"))
             (fixtures.account "alice" "a@x.com" false "") 0%Z 0%Z
             (UsernameExistsException "User account already exists")).
  - reflexivity.
  - discriminate.
  - reflexivity.
Defined.

(** X15: an update call addresses the account by [user.Username] (the create
    call registers it under [user.Email]). It first sets the email attribute;
    if that fails, nothing else is called. Otherwise it issues exactly one
    further call, enable when the account is to be enabled and disable when
    not, never both; it returns no error exactly when both calls
    succeeded, and otherwise the failing call's error, wrapped. *)
Theorem X15_aws_update_calls {W : Type} (c : cognito.AWSClient W)
    (user : userpool.User) (w : W) :
  userpool.Username user <> "" ->
  cognito.UpdateUser (apilog.loggedClient c) (Some user) (w, [])
  = (let updated :=
       cognito.AdminUpdateUserAttributes (cognito.cognito c) (updateInput c user) w in
     match fst updated with
     | Some err =>
         (Some (Errorf ("failed to update user attributes for "
                          ++ userpool.Username user ++ ": ") err),
          (snd updated, [apilog.ApiAdminUpdateUserAttributes (updateInput c user)]))
     | None =>
         if userpool.Enabled user then
           let enabled :=
             cognito.AdminEnableUser (cognito.cognito c) (enableInput c user)
               (snd updated) in
           (match fst enabled with
            | Some err =>
                Some (Errorf ("failed to enable user "
                                ++ userpool.Username user ++ ": ") err)
            | None => None
            end,
            (snd enabled,
             [apilog.ApiAdminUpdateUserAttributes (updateInput c user);
              apilog.ApiAdminEnableUser (enableInput c user)]))
         else
           let disabled :=
             cognito.AdminDisableUser (cognito.cognito c) (disableInput c user)
               (snd updated) in
           (match fst disabled with
            | Some err =>
                Some (Errorf ("failed to disable user "
                                ++ userpool.Username user ++ ": ") err)
            | None => None
            end,
            (snd disabled,
             [apilog.ApiAdminUpdateUserAttributes (updateInput c user);
              apilog.ApiAdminDisableUser (disableInput c user)]))
     end).
Proof.
  intros Hne. apply String.eqb_neq in Hne.
  unfold cognito.UpdateUser. rewrite Hne. cbv zeta.
  change (cognito.userPoolID (apilog.loggedClient c)) with (cognito.userPoolID c).
  fold (updateInput c user) (enableInput c user) (disableInput c user). aws_exec.
  destruct (cognito.AdminUpdateUserAttributes _ _ w) as [[err|] w1]; cbn [fst snd];
    [done|].
  destruct (userpool.Enabled user); aws_exec.
  - by destruct (cognito.AdminEnableUser _ _ w1) as [[err|] w2].
  - by destruct (cognito.AdminDisableUser _ _ w1) as [[err|] w2].
Qed.

Lemma X15_aws_update_calls_witness :
  snd (snd (cognito.UpdateUser
              (apilog.loggedClient (fixtures.aws (fixtures.fullCognito "a@x.com")))
              (Some (fixtures.account "alice" "new@x.com" false "")) (0%Z, [])))
  = [apilog.ApiAdminUpdateUserAttributes
       (updateInput (fixtures.aws (fixtures.fullCognito "a@x.com"))
          (fixtures.account "alice" "new@x.com" false ""));
     apilog.ApiAdminDisableUser
       (disableInput (fixtures.aws (fixtures.fullCognito "a@x.com"))
          (fixtures.account "alice" "new@x.com" false ""))].
Proof.
  rewrite (X15_aws_update_calls (fixtures.aws (fixtures.fullCognito "a@x.com"))
             (fixtures.account "alice" "new@x.com" false "") 0%Z).
  - reflexivity.
  - discriminate.
Defined.

(** X16: for a non-empty username the delete call issues one API call, and
    returns no error exactly when the API succeeded or reported that the user
    was not found; any other API error is returned as "failed to delete user
    ...", wrapping it. *)
Theorem X16_aws_delete_outcomes {W : Type} (c : cognito.AWSClient W)
    (username : string) (w : W) :
  username <> "" ->
  snd (snd (cognito.DeleteUser (apilog.loggedClient c) username (w, [])))
    = [apilog.ApiAdminDeleteUser (deleteInput c username)]
  /\ (fst (cognito.DeleteUser (apilog.loggedClient c) username (w, [])) = None
      <-> (fst (cognito.AdminDeleteUser (cognito.cognito c) (deleteInput c username) w)
             = None
           \/ exists err,
                fst (cognito.AdminDeleteUser (cognito.cognito c)
                       (deleteInput c username) w) = Some err
                /\ AsUserNotFound err = true))
  /\ (forall err,
        fst (cognito.AdminDeleteUser (cognito.cognito c) (deleteInput c username) w)
          = Some err ->
        AsUserNotFound err = false ->
        fst (cognito.DeleteUser (apilog.loggedClient c) username (w, []))
        = Some (Errorf ("failed to delete user " ++ username ++ ": ") err)).
Proof.
  intros Hne. apply String.eqb_neq in Hne.
  unfold cognito.DeleteUser. rewrite Hne. cbv zeta.
  change (cognito.userPoolID (apilog.loggedClient c)) with (cognito.userPoolID c).
  fold (deleteInput c username). aws_exec.
  destruct (cognito.AdminDeleteUser _ _ w) as [[err|] w1]; cbn [fst snd].
  - destruct (AsUserNotFound err) eqn:Hnf; cbn [fst snd].
    + split; [done|]. split.
      * split; [|done]. intros _. right. by exists err.
      * intros err' H. inversion H; subst. congruence.
    + split; [done|]. split.
      * split; [discriminate|]. intros [H|(err' & H & Hnf')]; [discriminate|].
        inversion H; subst. congruence.
      * intros err' H _. by inversion H.
  - split; [done|]. split; [|discriminate]. split; [by left | done].
Qed.

Lemma X16_aws_delete_outcomes_witness :
  snd (snd (cognito.DeleteUser
              (apilog.loggedClient (fixtures.aws fixtures.emptyCognito)) "ghost"
              (0%Z, [])))
  = [apilog.ApiAdminDeleteUser (deleteInput (fixtures.aws fixtures.emptyCognito) "ghost")].
Proof.
  destruct (X16_aws_delete_outcomes (fixtures.aws fixtures.emptyCognito) "ghost" 0%Z)
    as (H & _).
  - discriminate.
  - exact H.
Defined.

(** ** Listing users page by page *)

Lemma appendUsers_listed (users : option (list userpool.User))
    (page : list types.UserType) :
  cognito.appendUsers users page
  = match listed page with
    | [] => users
    | _ => Some (match users with None => [] | Some l => l end ++ listed page)
    end.
Proof.
  revert users. induction page as [|u page IH]; intros users; simpl; [done|].
  destruct (types.Username u) as [username|]; simpl; [|apply IH].
  rewrite IH. clear IH.
  assert (Hu : (match cognito.firstAttribute "email" (types.Attributes u) with
                | Some v =>
                    {| userpool.Username := username; userpool.Email := v;
                       userpool.Enabled := types.Enabled u; userpool.Sub := "" |}
                | None =>
                    {| userpool.Username := username; userpool.Email := "";
                       userpool.Enabled := types.Enabled u; userpool.Sub := "" |}
                end) = listedUser username u).
  { unfold listedUser. by destruct (cognito.firstAttribute _ _). }
  simpl in Hu |- *. rewrite Hu.
  destruct (listed page); [done|]. by rewrite <- app_assoc.
Qed.

Lemma listed_app (a b : list types.UserType) : listed (a ++ b) = listed a ++ listed b.
Proof. apply flat_map_app. Qed.

Lemma appendUsers_app (users : option (list userpool.User))
    (a b : list types.UserType) :
  cognito.appendUsers users (a ++ b)
  = cognito.appendUsers (cognito.appendUsers users a) b.
Proof.
  revert users. induction a as [|u a IH]; intros users; simpl; [done|].
  destruct (types.Username u); apply IH.
Qed.

Lemma ListUsers_loop_served {W : Type} (api : cognitoidentityprovider.ListingAPI W)
    (c : cognito.AWSClient W) (tok tok' : option string) (w w' : W)
    (outs : list cognitoidentityprovider.ListUsersOutput.t) :
  served (listUsersCall api c) cognitoidentityprovider.ListUsersOutput.PaginationToken
    tok w outs tok' w' ->
  forall fuel users,
    cognito.ListUsers_loop (length outs + fuel) api c users tok w
    = cognito.ListUsers_loop fuel api c
        (cognito.appendUsers users
           (flat_map cognitoidentityprovider.ListUsersOutput.Users outs))
        tok' w'.
Proof.
  induction 1 as [|tok w w1 out t outs tok' w' Hcall Hnext _ IH]; intros fuel users.
  - reflexivity.
  - simpl length. simpl plus. cbn [cognito.ListUsers_loop]. rewrite bind_run.
    unfold listUsersCall in Hcall. rewrite Hcall. cbn [fst snd]. rewrite Hnext.
    rewrite IH. simpl flat_map. by rewrite appendUsers_app.
Qed.

(** X17: when the API answers the pages of the pool one after the other, the
    last one without a next token, [ListUsers] (given room for that many
    pages) asks for each page with the token the page before named and
    returns, without error, the users of all pages in order: one account per
    Cognito user that has a username, with the value of its first email
    attribute (empty if it has none), its enabled flag and an empty subject
    id. Users without username are skipped, and the result is the nil slice
    when nothing is listed. *)
Theorem X17_ListUsers_pages {W : Type} (api : cognitoidentityprovider.ListingAPI W)
    (c : cognito.AWSClient W) (tok : option string) (w w1 w2 : W)
    (outs : list cognitoidentityprovider.ListUsersOutput.t)
    (final : cognitoidentityprovider.ListUsersOutput.t) (fuel : nat) :
  served (listUsersCall api c) cognitoidentityprovider.ListUsersOutput.PaginationToken
    None w outs tok w1 ->
  listUsersCall api c tok w1 = (inl final, w2) ->
  cognitoidentityprovider.ListUsersOutput.PaginationToken final = None ->
  length outs < fuel ->
  cognito.ListUsers fuel api c w
  = (Some (inl (sliceOf
                  (listed (flat_map cognitoidentityprovider.ListUsersOutput.Users
                             (outs ++ [final]))))), w2).
Proof.
  intros Hserved Hfinal Hlast Hfuel.
  replace fuel with (length outs + S (fuel - length outs - 1)) by lia.
  unfold cognito.ListUsers. rewrite (ListUsers_loop_served _ _ _ _ _ _ _ Hserved).
  cbn [cognito.ListUsers_loop]. rewrite bind_run.
  unfold listUsersCall in Hfinal. rewrite Hfinal. cbn [fst snd]. rewrite Hlast.
  rewrite <- appendUsers_app, appendUsers_listed.
  rewrite flat_map_app. simpl flat_map. rewrite app_nil_r.
  unfold sliceOf. by destruct (listed _).
Qed.

Lemma X17_ListUsers_pages_witness :
  cognito.ListUsers 5 fixtures.pagedListing (fixtures.aws fixtures.emptyCognito) 0%Z
  = (Some (inl (Some [fixtures.account "u1" "u1@x.com" true "";
                      fixtures.account "u2" "" false ""])), 2%Z).
Proof.
  rewrite (X17_ListUsers_pages fixtures.pagedListing (fixtures.aws fixtures.emptyCognito)
             (Some "t1") 0%Z 1%Z 2%Z
             [ {| cognitoidentityprovider.ListUsersOutput.Users :=
                    [fixtures.cognitoUser (Some "u1") (Some "u1@x.com") true;
                     fixtures.cognitoUser None (Some "ghost@x.com") true];
                  cognitoidentityprovider.ListUsersOutput.PaginationToken := Some "t1" |} ]
             {| cognitoidentityprovider.ListUsersOutput.Users :=
                  [fixtures.cognitoUser (Some "u2") None false];
                cognitoidentityprovider.ListUsersOutput.PaginationToken := None |}
             5).
  - reflexivity.
  - eapply served_cons; [reflexivity | reflexivity | apply served_nil].
  - reflexivity.
  - reflexivity.
  - simpl. lia.
Defined.

(** X18: when a page of the listing fails, [ListUsers] returns the error
    wrapped as "failed to list users: ..." and no accounts: those of the pages
    before are dropped. *)
Theorem X18_ListUsers_page_error {W : Type} (api : cognitoidentityprovider.ListingAPI W)
    (c : cognito.AWSClient W) (tok : option string) (w w1 w2 : W)
    (outs : list cognitoidentityprovider.ListUsersOutput.t) (err : error) (fuel : nat) :
  served (listUsersCall api c) cognitoidentityprovider.ListUsersOutput.PaginationToken
    None w outs tok w1 ->
  listUsersCall api c tok w1 = (inr err, w2) ->
  length outs < fuel ->
  cognito.ListUsers fuel api c w
  = (Some (inr (wrapError ("failed to list users: " ++ Error err) err)), w2).
Proof.
  intros Hserved Hfail Hfuel.
  replace fuel with (length outs + S (fuel - length outs - 1)) by lia.
  unfold cognito.ListUsers. rewrite (ListUsers_loop_served _ _ _ _ _ _ _ Hserved).
  cbn [cognito.ListUsers_loop]. rewrite bind_run.
  unfold listUsersCall in Hfail. by rewrite Hfail.
Qed.

Lemma X18_ListUsers_page_error_witness :
  cognito.ListUsers 1 fixtures.brokenListing (fixtures.aws fixtures.emptyCognito) 0%Z
  = (Some (inr (wrapError "failed to list users: AWS error" (errorString "AWS error"))),
     0%Z).
Proof.
  apply (X18_ListUsers_page_error fixtures.brokenListing
           (fixtures.aws fixtures.emptyCognito) None 0%Z 0%Z 0%Z []
           (errorString "AWS error") 1).
  - apply served_nil.
  - reflexivity.
  - simpl. lia.
Defined.

(** ** Finding a user pool by name *)

Section FindByName.

Context {W : Type} (EqualFold : string -> string -> bool).

Lemma matchingPool_app (a b : list types.UserPoolDescriptionType.t) (name : string) :
  cognito.matchingPool EqualFold (a ++ b) name
  = match cognito.matchingPool EqualFold a name with
    | Some id => Some id
    | None => cognito.matchingPool EqualFold b name
    end.
Proof.
  induction a as [|p a IH]; simpl; [done|].
  destruct (types.UserPoolDescriptionType.Name p) as [n|]; [|exact IH].
  destruct (EqualFold n name); [|exact IH].
  by destruct (types.UserPoolDescriptionType.Id p).
Qed.

(** The pool [matchingPool] picks: the first one that has a name folding
    equal to the name sought and an id. *)
Lemma matchingPool_first (pools : list types.UserPoolDescriptionType.t)
    (name id : string) :
  cognito.matchingPool EqualFold pools name = Some id ->
  exists before p after n,
    pools = before ++ p :: after
    /\ types.UserPoolDescriptionType.Name p = Some n
    /\ EqualFold n name = true
    /\ types.UserPoolDescriptionType.Id p = Some id
    /\ cognito.matchingPool EqualFold before name = None.
Proof.
  induction pools as [|p pools IH]; simpl; [discriminate|].
  destruct (types.UserPoolDescriptionType.Name p) as [n|] eqn:Hn.
  - destruct (EqualFold n name) eqn:Hf.
    + destruct (types.UserPoolDescriptionType.Id p) as [i|] eqn:Hi.
      * intros H. inversion H; subst. by exists [], p, pools, n.
      * intros H. destruct (IH H) as (before & q & after & m & -> & ? & ? & ? & Hb).
        exists (p :: before), q, after, m. repeat split; try done.
        simpl. by rewrite Hn, Hf, Hi.
    + intros H. destruct (IH H) as (before & q & after & m & -> & ? & ? & ? & Hb).
      exists (p :: before), q, after, m. repeat split; try done.
      simpl. by rewrite Hn, Hf.
  - intros H. destruct (IH H) as (before & q & after & m & -> & ? & ? & ? & Hb).
    exists (p :: before), q, after, m. repeat split; try done.
    simpl. by rewrite Hn.
Qed.

Lemma find_loop_served (api : cognitoidentityprovider.ListingAPI W) (name : string)
    (tok tok' : option string) (w w' : W)
    (outs : list cognitoidentityprovider.ListUserPoolsOutput.t) :
  served (listPoolsCall api) cognitoidentityprovider.ListUserPoolsOutput.NextToken
    tok w outs tok' w' ->
  cognito.matchingPool EqualFold
    (flat_map cognitoidentityprovider.ListUserPoolsOutput.UserPools outs) name = None ->
  forall fuel,
    cognito.findUserPoolIDByName_loop EqualFold (length outs + fuel) api name tok w
    = cognito.findUserPoolIDByName_loop EqualFold fuel api name tok' w'.
Proof.
  induction 1 as [|tok w w1 out t outs tok' w' Hcall Hnext _ IH]; intros Hnone fuel.
  - reflexivity.
  - simpl flat_map in Hnone. rewrite matchingPool_app in Hnone.
    destruct (cognito.matchingPool EqualFold
                (cognitoidentityprovider.ListUserPoolsOutput.UserPools out) name)
      eqn:Hout; [discriminate|].
    simpl length. simpl plus. cbn [cognito.findUserPoolIDByName_loop]. rewrite bind_run.
    unfold listPoolsCall in Hcall. rewrite Hcall. cbn [fst snd]. rewrite Hout, Hnext.
    by apply IH.
Qed.

(** X19: [findUserPoolIDByName] returns the id of the first pool, in the
    order of the pages, that has a name folding equal to the name sought and
    an id: pools without name, with another name or without id are passed
    over. It asks for pages until it reaches that pool and for none after. *)
Theorem X19_find_pool_first_match (api : cognitoidentityprovider.ListingAPI W)
    (name id : string) (tok : option string) (w w1 w2 : W)
    (outs : list cognitoidentityprovider.ListUserPoolsOutput.t)
    (page : cognitoidentityprovider.ListUserPoolsOutput.t) (fuel : nat) :
  served (listPoolsCall api) cognitoidentityprovider.ListUserPoolsOutput.NextToken
    None w outs tok w1 ->
  listPoolsCall api tok w1 = (inl page, w2) ->
  cognito.matchingPool EqualFold
    (flat_map cognitoidentityprovider.ListUserPoolsOutput.UserPools (outs ++ [page])) name
    = Some id ->
  cognito.matchingPool EqualFold
    (flat_map cognitoidentityprovider.ListUserPoolsOutput.UserPools outs) name = None ->
  length outs < fuel ->
  cognito.findUserPoolIDByName EqualFold fuel api name w = (Some (inl id), w2)
  /\ exists before p after n,
       flat_map cognitoidentityprovider.ListUserPoolsOutput.UserPools (outs ++ [page])
       = before ++ p :: after
       /\ types.UserPoolDescriptionType.Name p = Some n
       /\ EqualFold n name = true
       /\ types.UserPoolDescriptionType.Id p = Some id
       /\ cognito.matchingPool EqualFold before name = None.
Proof.
  intros Hserved Hpage Hmatch Hnone Hfuel. split; [|by apply matchingPool_first].
  replace fuel with (length outs + S (fuel - length outs - 1)) by lia.
  unfold cognito.findUserPoolIDByName.
  rewrite (find_loop_served _ _ _ _ _ _ _ Hserved Hnone).
  cbn [cognito.findUserPoolIDByName_loop]. rewrite bind_run.
  unfold listPoolsCall in Hpage. rewrite Hpage. cbn [fst snd].
  rewrite flat_map_app, matchingPool_app, Hnone in Hmatch. simpl flat_map in Hmatch.
  rewrite app_nil_r in Hmatch. by rewrite Hmatch.
Qed.

(** X20: when the API has answered all its pages and no pool has a name
    folding equal to the name sought together with an id,
    [findUserPoolIDByName] returns the error "user pool with name ... not
    found"; when a page fails, it returns that error wrapped as "failed to
    list user pools: ...". *)
Theorem X20_find_pool_failures (api : cognitoidentityprovider.ListingAPI W)
    (name : string) (tok : option string) (w w1 w2 : W)
    (outs : list cognitoidentityprovider.ListUserPoolsOutput.t) (fuel : nat) :
  served (listPoolsCall api) cognitoidentityprovider.ListUserPoolsOutput.NextToken
    None w outs tok w1 ->
  cognito.matchingPool EqualFold
    (flat_map cognitoidentityprovider.ListUserPoolsOutput.UserPools outs) name = None ->
  length outs < fuel ->
  (forall final,
      listPoolsCall api tok w1 = (inl final, w2) ->
      cognitoidentityprovider.ListUserPoolsOutput.NextToken final = None ->
      cognito.matchingPool EqualFold
        (cognitoidentityprovider.ListUserPoolsOutput.UserPools final) name = None ->
      cognito.findUserPoolIDByName EqualFold fuel api name w
      = (Some (inr (errorString ("user pool with name " ++ name ++ " not found"))), w2))
  /\ (forall err,
        listPoolsCall api tok w1 = (inr err, w2) ->
        cognito.findUserPoolIDByName EqualFold fuel api name w
        = (Some (inr (wrapError ("failed to list user pools: " ++ Error err) err)), w2)).
Proof.
  intros Hserved Hnone Hfuel.
  replace fuel with (length outs + S (fuel - length outs - 1)) by lia.
  unfold cognito.findUserPoolIDByName.
  rewrite (find_loop_served _ _ _ _ _ _ _ Hserved Hnone).
  cbn [cognito.findUserPoolIDByName_loop]. rewrite bind_run.
  unfold listPoolsCall. split.
  - intros final Hcall Hlast Hno. rewrite Hcall. cbn [fst snd]. by rewrite Hno, Hlast.
  - intros err Hcall. by rewrite Hcall.
Qed.

End FindByName.

Lemma X19_find_pool_first_match_witness :
  cognito.findUserPoolIDByName fixtures.equalFold 3 fixtures.pagedListing "production" 0%Z
  = (Some (inl "us-east-1_BBB"), 2%Z).
Proof.
  destruct (X19_find_pool_first_match fixtures.equalFold fixtures.pagedListing
              "production" "us-east-1_BBB" (Some "p1") 0%Z 1%Z 2%Z
              [ {| cognitoidentityprovider.ListUserPoolsOutput.UserPools :=
                     [fixtures.poolDescription (Some "us-east-1_AAA") (Some "staging");
                      fixtures.poolDescription None (Some "Production")];
                   cognitoidentityprovider.ListUserPoolsOutput.NextToken := Some "p1" |} ]
              {| cognitoidentityprovider.ListUserPoolsOutput.UserPools :=
                   [fixtures.poolDescription (Some "us-east-1_BBB") (Some "PRODUCTION");
                    fixtures.poolDescription (Some "us-east-1_CCC") (Some "production")];
                 cognitoidentityprovider.ListUserPoolsOutput.NextToken := None |}
              3) as (H & _).
  - eapply served_cons; [reflexivity | reflexivity | apply served_nil].
  - reflexivity.
  - reflexivity.
  - reflexivity.
  - simpl. lia.
  - exact H.
Defined.

Lemma X20_find_pool_failures_witness :
  cognito.findUserPoolIDByName fixtures.equalFold 1 fixtures.brokenListing "production" 0%Z
  = (Some (inr (wrapError "failed to list user pools: AWS error"
                  (errorString "AWS error"))), 0%Z).
Proof.
  destruct (X20_find_pool_failures fixtures.equalFold fixtures.brokenListing
              "production" None 0%Z 0%Z 0%Z [] 1) as (_ & H).
  - apply served_nil.
  - reflexivity.
  - simpl. lia.
  - exact (H (errorString "AWS error") eq_refl).
Defined.

(** ** The constructors *)

(** X21: [NewAWSClientByName] refuses the empty name before it loads any
    configuration; with a configuration loaded, the client it returns is bound
    to the id of the first pool that matches the name, and a failed search is
    returned as "failed to find user pool by name ...". [NewAWSClient]
    refuses the empty id the same way and binds the client to the id given. *)
Theorem X21_constructors_bind_pool {W Config : Type}
    (EqualFold : string -> string -> bool) (sdk : cognito.SDK W Config) (fuel : nat)
    (name : string) (w w1 w2 : W) (cfg : Config) (found : string + error) :
  name <> "" ->
  cognito.LoadDefaultConfig sdk w = (inl cfg, w1) ->
  cognito.findUserPoolIDByName EqualFold fuel (cognito.NewFromConfig_listing sdk cfg)
    name w1 = (Some found, w2) ->
  cognito.NewAWSClientByName EqualFold fuel sdk name w
  = (Some (match found with
           | inl id =>
               inl {| cognito.cognito := cognito.NewFromConfig sdk cfg;
                      cognito.userPoolID := id |}
           | inr err =>
               inr (Errorf ("failed to find user pool by name " ++ name ++ ": ") err)
           end), w2)
  /\ cognito.NewAWSClient sdk name w
     = (inl {| cognito.cognito := cognito.NewFromConfig sdk cfg;
               cognito.userPoolID := name |}, w1)
  /\ cognito.NewAWSClientByName EqualFold fuel sdk "" w
     = (Some (inr (errorString "userPoolName cannot be empty")), w)
  /\ cognito.NewAWSClient sdk "" w = (inr (errorString "userPoolID cannot be empty"), w).
Proof.
  intros Hne Hload Hfind. apply String.eqb_neq in Hne.
  unfold cognito.NewAWSClientByName, cognito.NewAWSClient. rewrite Hne. simpl String.eqb.
  cbv iota. rewrite !bind_run, Hload. cbn [fst snd]. rewrite bind_run, Hfind.
  cbn [fst snd]. repeat split. by destruct found.
Qed.

Lemma X21_constructors_bind_pool_witness :
  fst (cognito.NewAWSClientByName fixtures.equalFold 3 fixtures.sdk "production" 0%Z)
  = Some (inl {| cognito.cognito := fixtures.emptyCognito;
                 cognito.userPoolID := "us-east-1_BBB" |}).
Proof.
  destruct (X21_constructors_bind_pool fixtures.equalFold fixtures.sdk 3 "production"
              0%Z 0%Z 2%Z tt (inl "us-east-1_BBB")) as (H & _).
  - discriminate.
  - reflexivity.
  - reflexivity.
  - rewrite H. reflexivity.
Defined.

(** ** The in-memory client *)

(** X22: the in-memory client keeps its store well keyed: starting from the
    empty store, after any create, update or delete every account is stored
    under its own username and carries that username or nothing as subject
    id; a get leaves the store as it is, and the account it returns has the
    username that was asked for. *)
Theorem X22_mock_well_keyed (m : mock.MockClient) (user : option userpool.User)
    (identifier : string) :
  wellKeyed m ->
  wellKeyed (snd (mock.CreateUser user m))
  /\ wellKeyed (snd (mock.UpdateUser user m))
  /\ wellKeyed (snd (mock.DeleteUser identifier m))
  /\ snd (mock.GetUser identifier m) = m
  /\ (forall found,
        fst (mock.GetUser identifier m) = inl found ->
        userpool.Username found = identifier)
  /\ wellKeyed mock.NewMockClient.
Proof.
  intros Hwk. split; [|split; [|split; [|split; [|split]]]].
  - unfold mock.CreateUser. destruct user as [u|]; [|done].
    destruct (String.eqb (userpool.Username u) ""); [done|].
    destruct (mock.users m !! userpool.Username u) eqn:Hlook; [done|].
    intros k a. simpl. destruct (decide (userpool.Username u = k)) as [<-|Hne].
    + rewrite lookup_insert_eq. intros H. inversion H; subst. simpl. auto.
    + rewrite lookup_insert_ne by done. apply Hwk.
  - unfold mock.UpdateUser. destruct user as [u|]; [|done].
    destruct (String.eqb (userpool.Username u) ""); [done|].
    destruct (mock.users m !! userpool.Username u) eqn:Hlook; [|done].
    intros k a. simpl. destruct (decide (userpool.Username u = k)) as [<-|Hne].
    + rewrite lookup_insert_eq. intros H. inversion H; subst. simpl. auto.
    + rewrite lookup_insert_ne by done. apply Hwk.
  - unfold mock.DeleteUser. destruct (String.eqb identifier ""); [done|].
    destruct (mock.users m !! identifier) eqn:Hlook; [|done].
    intros k a. simpl. destruct (decide (identifier = k)) as [<-|Hne].
    + by rewrite lookup_delete_eq.
    + rewrite lookup_delete_ne by done. apply Hwk.
  - unfold mock.GetUser. destruct (String.eqb identifier ""); [done|].
    by destruct (mock.users m !! identifier).
  - unfold mock.GetUser. destruct (String.eqb identifier ""); [done|].
    destruct (mock.users m !! identifier) as [u|] eqn:Hlook; [|done].
    intros found H. inversion H; subst. simpl. by destruct (Hwk _ _ Hlook).
  - intros k a. unfold mock.NewMockClient. simpl. by rewrite lookup_empty.
Qed.

Lemma wellKeyed_empty : wellKeyed mock.NewMockClient.
Proof. intros k a. unfold mock.NewMockClient. simpl. by rewrite lookup_empty. Qed.

Lemma X22_mock_well_keyed_witness :
  wellKeyed (snd (mock.CreateUser (Some (fixtures.account "alice" "a@x.com" true "x"))
                    mock.NewMockClient)).
Proof.
  destruct (X22_mock_well_keyed mock.NewMockClient
              (Some (fixtures.account "alice" "a@x.com" true "x")) "alice"
              wellKeyed_empty) as (H & _).
  exact H.
Defined.

(** X23: creating an account under a fresh, non-empty username stores it with
    the username as subject id (whatever subject id was handed in), returns
    it, and a get by that username returns it again; all other accounts stay
    as they were, and deleting the account afterwards restores the store. *)
Theorem X23_mock_create_get (m : mock.MockClient) (user : userpool.User) :
  userpool.Username user <> "" ->
  mock.users m !! userpool.Username user = None ->
  fst (mock.CreateUser (Some user) m)
    = inl {| userpool.Username := userpool.Username user;
             userpool.Email := userpool.Email user;
             userpool.Enabled := userpool.Enabled user;
             userpool.Sub := userpool.Username user |}
  /\ fst (mock.GetUser (userpool.Username user) (snd (mock.CreateUser (Some user) m)))
     = fst (mock.CreateUser (Some user) m)
  /\ (forall k, k <> userpool.Username user ->
        mock.users (snd (mock.CreateUser (Some user) m)) !! k = mock.users m !! k)
  /\ mock.DeleteUser (userpool.Username user) (snd (mock.CreateUser (Some user) m))
     = (None, m).
Proof.
  intros Hne Hfresh. apply String.eqb_neq in Hne.
  unfold mock.CreateUser. rewrite Hne, Hfresh. cbn [fst snd].
  split; [done|]. split; [|split].
  - unfold mock.GetUser. rewrite Hne. simpl. by rewrite lookup_insert_eq.
  - intros k Hk. simpl. by rewrite lookup_insert_ne.
  - unfold mock.DeleteUser. rewrite Hne. simpl. rewrite lookup_insert_eq.
    rewrite delete_insert_id by done. by destruct m.
Qed.

Lemma X23_mock_create_get_witness :
  fst (mock.GetUser "alice"
         (snd (mock.CreateUser (Some (fixtures.account "alice" "a@x.com" true ""))
                 mock.NewMockClient)))
  = inl (fixtures.account "alice" "a@x.com" true "alice").
Proof.
  destruct (X23_mock_create_get mock.NewMockClient
              (fixtures.account "alice" "a@x.com" true "")) as (H1 & H2 & _).
  - discriminate.
  - reflexivity.
  - exact (eq_trans H2 H1).
Defined.

(** X24: creating an account under a username that is taken changes nothing:
    the stored account is returned as it is, without error, and the email and
    enabled flag handed in are ignored. *)
Theorem X24_mock_create_existing (m : mock.MockClient) (user existing : userpool.User) :
  userpool.Username user <> "" ->
  mock.users m !! userpool.Username user = Some existing ->
  mock.CreateUser (Some user) m = (inl existing, m).
Proof.
  intros Hne Hlook. apply String.eqb_neq in Hne.
  unfold mock.CreateUser. by rewrite Hne, Hlook.
Qed.

Lemma X24_mock_create_existing_witness :
  fst (mock.CreateUser (Some (fixtures.account "alice" "other@x.com" false ""))
         (snd (mock.CreateUser (Some (fixtures.account "alice" "a@x.com" true ""))
                 mock.NewMockClient)))
  = inl (fixtures.account "alice" "a@x.com" true "alice").
Proof.
  rewrite (X24_mock_create_existing
             (snd (mock.CreateUser (Some (fixtures.account "alice" "a@x.com" true ""))
                     mock.NewMockClient))
             (fixtures.account "alice" "other@x.com" false "")
             (fixtures.account "alice" "a@x.com" true "alice")).
  - reflexivity.
  - discriminate.
  - reflexivity.
Defined.

(** X25: updating a stored account replaces its email and enabled flag and
    erases its subject id: a get afterwards returns the username, the new
    email and flag, and the empty subject id, whatever subject id was stored
    or handed in. The other accounts stay as they were. *)
Theorem X25_mock_update_erases_sub (m : mock.MockClient) (user old : userpool.User) :
  userpool.Username user <> "" ->
  mock.users m !! userpool.Username user = Some old ->
  fst (mock.UpdateUser (Some user) m) = None
  /\ fst (mock.GetUser (userpool.Username user) (snd (mock.UpdateUser (Some user) m)))
     = inl {| userpool.Username := userpool.Username user;
              userpool.Email := userpool.Email user;
              userpool.Enabled := userpool.Enabled user;
              userpool.Sub := "" |}
  /\ (forall k, k <> userpool.Username user ->
        mock.users (snd (mock.UpdateUser (Some user) m)) !! k = mock.users m !! k).
Proof.
  intros Hne Hlook. apply String.eqb_neq in Hne.
  unfold mock.UpdateUser. rewrite Hne, Hlook. cbn [fst snd].
  split; [done|]. split.
  - unfold mock.GetUser. rewrite Hne. simpl. by rewrite lookup_insert_eq.
  - intros k Hk. simpl. by rewrite lookup_insert_ne.
Qed.

Lemma X25_mock_update_erases_sub_witness :
  fst (mock.GetUser "alice"
         (snd (mock.UpdateUser (Some (fixtures.account "alice" "new@x.com" false "alice"))
                 (snd (mock.CreateUser (Some (fixtures.account "alice" "a@x.com" true ""))
                         mock.NewMockClient)))))
  = inl (fixtures.account "alice" "new@x.com" false "").
Proof.
  destruct (X25_mock_update_erases_sub
              (snd (mock.CreateUser (Some (fixtures.account "alice" "a@x.com" true ""))
                      mock.NewMockClient))
              (fixtures.account "alice" "new@x.com" false "alice")
              (fixtures.account "alice" "a@x.com" true "alice")) as (_ & H & _).
  - discriminate.
  - reflexivity.
  - exact H.
Defined.

(** X26: deleting a stored account removes it and nothing else: a get by its
    username then fails with "user ... not found", and so does a second
    delete; the other accounts stay as they were. *)
Theorem X26_mock_delete (m : mock.MockClient) (username : string) (stored : userpool.User) :
  username <> "" ->
  mock.users m !! username = Some stored ->
  fst (mock.DeleteUser username m) = None
  /\ fst (mock.GetUser username (snd (mock.DeleteUser username m)))
     = inr (errorString ("user " ++ username ++ " not found"))
  /\ mock.DeleteUser username (snd (mock.DeleteUser username m))
     = (Some (errorString ("user " ++ username ++ " not found")),
        snd (mock.DeleteUser username m))
  /\ (forall k, k <> username ->
        mock.users (snd (mock.DeleteUser username m)) !! k = mock.users m !! k).
Proof.
  intros Hne Hlook. apply String.eqb_neq in Hne.
  assert (Hdel : mock.DeleteUser username m
                 = (None, {| mock.users := delete username (mock.users m) |})).
  { unfold mock.DeleteUser. by rewrite Hne, Hlook. }
  rewrite Hdel. cbn [fst snd].
  split; [done|]. split; [|split].
  - unfold mock.GetUser. rewrite Hne. simpl. by rewrite lookup_delete_eq.
  - unfold mock.DeleteUser. rewrite Hne. simpl. by rewrite lookup_delete_eq.
  - intros k Hk. simpl. by rewrite lookup_delete_ne.
Qed.

Lemma X26_mock_delete_witness :
  fst (mock.GetUser "alice"
         (snd (mock.DeleteUser "alice"
                 (snd (mock.CreateUser (Some (fixtures.account "alice" "a@x.com" true ""))
                         mock.NewMockClient)))))
  = inr (errorString "user alice not found").
Proof.
  destruct (X26_mock_delete
              (snd (mock.CreateUser (Some (fixtures.account "alice" "a@x.com" true ""))
                      mock.NewMockClient))
              "alice" (fixtures.account "alice" "a@x.com" true "alice")) as (_ & H & _).
  - discriminate.
  - reflexivity.
  - exact H.
Defined.

(** X27: an operation of the in-memory client that returns an error has not
    changed the store: this covers the nil user, the empty username, the
    update or delete of an account that is not stored and the get of one. *)
Theorem X27_mock_errors_change_nothing (m : mock.MockClient)
    (user : option userpool.User) (identifier : string) :
  (forall e, fst (mock.CreateUser user m) = inr e -> snd (mock.CreateUser user m) = m)
  /\ (forall e, fst (mock.UpdateUser user m) = Some e -> snd (mock.UpdateUser user m) = m)
  /\ (forall e, fst (mock.DeleteUser identifier m) = Some e ->
        snd (mock.DeleteUser identifier m) = m)
  /\ (mock.users m !! identifier = None ->
      exists e, mock.GetUser identifier m = (inr e, m)
                /\ mock.DeleteUser identifier m = (Some e, m)).
Proof.
  split; [|split; [|split]].
  - unfold mock.CreateUser. destruct user as [u|]; [|done].
    destruct (String.eqb (userpool.Username u) ""); [done|].
    by destruct (mock.users m !! userpool.Username u).
  - unfold mock.UpdateUser. destruct user as [u|]; [|done].
    destruct (String.eqb (userpool.Username u) ""); [done|].
    by destruct (mock.users m !! userpool.Username u).
  - unfold mock.DeleteUser. destruct (String.eqb identifier ""); [done|].
    by destruct (mock.users m !! identifier).
  - intros Habs. unfold mock.GetUser, mock.DeleteUser.
    destruct (String.eqb identifier ""); [by eexists|].
    rewrite Habs. by eexists.
Qed.

(** X28: whatever the order of the listing, [ListUsers] of the in-memory
    client returns one entry per stored account: as many entries as accounts,
    each the copy of a stored account with the subject id left empty, and
    every stored account is among them. *)
Theorem X28_mock_ListUsers (m : mock.MockClient) (result : list userpool.User) :
  mock.ListUsers m result ->
  length result = size (mock.users m)
  /\ (forall u,
        In u result
        <-> exists k stored, mock.users m !! k = Some stored /\ u = withoutSub stored)
  /\ (forall u, In u result -> userpool.Sub u = "").
Proof.
  unfold mock.ListUsers. intros Hperm.
  assert (Hin : forall u,
             In u result
             <-> exists k stored, mock.users m !! k = Some stored /\ u = withoutSub stored).
  { intros u. rewrite <- list_elem_of_In, Hperm, list_elem_of_fmap. split.
    - intros ([k stored] & -> & Hel). apply elem_of_map_to_list in Hel.
      by exists k, stored.
    - intros (k & stored & Hlook & ->). exists (k, stored). split; [done|].
      by apply elem_of_map_to_list. }
  split; [|split; [exact Hin|]].
  - rewrite Hperm, length_fmap. apply length_map_to_list.
  - intros u Hu. apply Hin in Hu. by destruct Hu as (k & stored & _ & ->).
Qed.

Lemma X28_mock_ListUsers_witness :
  length [fixtures.account "alice" "a@x.com" true ""]
  = size (mock.users
            (snd (mock.CreateUser (Some (fixtures.account "alice" "a@x.com" true "s"))
                    mock.NewMockClient))).
Proof.
  destruct (X28_mock_ListUsers
              (snd (mock.CreateUser (Some (fixtures.account "alice" "a@x.com" true "s"))
                      mock.NewMockClient))
              [fixtures.account "alice" "a@x.com" true ""]) as (H & _).
  - unfold mock.ListUsers.
    change (mock.users _)
      with (<["alice" := fixtures.account "alice" "a@x.com" true "alice"]>
              (∅ : gmap string userpool.User)).
    rewrite insert_empty, map_to_list_singleton. reflexivity.
  - exact H.
Defined.

(** ** The sync pass on the in-memory client *)

Lemma mock_GetUser_absent (m : mock.MockClient) (identifier : string) :
  mock.users m !! identifier = None ->
  exists e, mock.GetUser identifier m = (inr e, m).
Proof.
  intros Habs. unfold mock.GetUser.
  destruct (String.eqb identifier ""); [by eexists|]. rewrite Habs. by eexists.
Qed.

(** X29: two sync passes in a row on the in-memory client create one
    account. For a resource with a non-empty local name and no stored subject
    id, and a store that holds no account under that name nor under the spec
    email: the first pass fails to find the account by email, creates it under
    the local name and stores that name as subject id; the second pass, on the
    resource the first one left, finds the account under the stored subject
    id and issues neither create nor update, and the store is the same after
    it. *)
Theorem X29_mock_sync_twice (clock : time.Clock mock.MockClient)
    (user : kcpv1alpha1.User) (m : mock.MockClient) :
  (forall m0, snd (time.Now clock m0) = m0) ->
  kcpv1alpha1.Name user <> "" ->
  kcpv1alpha1.Sub (kcpv1alpha1.Status user) = "" ->
  mock.users m !! kcpv1alpha1.Name user = None ->
  mock.users m !! kcpv1alpha1.Email (kcpv1alpha1.Spec user) = None ->
  snd (fst (syncUserWithUserPool clock mock.MockClient_Client user (m, []))) = None
  /\ count is_CreateUser
       (snd (snd (syncUserWithUserPool clock mock.MockClient_Client user (m, [])))) = 1
  /\ kcpv1alpha1.Sub
       (kcpv1alpha1.Status
          (fst (fst (syncUserWithUserPool clock mock.MockClient_Client user (m, [])))))
     = kcpv1alpha1.Name user
  /\ mock.users
       (fst (snd (syncUserWithUserPool clock mock.MockClient_Client user (m, []))))
     = <[kcpv1alpha1.Name user :=
           {| userpool.Username := kcpv1alpha1.Name user;
              userpool.Email := kcpv1alpha1.Email (kcpv1alpha1.Spec user);
              userpool.Enabled := kcpv1alpha1.Enabled (kcpv1alpha1.Spec user);
              userpool.Sub := kcpv1alpha1.Name user |}]> (mock.users m)
  /\ snd (fst (syncUserWithUserPool clock mock.MockClient_Client
                 (fst (fst (syncUserWithUserPool clock mock.MockClient_Client user (m, []))))
                 (fst (snd (syncUserWithUserPool clock mock.MockClient_Client user (m, []))),
                  [])))
     = None
  /\ count is_mutation
       (snd (snd (syncUserWithUserPool clock mock.MockClient_Client
                    (fst (fst (syncUserWithUserPool clock mock.MockClient_Client user
                                 (m, []))))
                    (fst (snd (syncUserWithUserPool clock mock.MockClient_Client user
                                 (m, []))),
                     []))))
     = 0
  /\ getUserIdentifiers
       (snd (snd (syncUserWithUserPool clock mock.MockClient_Client
                    (fst (fst (syncUserWithUserPool clock mock.MockClient_Client user
                                 (m, []))))
                    (fst (snd (syncUserWithUserPool clock mock.MockClient_Client user
                                 (m, []))),
                     []))))
     = [kcpv1alpha1.Name user]
  /\ fst (snd (syncUserWithUserPool clock mock.MockClient_Client
                 (fst (fst (syncUserWithUserPool clock mock.MockClient_Client user (m, []))))
                 (fst (snd (syncUserWithUserPool clock mock.MockClient_Client user (m, []))),
                  [])))
     = fst (snd (syncUserWithUserPool clock mock.MockClient_Client user (m, []))).
Proof.
  intros Hclock Hname Hsub Hfresh Hemail.
  assert (Hname' : String.eqb (kcpv1alpha1.Name user) "" = false)
    by (by apply String.eqb_neq).
  destruct (mock_GetUser_absent m _ Hemail) as [e Hget].
  set (acct := {| userpool.Username := kcpv1alpha1.Name user;
                  userpool.Email := kcpv1alpha1.Email (kcpv1alpha1.Spec user);
                  userpool.Enabled := kcpv1alpha1.Enabled (kcpv1alpha1.Spec user);
                  userpool.Sub := kcpv1alpha1.Name user |}).
  set (m1 := {| mock.users := <[kcpv1alpha1.Name user := acct]> (mock.users m) |}).
  set (user1 := kcpv1alpha1.set_Status user
                  (createdStatus (kcpv1alpha1.Status user) (kcpv1alpha1.Name user)
                     (fst (time.Now clock m1)))).
  assert (Hpass1 :
            syncUserWithUserPool clock mock.MockClient_Client user (m, [])
            = ((user1, None),
               (m1, [CallGetUser (kcpv1alpha1.Email (kcpv1alpha1.Spec user)) (inr e);
                     CallCreateUser (Some (poolUserOf user)) (inl acct);
                     CallNow (fst (time.Now clock m1))]))).
  { rewrite sync_run. cbv zeta. unfold lookupIdentifier. rewrite Hsub. simpl negb.
    cbv iota. simpl userpool.GetUser.
    rewrite Hget. cbn [fst snd].
    simpl userpool.CreateUser. unfold mock.CreateUser. simpl userpool.Username.
    rewrite Hname', Hfresh. cbn [fst snd]. fold acct. fold m1.
    by rewrite (surjective_pairing (time.Now clock m1)), Hclock. }
  rewrite Hpass1. cbn [fst snd].
  assert (Hpass2 :
            syncUserWithUserPool clock mock.MockClient_Client user1 (m1, [])
            = ((kcpv1alpha1.set_Status user1
                  (syncedStatus (kcpv1alpha1.Status user1) (kcpv1alpha1.Name user)
                     (fst (time.Now clock m1))), None),
               (m1, [CallGetUser (kcpv1alpha1.Name user) (inl acct);
                     CallNow (fst (time.Now clock m1))]))).
  { rewrite sync_run. cbv zeta. unfold lookupIdentifier. simpl kcpv1alpha1.Sub.
    rewrite Hname'. simpl negb. cbv iota. simpl userpool.GetUser.
    unfold mock.GetUser. rewrite Hname'. simpl mock.users. rewrite lookup_insert_eq.
    cbn [fst snd]. unfold needsUpdate. simpl.
    rewrite String.eqb_refl, Bool.eqb_reflx. simpl.
    by rewrite (surjective_pairing (time.Now clock m1)), Hclock. }
  rewrite Hpass2. cbn [fst snd]. repeat split.
Qed.

Lemma X29_mock_sync_twice_witness :
  count is_CreateUser
    (snd (snd (syncUserWithUserPool fixtures.mockClock mock.MockClient_Client
                 fixtures.alice (mock.NewMockClient, []))))
  = 1.
Proof.
  destruct (X29_mock_sync_twice fixtures.mockClock fixtures.alice mock.NewMockClient)
    as (_ & H & _).
  - intros m0. reflexivity.
  - discriminate.
  - reflexivity.
  - reflexivity.
  - reflexivity.
  - exact H.
Defined.
